(** * Diabetes Care API (api.py): a shallow embedding and its properties

    The module [api.py] serves Fingertips indicator data through a handful of
    FastAPI handlers.  Every handler starts from [filter_data], which reads
    the (lazily cached) dataset of an indicator, keeps the rows of one area
    type and of one time period, and raises [HTTPException(404)] when either
    stage leaves nothing.

    Modelling conventions.
    - A pandas [DataFrame] is the list of its rows, in row order.
    - A float column holds [option Q]: [None] is NaN (a missing value) and
      [Some q] a finite number; sums, quotients and interpolations of
      finite numbers are exact.  The rounding of an arithmetic result to a
      double is represented where the module rounds a numpy scalar
      ([np_round]), whose outcome depends on it.
    - The module level dict [_cache] is a [gmap string CacheEntry] threaded
      through every handler; an exception leaves the writes done before it.
    - Calls that leave the module (the Fingertips client, geopandas'
      [read_file], scipy's [pearsonr] and [linregress], matplotlib's
      [scatter], the regular expression engine, the floating square root)
      are variables of the section [Api]. *)

From Stdlib Require Import ZArith QArith Qround Qminmax Qpower Lqa Lia.
From Stdlib Require Import List String Ascii Bool Permutation Sorted.
From stdpp Require Import gmap strings pretty.
Import ListNotations.

Open Scope string_scope.
Open Scope list_scope.

(** ** Values *)

(** A Python float as it occurs in a column or a statistic. *)
Definition float := option Q.

Definition NaN : float := None.

(** [pd.notna] / [pd.isna] on a scalar. *)
Definition notna {A} (x : option A) : bool :=
  match x with Some _ => true | None => false end.

Definition isna {A} (x : option A) : bool := negb (notna x).

(** Float comparisons: every comparison with NaN is [False]. *)
Definition float_ge (x : float) (c : Q) : bool :=
  match x with Some q => Qle_bool c q | None => false end.

Definition float_le (x : float) (c : Q) : bool :=
  match x with Some q => Qle_bool q c | None => false end.

Definition Qlt_bool (a b : Q) : bool := negb (Qle_bool b a).

Definition float_gt (x : float) (c : Q) : bool :=
  match x with Some q => Qlt_bool c q | None => false end.

Definition float_lt (x : float) (c : Q) : bool :=
  match x with Some q => Qlt_bool q c | None => false end.

(** Rounding of a rational to the nearest integer, ties to the even one. *)
Definition round_half_even (y : Q) : Z :=
  let f := Qfloor y in
  let r := (y - inject_Z f)%Q in
  match (r ?= 1 # 2)%Q with
  | Lt => f
  | Gt => (f + 1)%Z
  | Eq => if Z.even f then f else (f + 1)%Z
  end.

(** [round(x, ndigits)] on a finite Python float (a cell of a row): the
    decimal nearest to the number itself. *)
Definition Qround_digits (ndigits : nat) (x : Q) : Q :=
  let scale := inject_Z (10 ^ Z.of_nat ndigits) in
  (inject_Z (round_half_even (x * scale)) / scale)%Q.

(** [round(x, ndigits)] on a Python float: NaN stays NaN. *)
Definition round (x : float) (ndigits : nat) : float :=
  option_map (Qround_digits ndigits) x.

(** [2 ** e] for an integer exponent. *)
Definition pow2 (e : Z) : Q := (2 ^ e)%Q.

(** The binade of a positive number: the [e] with
    [2 ** e <= x < 2 ** (e + 1)]. *)
Definition binade (x : Q) : Z :=
  let e0 := (Z.log2 (Qnum x) - Z.log2 (Zpos (Qden x)))%Z in
  if Qle_bool (pow2 e0) x then e0 else (e0 - 1)%Z.

(** The exponent of the unit in the last place of the doubles of the size
    of a positive [x]: 53 significant bits, and [-1074] throughout the
    subnormal range. *)
Definition ulp_exponent (x : Q) : Z := Z.max (binade x - 52) (-1074).

(** The double nearest to a number that is not negative, ties to the even
    significand. *)
Definition nearest_double (x : Q) : Q :=
  let e := ulp_exponent x in
  (inject_Z (round_half_even (x / pow2 e)) * pow2 e)%Q.

(** The rounding of an arithmetic result to a double (IEEE 754 binary64,
    round to nearest, ties to even; overflow to infinity is left out). *)
Definition fl (x : Q) : Q :=
  Qred (match (x ?= 0)%Q with
        | Lt => - nearest_double (- x)
        | _ => nearest_double x
        end)%Q.

(** [round(x, ndigits)] on a finite numpy scalar (a statistic of a Series,
    a result of scipy): numpy multiplies by [10 ** ndigits], rounds to the
    nearest integer (ties to even) and divides again, each step in
    doubles. *)
Definition np_round_digits (ndigits : nat) (x : Q) : Q :=
  let scale := inject_Z (10 ^ Z.of_nat ndigits) in
  fl (inject_Z (round_half_even (fl (x * scale))) / scale).

(** [round(x, ndigits)] on a numpy scalar: NaN stays NaN. *)
Definition np_round (x : float) (ndigits : nat) : float :=
  option_map (np_round_digits ndigits) x.

(** [int(x)] on a finite number: truncation toward zero. *)
Definition int (x : Q) : Z := Z.quot (Qnum x) (Zpos (Qden x)).

(** ** Enums and reference data *)

Inductive IndicatorID :=
| TYPE1_9_CARE_PROCESSES
| TYPE2_9_CARE_PROCESSES
| TYPE1_RETINAL_SCREENING
| TYPE2_RETINAL_SCREENING
| TYPE1_TREATMENT_TARGETS
| TYPE2_TREATMENT_TARGETS
| TYPE1_STATIN_PRESCRIPTION
| TYPE2_STATIN_PRESCRIPTION.

Definition IndicatorID_value (i : IndicatorID) : Z :=
  match i with
  | TYPE1_9_CARE_PROCESSES => 94146
  | TYPE2_9_CARE_PROCESSES => 94147
  | TYPE1_RETINAL_SCREENING => 94148
  | TYPE2_RETINAL_SCREENING => 94149
  | TYPE1_TREATMENT_TARGETS => 94150
  | TYPE2_TREATMENT_TARGETS => 94151
  | TYPE1_STATIN_PRESCRIPTION => 94152
  | TYPE2_STATIN_PRESCRIPTION => 94153
  end%Z.

Inductive AreaType := ENGLAND | ICBS | ICB_SUB_LOCATIONS | GPS.

Definition AreaType_value (a : AreaType) : string :=
  match a with
  | ENGLAND => "England"
  | ICBS => "ICBs"
  | ICB_SUB_LOCATIONS => "ICB sub-locations"
  | GPS => "GPs"
  end.

Inductive ColorMap := RdYlGn | Blues | Greens | Reds | viridis | coolwarm | plasma.

Record IndicatorInfo := { info_name : string; info_description : string }.

Definition INDICATOR_INFO : gmap Z IndicatorInfo :=
  list_to_map
    [ (94146%Z, {| info_name := "Type 1 - All 9 care processes";
                   info_description := "% receiving all annual checks" |});
      (94147%Z, {| info_name := "Type 2 - All 9 care processes";
                   info_description := "% receiving all annual checks" |});
      (94148%Z, {| info_name := "Type 1 - Retinal screening";
                   info_description := "% getting eye exams (prevents blindness)" |});
      (94149%Z, {| info_name := "Type 2 - Retinal screening";
                   info_description := "% getting eye exams" |});
      (94150%Z, {| info_name := "Type 1 - All 3 treatment targets";
                   info_description := "% with HbA1c, BP & cholesterol under control" |});
      (94151%Z, {| info_name := "Type 2 - All 3 treatment targets";
                   info_description := "% with HbA1c, BP & cholesterol under control" |});
      (94152%Z, {| info_name := "Type 1 - Statin prescription";
                   info_description := "% prescribed statins for heart disease prevention" |});
      (94153%Z, {| info_name := "Type 2 - Statin prescription";
                   info_description := "% prescribed statins for heart disease prevention" |}) ].

Definition BOUNDARIES_URL : string :=
  "https://services1.arcgis.com/ESMARspQHYMw9BZ9/arcgis/rest/services/Integrated_Care_Boards_April_2023_EN_BGC/FeatureServer/0/query?where=1%3D1&outFields=*&outSR=4326&f=geojson".

(** ** Frames *)

(** One row of the Fingertips dataset, with the columns the module reads. *)
Record Row := {
  Area_Code : string;
  Area_Name : option string;
  Area_Type : string;
  Time_period : string;
  Value : float;
  Count : float;
  Denominator : float
}.

Definition DataFrame := list Row.

(** A polygon ring list stands for a boundary geometry. *)
Definition Geometry := list (list (Q * Q)).

Record Boundary := { ICB23CD : string; geometry : Geometry }.

Definition GeoDataFrame := list Boundary.

(** ** Exceptions, results and the cache monad *)

Inductive exn :=
| HTTPException (status_code : Z) (detail : string)
| KeyError (key : string)
| ReError (pattern : string)
| ValueError (message : string).

Inductive result (A : Type) :=
| Ok (a : A)
| Raise (e : exn).
Arguments Ok {A} a.
Arguments Raise {A} e.

(** What a slot of [_cache] holds: an indicator dataset or the boundaries. *)
Inductive CacheEntry :=
| IndicatorFrame (df : DataFrame)
| BoundaryFrame (gdf : GeoDataFrame).

Abbreviation Cache := (gmap string CacheEntry).

(** A handler: reads and writes [_cache], returns or raises. *)
Definition M (A : Type) : Type := Cache -> result A * Cache.

Definition ret {A} (a : A) : M A := fun c => (Ok a, c).

Definition raise {A} (e : exn) : M A := fun c => (Raise e, c).

Definition bind {A B} (m : M A) (k : A -> M B) : M B :=
  fun c =>
    match m c with
    | (Ok a, c') => k a c'
    | (Raise e, c') => (Raise e, c')
    end.

Declare Scope api_scope.
Delimit Scope api_scope with api.
Notation "x <- m ;; k" := (bind m (fun x => k))
  (at level 100, m at level 99, k at level 200, right associativity) : api_scope.
Open Scope api_scope.

(** Lifting of a pure partial step into a handler. *)
Definition lift {A} (r : result A) : M A := fun c => (r, c).

(** ** Frame operations (the pandas calls the module makes) *)

(** [df.empty] *)
Definition empty {A} (df : list A) : bool :=
  match df with [] => true | _ :: _ => false end.

(** [Series.dropna()] on a float column. *)
Fixpoint dropna (s : list float) : list Q :=
  match s with
  | [] => []
  | Some q :: s' => q :: dropna s'
  | None :: s' => dropna s'
  end.

(** The larger of two strings in Python's order on [str] (code points). *)
Definition str_max (a b : string) : string :=
  if String.ltb a b then b else a.

(** [Series.max()] on a column of strings with first element [s0]. *)
Definition Series_max (s0 : string) (rest : list string) : string :=
  fold_left str_max rest s0.

(** [Series.unique()]: the distinct values in order of first appearance. *)
Fixpoint unique (l : list string) : list string :=
  match l with
  | [] => []
  | x :: l' => x :: List.filter (fun y => negb (String.eqb y x)) (unique l')
  end.

(** Stable insertion: [x], which stood before every element of [l], goes
    behind exactly the elements that strictly precede it. *)
Fixpoint insert_by {A} (before : A -> A -> bool) (x : A) (l : list A) : list A :=
  match l with
  | [] => [x]
  | y :: l' => if before y x then y :: insert_by before x l' else x :: y :: l'
  end.

(** Stable sort for the strict order [before]. *)
Fixpoint sort_by {A} (before : A -> A -> bool) (l : list A) : list A :=
  match l with
  | [] => []
  | x :: l' => insert_by before x (sort_by before l')
  end.

(** [sorted(l, reverse=True)] on strings. *)
Definition sorted_reverse (l : list string) : list string :=
  sort_by (fun y x => String.ltb x y) l.

(** Rows ordered by the [Value] column; only rows with a value are compared. *)
Definition Value_lt (r1 r2 : Row) : bool :=
  match Value r1, Value r2 with
  | Some a, Some b => Qlt_bool a b
  | _, _ => false
  end.

Definition Value_gt (r1 r2 : Row) : bool := Value_lt r2 r1.

(** [df.dropna(subset=['Value'])] *)
Definition dropna_Value (df : DataFrame) : DataFrame :=
  List.filter (fun r => notna (Value r)) df.

(** [df.dropna(subset=['Value', 'Denominator'])] *)
Definition dropna_Value_Denominator (df : DataFrame) : DataFrame :=
  List.filter (fun r => notna (Value r) && notna (Denominator r)) df.

(** The rows whose [Value] is NaN, in row order. *)
Definition isna_Value (df : DataFrame) : DataFrame :=
  List.filter (fun r => isna (Value r)) df.

(** [df.sort_values('Value', ascending=False)]: values in descending order,
    NaN rows last.  pandas sorts with quicksort, which fixes no order among
    equal values; the model keeps them in row order. *)
Definition sort_values_desc (df : DataFrame) : DataFrame :=
  sort_by Value_gt (dropna_Value df) ++ isna_Value df.

(** [df.nlargest(n, 'Value')] with the default [keep='first']: the first [n]
    rows in descending order of value, NaN rows behind all others.  Among
    equal values pandas documents that the first occurrences are kept (it
    orders the candidates with a stable merge sort); when [n] is not below
    the number of rows it orders the whole column with [sort_values], which
    the model takes to keep row order among equal values as well. *)
Definition nlargest (n : nat) (df : DataFrame) : DataFrame :=
  firstn n (sort_by Value_gt (dropna_Value df) ++ isna_Value df).

(** [df.nsmallest(n, 'Value')], likewise in ascending order. *)
Definition nsmallest (n : nat) (df : DataFrame) : DataFrame :=
  firstn n (sort_by Value_lt (dropna_Value df) ++ isna_Value df).

(** [df.head(n)] for [n >= 0]. *)
Definition head (n : nat) (df : DataFrame) : DataFrame := firstn n df.

(** ** Series statistics *)

Definition Qsum (l : list Q) : Q := fold_right Qplus 0%Q l.

Definition Qlen (l : list Q) : Q := inject_Z (Z.of_nat (length l)).

(** [Series.sum()]: NaN skipped, 0 for an empty column. *)
Definition Series_sum (s : list float) : Q := Qsum (dropna s).

(** [Series.mean()] *)
Definition mean (v : list Q) : float :=
  match v with
  | [] => NaN
  | _ => Some (Qsum v / Qlen v)%Q
  end.

(** [Series.min()] and [Series.max()] on a float column without NaN. *)
Definition Qmin_list (v : list Q) : float :=
  match v with
  | [] => NaN
  | x :: v' => Some (fold_left Qmin v' x)
  end.

Definition Qmax_list (v : list Q) : float :=
  match v with
  | [] => NaN
  | x :: v' => Some (fold_left Qmax v' x)
  end.

(** The values in ascending order. *)
Definition sort_values (v : list Q) : list Q := sort_by Qlt_bool v.

(** Linear interpolation in the sorted values [s] at the virtual index [h]:
    between the neighbours [floor h] and [floor h + 1] (clipped to the last
    index), at the fraction [h - floor h]. *)
Definition lerp_at (s : list Q) (h : Q) : Q :=
  let lo := Z.to_nat (Qfloor h) in
  let hi := Nat.min (lo + 1) (length s - 1) in
  let gamma := (h - inject_Z (Qfloor h))%Q in
  let a := nth lo s 0%Q in
  let b := nth hi s 0%Q in
  (a + (b - a) * gamma)%Q.

(** [Series.quantile(q)] with the default linear interpolation, at the
    virtual index [q (n - 1)] of the sorted values. *)
Definition quantile (q : Q) (v : list Q) : float :=
  match v with
  | [] => NaN
  | _ =>
      let s := sort_values v in
      let n := length s in
      Some (lerp_at s (q * inject_Z (Z.of_nat (n - 1))))
  end.

(** [Series.median()]: the middle value, or the mean of the two middle ones. *)
Definition median (v : list Q) : float :=
  match v with
  | [] => NaN
  | _ =>
      let s := sort_values v in
      let n := length v in
      if Nat.odd n then Some (nth (n / 2) s 0%Q)
      else Some ((nth (n / 2 - 1) s 0%Q + nth (n / 2) s 0%Q) / 2)%Q
  end.

(** ** Responses *)

Record TimePeriods := {
  time_periods : list string;
  latest : option string
}.

Record DataRecord := {
  rec_area_code : string;
  rec_area_name : option string;
  rec_value : float;
  rec_count : option Z;
  rec_denominator : option Z
}.

Record DataResponse := {
  data_indicator : IndicatorInfo;
  data_area_type : string;
  data_time_period : string;
  data_count : nat;
  data : list DataRecord
}.

Record Statistics := {
  stat_mean : float;
  stat_std : float;
  stat_min : float;
  percentile_25 : float;
  stat_median : float;
  percentile_75 : float;
  stat_max : float
}.

Record Summary := {
  summary_indicator : IndicatorInfo;
  summary_area_type : string;
  summary_time_period : string;
  areas_count : nat;
  total_patients : option Z;
  statistics : Statistics
}.

Inductive Order := top | bottom.

Record Ranking := {
  rank : nat;
  rank_area_code : string;
  rank_area_name : option string;
  rank_value : float;
  patient_count : option Z
}.

Record Rankings := {
  rankings_indicator : IndicatorInfo;
  rankings_area_type : string;
  rankings_time_period : string;
  rankings_order : Order;
  rankings : list Ranking
}.

Record Correlation := {
  corr_r : float;
  corr_p_value : float;
  significant : bool;
  interpretation : string
}.

Record CorrelationResponse := {
  corr_indicator : IndicatorInfo;
  corr_area_type : string;
  corr_time_period : string;
  correlation : Correlation
}.

(** A row of the frame [gdf.merge(df[...], how='left')]. *)
Record MergedRow := {
  m_ICB23CD : string;
  m_geometry : Geometry;
  m_Area_Code : option string;
  m_Area_Name : option string;
  m_Value : float
}.

(** How a polygon is filled: by the colour map at its value, scaled between
    the least and the largest value drawn, or by [missing_kwds]. *)
Inductive Fill :=
| Scaled (cmap : ColorMap) (vmin vmax : float) (v : Q)
| Missing (color : string) (label : string).

Record Patch := { patch_geometry : Geometry; patch_fill : Fill }.

Record Figure := {
  figsize : Q * Q;
  patches : list Patch;
  legend_label : string;
  fig_title : string
}.

(** The PNG written by [plt.savefig], described by what it shows. *)
Record Png := { png_figure : Figure; png_dpi : Z }.

Inductive ImageFormat := png | base64.

Inductive MapResponse :=
| StreamingResponse (buf : Png)
| Base64Json (image : Png).

(** ** Sample datasets

    Small frames on which the handlers are run further down. *)

Definition mk_row (code name area period : string) (value denominator : float) : Row :=
  {| Area_Code := code; Area_Name := Some name; Area_Type := area;
     Time_period := period; Value := value; Count := None;
     Denominator := denominator |}.

(** Three boards over two years, and the national row. *)
Definition sample_data : DataFrame :=
  [ mk_row "E92000001" "England" "England" "2023/24" (Some (45 # 1)) (Some (3000 # 1));
    mk_row "E54000008" "Cheshire and Merseyside" "ICBs" "2022/23" (Some (41 # 1)) (Some (900 # 1));
    mk_row "E54000008" "Cheshire and Merseyside" "ICBs" "2023/24" (Some (43 # 1)) (Some (950 # 1));
    mk_row "E54000010" "Staffordshire" "ICBs" "2023/24" (Some (52 # 1)) (Some (400 # 1));
    mk_row "E54000011" "Shropshire" "ICBs" "2023/24" None (Some (150 # 1)) ].

Definition sample_fetch (indicator_id : Z) : DataFrame := sample_data.

(** A stand-in for [pearsonr] on the sample frames. *)
Definition sample_pearsonr (x y : list Q) : float * float :=
  (Some (- (1 # 2))%Q, Some (1 # 100)%Q).

(** One board in 2023/24. *)
Definition board (code : string) (value denominator : Z) : Row :=
  mk_row code code "ICBs" "2023/24" (Some (inject_Z value)) (Some (inject_Z denominator)).

(** Six boards with pairwise different values. *)
Definition sample_six : DataFrame :=
  [ board "E54000001" 55 1200; board "E54000002" 42 800;
    board "E54000003" 61 950;  board "E54000004" 48 400;
    board "E54000005" 39 1500; board "E54000006" 70 300 ].

(** Ten boards with pairwise different values. *)
Definition sample_ten : DataFrame :=
  sample_six ++
  [ board "E54000007" 44 700; board "E54000008" 58 650;
    board "E54000009" 51 1100; board "E54000010" 66 500 ].

(** Ten boards that all have the same value. *)
Definition sample_tied : DataFrame :=
  map (fun row => board (Area_Code row) 50 1000) sample_ten.

Definition sample_fetch_six (indicator_id : Z) : DataFrame := sample_six.

Definition sample_fetch_ten (indicator_id : Z) : DataFrame := sample_ten.

Definition sample_fetch_tied (indicator_id : Z) : DataFrame := sample_tied.

(** Four boundaries; no row of [sample_data] has the code of the last. *)
Definition square (x y : Z) : Geometry :=
  [ [ (inject_Z x, inject_Z y); (inject_Z (x + 1), inject_Z y);
      (inject_Z (x + 1), inject_Z (y + 1)); (inject_Z x, inject_Z (y + 1)) ] ].

Definition sample_boundaries : GeoDataFrame :=
  [ {| ICB23CD := "E54000008"; geometry := square 0 0 |};
    {| ICB23CD := "E54000010"; geometry := square 1 0 |};
    {| ICB23CD := "E54000011"; geometry := square 0 1 |};
    {| ICB23CD := "E54000099"; geometry := square 1 1 |} ].

Definition sample_read_file (url : string) : GeoDataFrame := sample_boundaries.

(** A stand-in for the floating square root on the sample frames. *)
Definition sample_sqrt (x : Q) : Q := x.

(** Two boards whose value is missing. *)
Definition sample_no_values : DataFrame :=
  [ mk_row "E54000008" "Cheshire and Merseyside" "ICBs" "2023/24" None (Some (950 # 1));
    mk_row "E54000010" "Staffordshire" "ICBs" "2023/24" None None ].

Definition sample_fetch_no_values (indicator_id : Z) : DataFrame := sample_no_values.

(** A second stand-in for [pearsonr], different below 3 points. *)
Definition sample_pearsonr_guarded (x y : list Q) : float * float :=
  if (length x <? 3)%nat then (NaN, NaN) else sample_pearsonr x y.

(** A stand-in for [pearsonr] whose results have more than 4 decimals:
    [r = -0.8759765625] and [p = 0.0078125], both doubles. *)
Definition sample_pearsonr_long (x y : list Q) : float * float :=
  (Some (- (897 # 1024))%Q, Some (1 # 128)%Q).

(** Ten boards that all have the same number of patients. *)
Definition sample_level : DataFrame :=
  map (fun row => {| Area_Code := Area_Code row; Area_Name := Area_Name row;
                     Area_Type := Area_Type row; Time_period := Time_period row;
                     Value := Value row; Count := Count row;
                     Denominator := Some (1000 # 1)%Q |}) sample_ten.

Definition sample_fetch_level (indicator_id : Z) : DataFrame := sample_level.

(** Stand-ins for [linregress], which refuses identical [x], for the colours
    [scatter] reads, and for the [.3f] format. *)
Definition sample_linregress (x y : list Q)
    : result (float * float * float * float * float) :=
  match x with
  | x0 :: _ =>
      if forallb (Qeq_bool x0) x then
        Raise (ValueError
                 "Cannot calculate a linear regression if all x values are identical")
      else Ok (Some (- (1 # 100))%Q, Some (60 # 1)%Q, Some (- (1 # 2))%Q,
               Some (1 # 100)%Q, Some (1 # 10)%Q)
  | [] => Raise (ValueError "Inputs must not be empty.")
  end.

Definition sample_scatter_error (color : string) : option string :=
  if String.eqb color "steelblue" || String.eqb color "red" then None
  else Some ("'color' kwarg must be a color or sequence of color specs.").

Definition sample_format_3f (x : float) : string :=
  match x with Some _ => "0.000" | None => "nan" end.

(** ** The module *)

Section Api.

(** [ftp.get_data_for_indicator_at_all_available_geographies], on the runs
    in which the upstream answers.  A fetch that raises ends the request
    before anything is written to the cache; such runs are not represented,
    and no statement below speaks about them. *)
Variable get_data_for_indicator_at_all_available_geographies : Z -> DataFrame.

(** [gpd.read_file], likewise on the runs in which it returns. *)
Variable read_file : string -> GeoDataFrame.

(** [re.compile(pat, re.IGNORECASE)] followed by [search(x) is not None];
    [None] when the pattern does not compile. *)
Variable re_search_ignorecase : string -> option (string -> bool).

(** The floating square root behind [Series.std]. *)
Variable sqrt : Q -> Q.

(** [scipy.stats.pearsonr(x, y)]: the coefficient and its two-sided p-value. *)
Variable pearsonr : list Q -> list Q -> float * float.

(** [get_indicator_data]: fetch on the first access, then serve the slot. *)
Definition get_indicator_data (indicator_id : Z) : M CacheEntry :=
  fun _cache =>
    let cache_key := "indicator_" +:+ pretty indicator_id in
    let _cache :=
      match _cache !! cache_key with
      | None =>
          <[cache_key :=
              IndicatorFrame
                (get_data_for_indicator_at_all_available_geographies indicator_id)]>
            _cache
      | Some _ => _cache
      end in
    match _cache !! cache_key with
    | Some entry => (Ok entry, _cache)
    | None => (Raise (KeyError cache_key), _cache)
    end.

(** [get_boundaries] *)
Definition get_boundaries : M CacheEntry :=
  fun _cache =>
    let _cache :=
      match _cache !! "boundaries" with
      | None => <["boundaries" := BoundaryFrame (read_file BOUNDARIES_URL)]> _cache
      | Some _ => _cache
      end in
    match _cache !! "boundaries" with
    | Some entry => (Ok entry, _cache)
    | None => (Raise (KeyError "boundaries"), _cache)
    end.

(** Reading an indicator column such as [data['Area Type']]: the boundary
    frame has no such column. *)
Definition indicator_columns (data : CacheEntry) : result DataFrame :=
  match data with
  | IndicatorFrame df => Ok df
  | BoundaryFrame _ => Raise (KeyError "Area Type")
  end.

(** Reading [gdf['ICB23CD']] for the merge. *)
Definition boundary_columns (gdf : CacheEntry) : result GeoDataFrame :=
  match gdf with
  | BoundaryFrame g => Ok g
  | IndicatorFrame _ => Raise (KeyError "ICB23CD")
  end.

(** [filter_data] *)
Definition filter_data (indicator_id : Z) (area_type : string)
    (time_period : option string) : M (DataFrame * string) :=
  data <- get_indicator_data indicator_id ;;
  data <- lift (indicator_columns data) ;;
  let df := List.filter (fun row => String.eqb (Area_Type row) area_type) data in
  match df with
  | [] =>
      raise (HTTPException 404 ("No data for area type '" +:+ area_type +:+ "'"))
  | row0 :: rest =>
      let time_period :=
        match time_period with
        | None => Series_max (Time_period row0) (map Time_period rest)
        | Some t => t
        end in
      let df := List.filter (fun row => String.eqb (Time_period row) time_period) df in
      if empty df then
        raise (HTTPException 404 ("No data for time period '" +:+ time_period +:+ "'"))
      else ret (df, time_period)
  end.

(** [INDICATOR_INFO[indicator_id.value]] *)
Definition indicator_info (indicator_id : IndicatorID) : M IndicatorInfo :=
  match INDICATOR_INFO !! IndicatorID_value indicator_id with
  | Some info => ret info
  | None => raise (KeyError (pretty (IndicatorID_value indicator_id)))
  end.

(** [GET /time-periods] *)
Definition list_time_periods (indicator_id : IndicatorID) (area_type : AreaType)
    : M TimePeriods :=
  data <- get_indicator_data (IndicatorID_value indicator_id) ;;
  data <- lift (indicator_columns data) ;;
  let df := List.filter (fun row => String.eqb (Area_Type row) (AreaType_value area_type)) data in
  let periods := sorted_reverse (unique (map Time_period df)) in
  ret {| time_periods := periods;
         latest := match periods with p :: _ => Some p | [] => None end |}.

(** The record built for one row of [GET /data]. *)
Definition data_record (row : Row) : DataRecord :=
  {| rec_area_code := Area_Code row;
     rec_area_name := Area_Name row;
     rec_value := round (Value row) 2;
     rec_count := option_map int (Count row);
     rec_denominator := option_map int (Denominator row) |}.

(** The optional area-name step of [GET /data]:
    [df[df['Area Name'].str.contains(pat, case=False, na=False)]], skipped
    for an absent or empty pattern. *)
Definition area_name_filter (area_name_contains : option string) (df : DataFrame)
    : M DataFrame :=
  match area_name_contains with
  | None | Some "" => ret df
  | Some pat =>
      match re_search_ignorecase pat with
      | None => raise (ReError pat)
      | Some found =>
          ret (List.filter
                 (fun row => match Area_Name row with
                             | Some name => found name
                             | None => false
                             end) df)
      end
  end.

(** [GET /data] *)
Definition get_data (indicator_id : IndicatorID) (area_type : AreaType)
    (time_period : option string) (area_name_contains : option string)
    (min_value max_value : option Q) (limit : option nat) : M DataResponse :=
  filtered <- filter_data (IndicatorID_value indicator_id) (AreaType_value area_type) time_period ;;
  let '(df, period) := filtered in
  df <- area_name_filter area_name_contains df ;;
  let df := match min_value with
            | Some m => List.filter (fun row => float_ge (Value row) m) df
            | None => df
            end in
  let df := match max_value with
            | Some m => List.filter (fun row => float_le (Value row) m) df
            | None => df
            end in
  let df := sort_values_desc df in
  let df := match limit with
            | None | Some O => df
            | Some n => head n df
            end in
  let records := map data_record df in
  info <- indicator_info indicator_id ;;
  ret {| data_indicator := info;
         data_area_type := AreaType_value area_type;
         data_time_period := period;
         data_count := length records;
         data := records |}.

(** [Series.std()]: the sample standard deviation (divisor [n - 1]). *)
Definition std (v : list Q) : float :=
  if (length v <? 2)%nat then NaN
  else
    let m := (Qsum v / Qlen v)%Q in
    Some (sqrt (Qsum (map (fun x => (x - m) * (x - m))%Q v) / (Qlen v - 1))%Q).

(** [GET /summary] *)
Definition get_summary (indicator_id : IndicatorID) (area_type : AreaType)
    (time_period : option string) : M Summary :=
  filtered <- filter_data (IndicatorID_value indicator_id) (AreaType_value area_type) time_period ;;
  let '(df, period) := filtered in
  let values := dropna (map Value df) in
  info <- indicator_info indicator_id ;;
  ret {| summary_indicator := info;
         summary_area_type := AreaType_value area_type;
         summary_time_period := period;
         areas_count := length values;
         total_patients := Some (int (Series_sum (map Denominator df)));
         statistics :=
           {| stat_mean := np_round (mean values) 2;
              stat_std := np_round (std values) 2;
              stat_min := np_round (Qmin_list values) 2;
              percentile_25 := np_round (quantile (1 # 4) values) 2;
              stat_median := np_round (median values) 2;
              percentile_75 := np_round (quantile (3 # 4) values) 2;
              stat_max := np_round (Qmax_list values) 2 |} |}.

(** [enumerate(rows, start)] *)
Fixpoint enumerate {A} (start : nat) (rows : list A) : list (nat * A) :=
  match rows with
  | [] => []
  | row :: rows' => (start, row) :: enumerate (S start) rows'
  end.

(** The entry appended for one ranked row. *)
Definition ranking_entry (ranked : nat * Row) : Ranking :=
  let '(rank, row) := ranked in
  {| rank := rank;
     rank_area_code := Area_Code row;
     rank_area_name := Area_Name row;
     rank_value := round (Value row) 2;
     patient_count := option_map int (Denominator row) |}.

(** [GET /rankings] *)
Definition get_rankings (indicator_id : IndicatorID) (area_type : AreaType)
    (time_period : option string) (n : nat) (order : Order) : M Rankings :=
  filtered <- filter_data (IndicatorID_value indicator_id) (AreaType_value area_type) time_period ;;
  let '(df, period) := filtered in
  let df := dropna_Value df in
  let df := match order with
            | top => nlargest n df
            | bottom => nsmallest n df
            end in
  let rankings := map ranking_entry (enumerate 1 df) in
  info <- indicator_info indicator_id ;;
  ret {| rankings_indicator := info;
         rankings_area_type := AreaType_value area_type;
         rankings_time_period := period;
         rankings_order := order;
         rankings := rankings |}.

(** The sentence chosen from [r] and [p]. *)
Definition interpret (r p : float) : string :=
  if float_ge p (5 # 100) then
    "No significant relationship between population size and care quality."
  else if float_gt r (3 # 10) then
    "Larger populations tend to have better care quality."
  else if float_lt r (- (3 # 10)) then
    "Larger populations tend to have worse care quality."
  else
    "Weak relationship between population size and care quality.".

(** [GET /correlation] *)
Definition get_correlation (indicator_id : IndicatorID) (area_type : AreaType)
    (time_period : option string) : M CorrelationResponse :=
  filtered <- filter_data (IndicatorID_value indicator_id) (AreaType_value area_type) time_period ;;
  let '(df, period) := filtered in
  let df := dropna_Value_Denominator df in
  if (length df <? 3)%nat then
    raise (HTTPException 400 "Insufficient data for correlation analysis")
  else
    let x := dropna (map Denominator df) in
    let y := dropna (map Value df) in
    let '(r, p) := pearsonr x y in
    let interpretation := interpret r p in
    info <- indicator_info indicator_id ;;
    ret {| corr_indicator := info;
           corr_area_type := AreaType_value area_type;
           corr_time_period := period;
           correlation :=
             {| corr_r := np_round r 4;
                corr_p_value := np_round p 4;
                significant := float_lt p (5 # 100);
                interpretation := interpretation |} |}.

(** [gdf.merge(df[['Area Code', 'Area Name', 'Value']], left_on='ICB23CD',
    right_on='Area Code', how='left')]: every boundary in order, once per
    indicator row with its code, or once with NaN in the right columns. *)
Definition merge_left (gdf : GeoDataFrame) (df : DataFrame) : list MergedRow :=
  flat_map
    (fun b =>
       match List.filter (fun row => String.eqb (ICB23CD b) (Area_Code row)) df with
       | [] => [ {| m_ICB23CD := ICB23CD b; m_geometry := geometry b;
                    m_Area_Code := None; m_Area_Name := None; m_Value := NaN |} ]
       | matches =>
           map (fun row => {| m_ICB23CD := ICB23CD b; m_geometry := geometry b;
                              m_Area_Code := Some (Area_Code row);
                              m_Area_Name := Area_Name row;
                              m_Value := Value row |}) matches
       end)
    gdf.

(** [gdf_plot.plot(column='Value', cmap=..., missing_kwds=...)]: the rows
    with a value are drawn first, coloured by the map between the extreme
    values; the rows without one follow in the [missing_kwds] style. *)
Definition plot (cmap : ColorMap) (gdf_plot : list MergedRow) : list Patch :=
  let values := dropna (map m_Value gdf_plot) in
  let vmin := Qmin_list values in
  let vmax := Qmax_list values in
  flat_map
    (fun row => match m_Value row with
                | Some v => [ {| patch_geometry := m_geometry row;
                                 patch_fill := Scaled cmap vmin vmax v |} ]
                | None => []
                end) gdf_plot
  ++
  flat_map
    (fun row => match m_Value row with
                | Some _ => []
                | None => [ {| patch_geometry := m_geometry row;
                               patch_fill := Missing "lightgrey" "No data" |} ]
                end) gdf_plot.

Definition newline : string := String "010"%char "".

(** [GET /map] *)
Definition generate_map (indicator_id : IndicatorID) (time_period : option string)
    (cmap : ColorMap) (figsize_width figsize_height : Q) (dpi : Z)
    (title : option string) (format : ImageFormat) : M MapResponse :=
  filtered <- filter_data (IndicatorID_value indicator_id) "ICBs" time_period ;;
  let '(df, period) := filtered in
  gdf <- get_boundaries ;;
  gdf <- lift (boundary_columns gdf) ;;
  let gdf_plot := merge_left gdf df in
  info <- indicator_info indicator_id ;;
  let map_title :=
    match title with
    | None | Some "" => info_name info +:+ newline +:+ "by ICB - " +:+ period
    | Some t => t
    end in
  let fig :=
    {| figsize := (figsize_width, figsize_height);
       patches := plot cmap gdf_plot;
       legend_label := "% - " +:+ info_name info;
       fig_title := map_title |} in
  let buf := {| png_figure := fig; png_dpi := dpi |} in
  match format with
  | base64 => ret (Base64Json buf)
  | png => ret (StreamingResponse buf)
  end.

(** [POST /cache/clear] *)
Definition clear_cache : M string :=
  fun _ => (Ok "Cache cleared", ∅).

(** [GET /health] *)
Definition health : M (string * nat) :=
  fun _cache => (Ok ("ok", size _cache), _cache).

(** ** Vocabulary of the statements *)


(** [a] may stand before [b] in a ranking in the given order: its value is
    not smaller (top) or not larger (bottom). *)
Definition ranked_before (order : Order) (a b : Row) : Prop :=
  forall va vb, Value a = Some va -> Value b = Some vb ->
    match order with
    | top => (vb <= va)%Q
    | bottom => (va <= vb)%Q
    end.

(** The row has a value. *)
Definition valued (row : Row) : Prop := notna (Value row) = true.

(** The strict order the selection of [order] sorts by. *)
Definition order_before (order : Order) : Row -> Row -> bool :=
  match order with top => Value_gt | bottom => Value_lt end.

(** A cache as the module fills it: the slots of indicators hold indicator
    datasets. *)
Definition cache_ok (c : Cache) : Prop :=
  forall (indicator_id : Z) (entry : CacheEntry),
    c !! ("indicator_" +:+ pretty indicator_id) = Some entry ->
    exists df, entry = IndicatorFrame df.

(** ** The remaining handlers *)

(** [ax.scatter(x, y, ..., color=point_color)]: matplotlib draws the points,
    or raises [ValueError] with the returned message for a [color] it cannot
    read. *)
Variable scatter_error : string -> option string.

(** [scipy.stats.linregress(x, y)]: slope, intercept, r, p and standard
    error, or the exception scipy raises (a [ValueError] when all [x] are
    identical). *)
Variable linregress :
  list Q -> list Q -> result (float * float * float * float * float).

(** The format specification [.3f] of an f-string. *)
Variable format_3f : float -> string.

(** Float arithmetic: NaN is absorbing. *)
Definition float_mul (a b : float) : float :=
  match a, b with
  | Some x, Some y => Some (x * y)%Q
  | _, _ => NaN
  end.

Definition float_add (a b : float) : float :=
  match a, b with
  | Some x, Some y => Some (x + y)%Q
  | _, _ => NaN
  end.

(** The dashed line of [ax.plot(x, slope * x + intercept, 'r--', label=...)]. *)
Record RegressionLine := {
  line_points : list (Q * float);
  line_label : string
}.

Record Chart := {
  chart_figsize : Q * Q;
  scatter_points : list (Q * Q);
  scatter_color : string;
  regression : option RegressionLine;
  xlabel : string;
  ylabel : string;
  chart_title : string
}.

Record ChartPng := { chart_figure : Chart; chart_dpi : Z }.

Inductive ChartResponse :=
| ChartStreamingResponse (buf : ChartPng)
| ChartBase64Json (image : ChartPng).

(** [ax.plot(x, slope * x + intercept, 'r--', label=f'r = {r:.3f}, p =
    {p:.3f}')] on what [linregress] gave: the line, or the exception of
    [linregress]. *)
Definition regression_line
    (fit : result (float * float * float * float * float)) (x : list Q)
    : result (option RegressionLine) :=
  match fit with
  | Ok (slope, intercept, r, p, se) =>
      Ok (Some {| line_points :=
                    map (fun xi => (xi, float_add (float_mul slope (Some xi)) intercept)) x;
                  line_label := "r = " +:+ format_3f r +:+ ", p = " +:+ format_3f p |})
  | Raise e => Raise e
  end.

(** [GET /chart] *)
Definition generate_chart (indicator_id : IndicatorID) (area_type : AreaType)
    (time_period : option string) (figsize_width figsize_height : Q) (dpi : Z)
    (point_color : string) (show_regression : bool) (title : option string)
    (format : ImageFormat) : M ChartResponse :=
  filtered <- filter_data (IndicatorID_value indicator_id) (AreaType_value area_type) time_period ;;
  let '(df, period) := filtered in
  let df := dropna_Value_Denominator df in
  let x := dropna (map Denominator df) in
  let y := dropna (map Value df) in
  match scatter_error point_color with
  | Some message => raise (ValueError message)
  | None =>
      line <- lift (if show_regression && (2 <=? length x)%nat then
                      regression_line (linregress x y) x
                    else Ok None) ;;
      info <- indicator_info indicator_id ;;
      let chart_title :=
        match title with
        | None | Some "" =>
            info_name info +:+ newline +:+ "Population vs Quality - " +:+ period
        | Some t => t
        end in
      let fig :=
        {| chart_figsize := (figsize_width, figsize_height);
           scatter_points := combine x y;
           scatter_color := point_color;
           regression := line;
           xlabel := "Number of Patients";
           ylabel := "% Value";
           chart_title := chart_title |} in
      let buf := {| chart_figure := fig; chart_dpi := dpi |} in
      match format with
      | base64 => ret (ChartBase64Json buf)
      | png => ret (ChartStreamingResponse buf)
      end
  end.

(** The items of [INDICATOR_INFO] in the order the dict literal lists them. *)
Definition INDICATOR_INFO_items : list (Z * IndicatorInfo) :=
  [ (94146%Z, {| info_name := "Type 1 - All 9 care processes";
                 info_description := "% receiving all annual checks" |});
    (94147%Z, {| info_name := "Type 2 - All 9 care processes";
                 info_description := "% receiving all annual checks" |});
    (94148%Z, {| info_name := "Type 1 - Retinal screening";
                 info_description := "% getting eye exams (prevents blindness)" |});
    (94149%Z, {| info_name := "Type 2 - Retinal screening";
                 info_description := "% getting eye exams" |});
    (94150%Z, {| info_name := "Type 1 - All 3 treatment targets";
                 info_description := "% with HbA1c, BP & cholesterol under control" |});
    (94151%Z, {| info_name := "Type 2 - All 3 treatment targets";
                 info_description := "% with HbA1c, BP & cholesterol under control" |});
    (94152%Z, {| info_name := "Type 1 - Statin prescription";
                 info_description := "% prescribed statins for heart disease prevention" |});
    (94153%Z, {| info_name := "Type 2 - Statin prescription";
                 info_description := "% prescribed statins for heart disease prevention" |}) ].

Record IndicatorEntry := {
  entry_id : Z;
  entry_name : string;
  entry_description : string
}.

(** [GET /indicators] *)
Definition list_indicators : M (list IndicatorEntry) :=
  ret (map (fun item : Z * IndicatorInfo =>
              let '(k, v) := item in
              {| entry_id := k;
                 entry_name := info_name v;
                 entry_description := info_description v |})
           INDICATOR_INFO_items).

(** The values of the enum [IndicatorID], in the order of its members. *)
Definition IndicatorID_members : list IndicatorID :=
  [ TYPE1_9_CARE_PROCESSES; TYPE2_9_CARE_PROCESSES;
    TYPE1_RETINAL_SCREENING; TYPE2_RETINAL_SCREENING;
    TYPE1_TREATMENT_TARGETS; TYPE2_TREATMENT_TARGETS;
    TYPE1_STATIN_PRESCRIPTION; TYPE2_STATIN_PRESCRIPTION ].

(** A row may stand before another in the listing of [GET /data]: its
    value is not smaller, or the other row has none. *)
Definition listed_before (a b : Row) : Prop :=
  match Value a, Value b with
  | Some va, Some vb => (vb <= va)%Q
  | Some _, None => True
  | None, Some _ => False
  | None, None => True
  end.

(** A float may stand before another in a ranking of the given order. *)
Definition float_ranked_before (order : Order) (a b : float) : Prop :=
  match a, b with
  | Some x, Some y =>
      match order with
      | top => (y <= x)%Q
      | bottom => (x <= y)%Q
      end
  | _, _ => False
  end.

(** * Properties *)

(** Linear arithmetic with division by a constant. *)
Ltac lia_div := zify; Z.to_euclidean_division_equations; lia.

(** ** The order on strings *)

Lemma ascii_compare_refl (a : ascii) : Ascii.compare a a = Eq.
Proof. unfold Ascii.compare. apply N.compare_refl. Qed.

Lemma ascii_compare_trans_lt (a b c : ascii) :
  Ascii.compare a b = Lt -> Ascii.compare b c = Lt -> Ascii.compare a c = Lt.
Proof.
  unfold Ascii.compare. rewrite !N.compare_lt_iff. lia.
Qed.

Lemma string_compare_refl (s : string) : String.compare s s = Eq.
Proof.
  induction s as [|a s IH]; simpl; [reflexivity|].
  now rewrite ascii_compare_refl.
Qed.

Lemma string_compare_trans_lt (s1 : string) :
  forall s2 s3,
    String.compare s1 s2 = Lt -> String.compare s2 s3 = Lt ->
    String.compare s1 s3 = Lt.
Proof.
  induction s1 as [|a s1 IH]; intros [|b s2] [|c s3]; simpl; try congruence.
  destruct (Ascii.compare a b) eqn:Hab; try discriminate;
    destruct (Ascii.compare b c) eqn:Hbc; try discriminate; intros H12 H23.
  - apply Ascii.compare_eq_iff in Hab, Hbc. subst.
    rewrite ascii_compare_refl. eauto.
  - apply Ascii.compare_eq_iff in Hab. subst. now rewrite Hbc.
  - apply Ascii.compare_eq_iff in Hbc. subst. now rewrite Hab.
  - now rewrite (ascii_compare_trans_lt _ _ _ Hab Hbc).
Qed.

Lemma string_leb_refl (s : string) : String.leb s s = true.
Proof. unfold String.leb. now rewrite string_compare_refl. Qed.

Lemma string_leb_trans (s1 s2 s3 : string) :
  String.leb s1 s2 = true -> String.leb s2 s3 = true -> String.leb s1 s3 = true.
Proof.
  unfold String.leb.
  destruct (String.compare s1 s2) eqn:H12; try discriminate;
    destruct (String.compare s2 s3) eqn:H23; try discriminate; intros _ _.
  - apply String.compare_eq_iff in H12, H23. subst.
    now rewrite string_compare_refl.
  - apply String.compare_eq_iff in H12. subst. now rewrite H23.
  - apply String.compare_eq_iff in H23. subst. now rewrite H12.
  - now rewrite (string_compare_trans_lt _ _ _ H12 H23).
Qed.

Lemma string_ltb_leb (a b : string) : String.ltb a b = true -> String.leb a b = true.
Proof. unfold String.ltb, String.leb. now destruct (String.compare a b). Qed.

Lemma string_ltb_false_leb (a b : string) :
  String.ltb a b = false -> String.leb b a = true.
Proof.
  unfold String.ltb, String.leb. rewrite (String.compare_antisym a b).
  now destruct (String.compare b a).
Qed.

Lemma str_max_ge_l (a b : string) : String.leb a (str_max a b) = true.
Proof.
  unfold str_max. destruct (String.ltb a b) eqn:E.
  - now apply string_ltb_leb.
  - apply string_leb_refl.
Qed.

Lemma str_max_ge_r (a b : string) : String.leb b (str_max a b) = true.
Proof.
  unfold str_max. destruct (String.ltb a b) eqn:E.
  - apply string_leb_refl.
  - now apply string_ltb_false_leb.
Qed.

Lemma str_max_cases (a b : string) : str_max a b = a \/ str_max a b = b.
Proof. unfold str_max. destruct (String.ltb a b); auto. Qed.

(** [Series.max] returns an element of the column that bounds all of it. *)
Lemma Series_max_In (rest : list string) :
  forall s0, In (Series_max s0 rest) (s0 :: rest).
Proof.
  unfold Series_max.
  induction rest as [|x rest IH]; intros s0; simpl; [auto|].
  destruct (IH (str_max s0 x)) as [H|H]; [|auto].
  destruct (str_max_cases s0 x) as [E|E]; [left | right; left]; congruence.
Qed.

Lemma Series_max_ge_first (rest : list string) :
  forall s0, String.leb s0 (Series_max s0 rest) = true.
Proof.
  unfold Series_max.
  induction rest as [|x rest IH]; intros s0; simpl.
  - apply string_leb_refl.
  - eapply string_leb_trans; [apply str_max_ge_l | apply IH].
Qed.

Lemma Series_max_upper_bound (rest : list string) :
  forall s0 s, In s (s0 :: rest) -> String.leb s (Series_max s0 rest) = true.
Proof.
  induction rest as [|x rest IH]; intros s0 s Hin.
  - destruct Hin as [<-|[]]. apply string_leb_refl.
  - change (Series_max s0 (x :: rest)) with (Series_max (str_max s0 x) rest).
    destruct Hin as [<-|[<-|Hin]].
    + eapply string_leb_trans; [apply str_max_ge_l | apply Series_max_ge_first].
    + eapply string_leb_trans; [apply str_max_ge_r | apply Series_max_ge_first].
    + apply IH. now right.
Qed.

(** ** The data access layer *)

Lemma get_indicator_data_cached (indicator_id : Z) (c : Cache) (entry : CacheEntry) :
  c !! ("indicator_" +:+ pretty indicator_id) = Some entry ->
  get_indicator_data indicator_id c = (Ok entry, c).
Proof. intros H. unfold get_indicator_data. now rewrite H, H. Qed.

Lemma get_indicator_data_fresh (indicator_id : Z) (c : Cache) :
  c !! ("indicator_" +:+ pretty indicator_id) = None ->
  get_indicator_data indicator_id c =
    (Ok (IndicatorFrame (get_data_for_indicator_at_all_available_geographies indicator_id)),
     <["indicator_" +:+ pretty indicator_id :=
         IndicatorFrame (get_data_for_indicator_at_all_available_geographies indicator_id)]> c).
Proof.
  intros H. unfold get_indicator_data. rewrite H.
  now rewrite lookup_insert_eq.
Qed.

(** The data access never raises. *)
Lemma get_indicator_data_returns (indicator_id : Z) (c : Cache) :
  exists entry c', get_indicator_data indicator_id c = (Ok entry, c').
Proof.
  destruct (c !! ("indicator_" +:+ pretty indicator_id)) as [entry|] eqn:E.
  - eauto using get_indicator_data_cached.
  - eauto using get_indicator_data_fresh.
Qed.

(** [filter_data] once the dataset is at hand. *)
Lemma filter_data_on (indicator_id : Z) (area_type : string)
    (time_period : option string) (c c' : Cache) (data : DataFrame) :
  get_indicator_data indicator_id c = (Ok (IndicatorFrame data), c') ->
  filter_data indicator_id area_type time_period c =
    match List.filter (fun row => String.eqb (Area_Type row) area_type) data with
    | [] =>
        (Raise (HTTPException 404 ("No data for area type '" +:+ area_type +:+ "'")), c')
    | row0 :: rest =>
        let period :=
          match time_period with
          | None => Series_max (Time_period row0) (map Time_period rest)
          | Some t => t
          end in
        let df := List.filter (fun row => String.eqb (Time_period row) period) (row0 :: rest) in
        if empty df then
          (Raise (HTTPException 404 ("No data for time period '" +:+ period +:+ "'")), c')
        else (Ok (df, period), c')
    end.
Proof.
  intros H. unfold filter_data, bind, lift. rewrite H. simpl.
  destruct (List.filter _ data) as [|row0 rest]; [reflexivity|].
  cbv zeta. destruct (empty _); reflexivity.
Qed.

Lemma empty_false_iff {A} (l : list A) : empty l = false <-> l <> [].
Proof. destruct l; simpl; split; congruence. Qed.

(** ** C1: the default time period *)

(** C1. When the fetched dataset has a row of the requested area type,
    [filter_data] without a time period resolves the period to the largest
    time-period string among the rows of that area type (it occurs there and
    no row of that area type has a larger one), keeps exactly the rows of
    that period, which are not empty, and returns them with the period. *)
Theorem filter_data_resolves_latest_period
    (indicator_id : Z) (area_type : string) (c c' : Cache) (data : DataFrame) :
  get_indicator_data indicator_id c = (Ok (IndicatorFrame data), c') ->
  List.filter (fun row => String.eqb (Area_Type row) area_type) data <> [] ->
  exists period,
    let by_area := List.filter (fun row => String.eqb (Area_Type row) area_type) data in
    let by_period := List.filter (fun row => String.eqb (Time_period row) period) by_area in
    In period (map Time_period by_area) /\
    (forall row, In row by_area -> String.leb (Time_period row) period = true) /\
    by_period <> [] /\
    filter_data indicator_id area_type None c = (Ok (by_period, period), c').
Proof.
  intros Hget Hne. rewrite (filter_data_on _ _ _ _ _ _ Hget).
  destruct (List.filter _ data) as [|row0 rest] eqn:Harea; [congruence|].
  set (period := Series_max (Time_period row0) (map Time_period rest)).
  exists period. cbv zeta.
  assert (Hin : In period (map Time_period (row0 :: rest)))
    by apply Series_max_In.
  assert (Hnonempty :
            List.filter (fun row => String.eqb (Time_period row) period) (row0 :: rest) <> []).
  { apply in_map_iff in Hin as (row & Hrow & Hin).
    intros Hnil.
    assert (Hf : In row (List.filter (fun row => String.eqb (Time_period row) period)
                           (row0 :: rest))).
    { apply filter_In. split; [assumption|]. apply String.eqb_eq. exact Hrow. }
    rewrite Hnil in Hf. destruct Hf. }
  repeat split.
  - exact Hin.
  - intros row Hrow. apply Series_max_upper_bound.
    change (In (Time_period row) (map Time_period (row0 :: rest))).
    now apply in_map.
  - exact Hnonempty.
  - apply empty_false_iff in Hnonempty. now rewrite Hnonempty.
Qed.

(** ** C2: the two NotFound stages *)

(** C2. On the fetched dataset, [filter_data] raises [HTTPException(404)]
    naming the area type whenever no row has the requested area type, and
    it does so whatever time period was passed, so before any period is
    resolved.  Otherwise a period is resolved (the one passed, or the
    largest among the rows of the area type); [filter_data] raises
    [HTTPException(404)] naming that period when no row of the area type
    has it, and in the remaining case it returns the rows and the period. *)
Theorem filter_data_not_found
    (indicator_id : Z) (area_type : string) (time_period : option string)
    (c c' : Cache) (data : DataFrame) :
  get_indicator_data indicator_id c = (Ok (IndicatorFrame data), c') ->
  let by_area := List.filter (fun row => String.eqb (Area_Type row) area_type) data in
  (by_area = [] ->
   forall any_period : option string,
     filter_data indicator_id area_type any_period c =
       (Raise (HTTPException 404 ("No data for area type '" +:+ area_type +:+ "'")), c'))
  /\
  (by_area <> [] ->
   exists period,
     match time_period with
     | Some t => period = t
     | None =>
         In period (map Time_period by_area) /\
         forall row, In row by_area -> String.leb (Time_period row) period = true
     end /\
     let by_period := List.filter (fun row => String.eqb (Time_period row) period) by_area in
     (by_period = [] ->
      filter_data indicator_id area_type time_period c =
        (Raise (HTTPException 404 ("No data for time period '" +:+ period +:+ "'")), c'))
     /\
     (by_period <> [] ->
      filter_data indicator_id area_type time_period c = (Ok (by_period, period), c'))).
Proof.
  intros Hget by_area. subst by_area. split.
  - intros Hnil any_period. rewrite (filter_data_on _ _ _ _ _ _ Hget).
    now rewrite Hnil.
  - intros Hne. rewrite (filter_data_on _ _ _ _ _ _ Hget).
    destruct (List.filter _ data) as [|row0 rest] eqn:Harea; [congruence|].
    set (period := match time_period with
                   | Some t => t
                   | None => Series_max (Time_period row0) (map Time_period rest)
                   end).
    exists period. split.
    + subst period. destruct time_period as [t|]; [reflexivity|]. split.
      * apply (Series_max_In (map Time_period rest)).
      * intros row Hrow. apply Series_max_upper_bound.
        change (In (Time_period row) (map Time_period (row0 :: rest))).
        now apply in_map.
    + cbv zeta.
      replace (match time_period with
               | Some t => t
               | None => Series_max (Time_period row0) (map Time_period rest)
               end) with period by reflexivity.
      split; intros H.
      * now rewrite H.
      * apply empty_false_iff in H. now rewrite H.
Qed.

(** ** C10: /time-periods on an area type without rows *)

(** C10. When no row of the fetched dataset has the requested area type,
    [GET /time-periods] returns an empty [time_periods] list with [latest]
    null, where [filter_data] on the same arguments raises the 404. *)
Theorem list_time_periods_without_rows
    (indicator_id : IndicatorID) (area_type : AreaType) (c c' : Cache)
    (data : DataFrame) :
  get_indicator_data (IndicatorID_value indicator_id) c = (Ok (IndicatorFrame data), c') ->
  List.filter (fun row => String.eqb (Area_Type row) (AreaType_value area_type)) data = [] ->
  list_time_periods indicator_id area_type c =
    (Ok {| time_periods := []; latest := None |}, c')
  /\
  forall time_period,
    filter_data (IndicatorID_value indicator_id) (AreaType_value area_type) time_period c =
      (Raise (HTTPException 404
                ("No data for area type '" +:+ AreaType_value area_type +:+ "'")), c').
Proof.
  intros Hget Hnil. split.
  - unfold list_time_periods, bind, lift. rewrite Hget. simpl.
    rewrite Hnil. reflexivity.
  - intros time_period. rewrite (filter_data_on _ _ _ _ _ _ Hget).
    now rewrite Hnil.
Qed.

(** ** C3: which stages halt a request *)

Lemma indicator_info_returns (indicator_id : IndicatorID) (c : Cache) :
  exists info, indicator_info indicator_id c = (Ok info, c).
Proof. destruct indicator_id; vm_compute; eauto. Qed.

Lemma filter_none_nil {A} (f : A -> bool) (l : list A) :
  (forall x, In x l -> f x = false) -> List.filter f l = [].
Proof.
  intros H. destruct (List.filter f l) as [|x l'] eqn:E; [reflexivity|].
  assert (Hx : In x (List.filter f l)) by (rewrite E; now left).
  apply filter_In in Hx as [Hin Hfx]. rewrite (H x Hin) in Hfx. discriminate.
Qed.

(** C3, as the code has it.  The two stages of [filter_data] are the stages
    that halt [GET /data] on zero rows: an exception of [filter_data] is the
    exception of the request.  Once [filter_data] has returned rows, the
    request returns (given a name pattern that compiles, when one is
    passed) with [count] the number of records returned; when every row is
    rejected by the area-name filter or by one of the two value bounds, the
    response is the successful one with [count = 0] and no records. *)
Theorem get_data_halts_only_in_filter_data
    (indicator_id : IndicatorID) (area_type : AreaType)
    (time_period area_name_contains : option string)
    (min_value max_value : option Q) (limit : option nat) (c : Cache) :
  (forall e c',
     filter_data (IndicatorID_value indicator_id) (AreaType_value area_type) time_period c =
       (Raise e, c') ->
     get_data indicator_id area_type time_period area_name_contains
       min_value max_value limit c = (Raise e, c'))
  /\
  (forall df period c',
     filter_data (IndicatorID_value indicator_id) (AreaType_value area_type) time_period c =
       (Ok (df, period), c') ->
     (forall pat, area_name_contains = Some pat -> pat <> "" ->
                  re_search_ignorecase pat <> None) ->
     exists resp,
       get_data indicator_id area_type time_period area_name_contains
         min_value max_value limit c = (Ok resp, c') /\
       data_time_period resp = period /\
       data_count resp = length (data resp) /\
       ((forall row, In row df ->
           (exists pat found,
              area_name_contains = Some pat /\ pat <> "" /\
              re_search_ignorecase pat = Some found /\
              match Area_Name row with
              | Some name => found name = false
              | None => True
              end)
           \/ (exists m, min_value = Some m /\ float_ge (Value row) m = false)
           \/ (exists m, max_value = Some m /\ float_le (Value row) m = false)) ->
        data resp = [] /\ data_count resp = 0%nat)).
Proof.
  split.
  - intros e c' Hraise. unfold get_data, bind. now rewrite Hraise.
  - intros df period c' Hrows Hpat.
    destruct (indicator_info_returns indicator_id c') as [info Hinfo].
    assert (Hname : exists named,
               area_name_filter area_name_contains df c' = (Ok named, c') /\
               (forall row, In row named -> In row df) /\
               (forall row pat found,
                  area_name_contains = Some pat -> pat <> "" ->
                  re_search_ignorecase pat = Some found ->
                  In row named ->
                  exists name, Area_Name row = Some name /\ found name = true)).
    { unfold area_name_filter. destruct area_name_contains as [[|a pat]|].
      - exists df. split; [reflexivity|]. split; [auto|].
        intros row pat found [= <-] Hne. congruence.
      - destruct (re_search_ignorecase (String a pat)) as [found|] eqn:Hre.
        + eexists. split; [reflexivity|]. split.
          * intros row Hin. now apply filter_In in Hin.
          * intros row pat' found' [= <-] _ Hre' Hin.
            rewrite Hre in Hre'. injection Hre' as <-.
            apply filter_In in Hin as [_ Hin].
            destruct (Area_Name row) as [name|]; [eauto | discriminate].
        + exfalso. eapply (Hpat (String a pat)); [reflexivity | discriminate | exact Hre].
      - exists df. split; [reflexivity|]. split; [auto|]. intros; discriminate. }
    destruct Hname as (named & Hrun & Hsub & Hfound).
    set (bounded :=
           match max_value with
           | Some m => List.filter (fun row => float_le (Value row) m)
           | None => fun df => df
           end
             (match min_value with
              | Some m => List.filter (fun row => float_ge (Value row) m) named
              | None => named
              end)).
    set (records :=
           map data_record
             (match limit with
              | None | Some O => sort_values_desc bounded
              | Some n => head n (sort_values_desc bounded)
              end)).
    exists {| data_indicator := info;
              data_area_type := AreaType_value area_type;
              data_time_period := period;
              data_count := length records;
              data := records |}.
    split; [|split; [reflexivity | split; [reflexivity|]]].
    + unfold get_data, bind. rewrite Hrows. cbv beta iota. rewrite Hrun.
      cbv beta iota. rewrite Hinfo. subst records bounded.
      destruct max_value, min_value, limit as [[|n]|]; reflexivity.
    + intros Hreject.
      assert (Hnil : bounded = []).
      { destruct bounded as [|row rest] eqn:Hb; [reflexivity|]. exfalso.
        assert (Hrow : In row bounded) by (rewrite Hb; now left).
        assert (Hin_named : In row named /\
                            (forall m, min_value = Some m -> float_ge (Value row) m = true) /\
                            (forall m, max_value = Some m -> float_le (Value row) m = true)).
        { subst bounded. clear Hb.
          destruct max_value as [mx|], min_value as [mn|]; simpl in Hrow.
          - apply filter_In in Hrow as [Hrow Hmx]. apply filter_In in Hrow as [Hrow Hmn].
            repeat split; [assumption | intros ? [= <-] | intros ? [= <-]]; assumption.
          - apply filter_In in Hrow as [Hrow Hmx].
            repeat split; [assumption | intros; discriminate | intros ? [= <-]]; assumption.
          - apply filter_In in Hrow as [Hrow Hmn].
            repeat split; [assumption | intros ? [= <-] | intros; discriminate]; assumption.
          - repeat split; [assumption | intros; discriminate | intros; discriminate]. }
        destruct Hin_named as (Hnamed & Hmn & Hmx).
        destruct (Hreject row (Hsub row Hnamed))
          as [(pat & found & Hsome & Hne & Hre & Hmiss)|[(m & Hsome & Hlow)|(m & Hsome & Hhigh)]].
        - destruct (Hfound row pat found Hsome Hne Hre Hnamed) as (name & Hn & Hyes).
          rewrite Hn in Hmiss. congruence.
        - rewrite (Hmn m Hsome) in Hlow. discriminate.
        - rewrite (Hmx m Hsome) in Hhigh. discriminate. }
      subst records. rewrite Hnil. cbn [data data_count].
      destruct limit as [[|n]|]; split; reflexivity.
Qed.

(** ** C7: too few complete rows for a correlation *)

(** Whatever [filter_data] does, the cache it leaves is the one left by the
    data access. *)
Lemma filter_data_cache (indicator_id : Z) (area_type : string)
    (time_period : option string) (c : Cache) :
  snd (filter_data indicator_id area_type time_period c) =
  snd (get_indicator_data indicator_id c).
Proof.
  destruct (get_indicator_data_returns indicator_id c) as ([data|gdf] & c' & Hget).
  - rewrite (filter_data_on _ _ _ _ _ _ Hget), Hget.
    destruct (List.filter _ data) as [|row0 rest]; [reflexivity|].
    cbv zeta. destruct (empty _); reflexivity.
  - unfold filter_data, bind, lift. now rewrite Hget.
Qed.

(** [filter_data] raises nothing but its 404, or the [KeyError] of a frame
    without indicator columns. *)
Lemma filter_data_raises (indicator_id : Z) (area_type : string)
    (time_period : option string) (c c' : Cache) (e : exn) :
  filter_data indicator_id area_type time_period c = (Raise e, c') ->
  (exists detail, e = HTTPException 404 detail) \/ e = KeyError "Area Type".
Proof.
  destruct (get_indicator_data_returns indicator_id c) as ([data|gdf] & c1 & Hget).
  - rewrite (filter_data_on _ _ _ _ _ _ Hget).
    destruct (List.filter _ data) as [|row0 rest].
    + intros [= <- _]. left. eauto.
    + cbv zeta. destruct (empty _); [|discriminate].
      intros [= <- _]. left. eauto.
  - unfold filter_data, bind, lift. rewrite Hget. simpl.
    intros [= <- _]. now right.
Qed.

(** [get_correlation] once [filter_data] has returned. *)
Lemma get_correlation_on (indicator_id : IndicatorID) (area_type : AreaType)
    (time_period : option string) (c c' : Cache) (df : DataFrame) (period : string) :
  filter_data (IndicatorID_value indicator_id) (AreaType_value area_type) time_period c =
    (Ok (df, period), c') ->
  get_correlation indicator_id area_type time_period c =
    if (length (dropna_Value_Denominator df) <? 3)%nat then
      (Raise (HTTPException 400 "Insufficient data for correlation analysis"), c')
    else
      let x := dropna (map Denominator (dropna_Value_Denominator df)) in
      let y := dropna (map Value (dropna_Value_Denominator df)) in
      match INDICATOR_INFO !! IndicatorID_value indicator_id with
      | Some info =>
          (Ok {| corr_indicator := info;
                 corr_area_type := AreaType_value area_type;
                 corr_time_period := period;
                 correlation :=
                   {| corr_r := np_round (fst (pearsonr x y)) 4;
                      corr_p_value := np_round (snd (pearsonr x y)) 4;
                      significant := float_lt (snd (pearsonr x y)) (5 # 100);
                      interpretation :=
                        interpret (fst (pearsonr x y)) (snd (pearsonr x y)) |} |}, c')
      | None => (Raise (KeyError (pretty (IndicatorID_value indicator_id))), c')
      end.
Proof.
  intros Hrows. unfold get_correlation, bind. rewrite Hrows. cbv beta iota.
  destruct (length (dropna_Value_Denominator df) <? 3)%nat; [reflexivity|].
  cbv zeta. destruct (pearsonr _ _) as [r p]. cbn [fst snd].
  unfold indicator_info.
  destruct (INDICATOR_INFO !! IndicatorID_value indicator_id); reflexivity.
Qed.

(** C7, as the code has it.  [GET /correlation] raises
    [HTTPException(400)] exactly when [filter_data] has returned rows of
    which fewer than 3 have both a value and a denominator.  The request
    leaves the cache as the data access left it, on that failure as on any
    other outcome: unchanged when the indicator was cached, and otherwise
    extended by the dataset fetched for the indicator. *)
Theorem get_correlation_insufficient_data
    (indicator_id : IndicatorID) (area_type : AreaType)
    (time_period : option string) (c : Cache) :
  let request := get_correlation indicator_id area_type time_period c in
  let cache_key := "indicator_" +:+ pretty (IndicatorID_value indicator_id) in
  (fst request = Raise (HTTPException 400 "Insufficient data for correlation analysis")
   <->
   exists df period,
     fst (filter_data (IndicatorID_value indicator_id) (AreaType_value area_type)
            time_period c) = Ok (df, period) /\
     (length (dropna_Value_Denominator df) < 3)%nat)
  /\
  (forall entry, c !! cache_key = Some entry -> snd request = c)
  /\
  (c !! cache_key = None ->
   snd request =
     <[cache_key :=
         IndicatorFrame
           (get_data_for_indicator_at_all_available_geographies
              (IndicatorID_value indicator_id))]> c).
Proof.
  intros request cache_key. subst request.
  assert (Hcache : snd (get_correlation indicator_id area_type time_period c) =
                   snd (get_indicator_data (IndicatorID_value indicator_id) c)).
  { rewrite <- (filter_data_cache _ (AreaType_value area_type) time_period).
    destruct (filter_data (IndicatorID_value indicator_id) (AreaType_value area_type)
                time_period c) as [[[df period]|e] c'] eqn:Hrows.
    - rewrite (get_correlation_on _ _ _ _ _ _ _ Hrows).
      destruct (_ <? 3)%nat; [reflexivity|]. cbv zeta.
      destruct (INDICATOR_INFO !! _); reflexivity.
    - unfold get_correlation, bind. now rewrite Hrows. }
  split; [|split].
  - destruct (filter_data (IndicatorID_value indicator_id) (AreaType_value area_type)
                time_period c) as [[[df period]|e] c'] eqn:Hrows.
    + rewrite (get_correlation_on _ _ _ _ _ _ _ Hrows).
      destruct (length (dropna_Value_Denominator df) <? 3)%nat eqn:Hlen.
      * split; [|reflexivity]. intros _. exists df, period.
        split; [reflexivity|]. now apply Nat.ltb_lt.
      * apply Nat.ltb_ge in Hlen. cbv zeta. split.
        -- destruct (INDICATOR_INFO !! _); discriminate.
        -- intros (df' & period' & [= <- <-] & Hlt). cbn [fst snd] in *. lia.
    + split.
      * unfold get_correlation, bind. rewrite Hrows. cbn [fst]. intros [= ->].
        destruct (filter_data_raises _ _ _ _ _ _ Hrows) as [[detail H]|H]; discriminate.
      * intros (df & period & H & _). discriminate.
  - intros entry Hhit. rewrite Hcache.
    now rewrite (get_indicator_data_cached _ _ _ Hhit).
  - intros Hmiss. rewrite Hcache.
    now rewrite (get_indicator_data_fresh _ _ Hmiss).
Qed.

(** ** C8: the reading of [r] and [p] *)

Lemma INDICATOR_INFO_total (indicator_id : IndicatorID) :
  exists info, INDICATOR_INFO !! IndicatorID_value indicator_id = Some info.
Proof. destruct indicator_id; vm_compute; eauto. Qed.

Lemma float_lt_ge (x : float) (c : Q) :
  float_lt x c = true -> float_ge x c = false.
Proof.
  destruct x as [q|]; simpl; [|discriminate].
  unfold Qlt_bool. now destruct (Qle_bool c q).
Qed.

(** The rounded integer is a nearest one. *)
Lemma round_half_even_nearest (y : Q) :
  (inject_Z (round_half_even y) - (1 # 2) <= y)%Q /\
  (y <= inject_Z (round_half_even y) + (1 # 2))%Q.
Proof.
  unfold round_half_even. cbv zeta.
  pose proof (Qfloor_le y) as H0. pose proof (Qlt_floor y) as H1.
  rewrite inject_Z_plus in H1. change (inject_Z 1) with 1%Q in H1.
  destruct (Qcompare_spec (y - inject_Z (Qfloor y)) (1 # 2)) as [H|H|H];
    try destruct (Z.even (Qfloor y));
    rewrite ?inject_Z_plus; change (inject_Z 1) with 1%Q; split; lra.
Qed.

(** What the rounding of a numpy scalar returns: the double nearest to
    [k / 10 ** ndigits], for an integer [k] nearest to the double product
    [x * 10 ** ndigits]. *)
Lemma np_round_digits_nearest (ndigits : nat) (x : Q) :
  exists k : Z,
    np_round_digits ndigits x = fl (inject_Z k / inject_Z (10 ^ Z.of_nat ndigits)) /\
    (inject_Z k - (1 # 2) <= fl (x * inject_Z (10 ^ Z.of_nat ndigits)))%Q /\
    (fl (x * inject_Z (10 ^ Z.of_nat ndigits)) <= inject_Z k + (1 # 2))%Q.
Proof.
  exists (round_half_even (fl (x * inject_Z (10 ^ Z.of_nat ndigits)))).
  split; [reflexivity|]. apply round_half_even_nearest.
Qed.

(** C8. Let [r] and [p] be what [pearsonr] returns on the complete rows (at
    least 3 of them), [p] being NaN only together with [r], as for a
    coefficient and its p-value.  The response of [GET /correlation] carries
    [r] and [p] rounded to 4 decimals as numpy rounds its scalars: a finite
    [r] becomes the double nearest to [k / 10000], where the integer [k] is
    nearest to the double product [r * 10000], and NaN stays NaN; likewise
    [p].  It carries [significant = (p < 0.05)], and its interpretation is
    the "no significant relationship" sentence when [p >= 0.05], the
    "better" sentence when [p < 0.05] and [r > 0.3], the "worse" sentence
    when [p < 0.05] and [r < -0.3], and the "weak relationship" sentence in
    every other case.  The sentence is chosen from [r] and [p] as
    [pearsonr] returned them, before the rounding. *)
Theorem get_correlation_interpretation
    (indicator_id : IndicatorID) (area_type : AreaType)
    (time_period : option string) (c c' : Cache)
    (df : DataFrame) (period : string) (r p : float) :
  filter_data (IndicatorID_value indicator_id) (AreaType_value area_type) time_period c =
    (Ok (df, period), c') ->
  (3 <= length (dropna_Value_Denominator df))%nat ->
  pearsonr (dropna (map Denominator (dropna_Value_Denominator df)))
           (dropna (map Value (dropna_Value_Denominator df))) = (r, p) ->
  (p = NaN -> r = NaN) ->
  exists resp,
    get_correlation indicator_id area_type time_period c = (Ok resp, c') /\
    corr_time_period resp = period /\
    corr_r (correlation resp) = np_round r 4 /\
    corr_p_value (correlation resp) = np_round p 4 /\
    (forall x, r = Some x ->
       exists k : Z,
         corr_r (correlation resp) = Some (fl (inject_Z k / (10000 # 1))) /\
         (inject_Z k - (1 # 2) <= fl (x * (10000 # 1)))%Q /\
         (fl (x * (10000 # 1)) <= inject_Z k + (1 # 2))%Q) /\
    (forall x, p = Some x ->
       exists k : Z,
         corr_p_value (correlation resp) = Some (fl (inject_Z k / (10000 # 1))) /\
         (inject_Z k - (1 # 2) <= fl (x * (10000 # 1)))%Q /\
         (fl (x * (10000 # 1)) <= inject_Z k + (1 # 2))%Q) /\
    (r = NaN -> corr_r (correlation resp) = NaN) /\
    (p = NaN -> corr_p_value (correlation resp) = NaN) /\
    significant (correlation resp) = float_lt p (5 # 100) /\
    (float_ge p (5 # 100) = true ->
     interpretation (correlation resp) =
       "No significant relationship between population size and care quality.") /\
    (float_lt p (5 # 100) = true -> float_gt r (3 # 10) = true ->
     interpretation (correlation resp) =
       "Larger populations tend to have better care quality.") /\
    (float_lt p (5 # 100) = true -> float_lt r (- (3 # 10)) = true ->
     interpretation (correlation resp) =
       "Larger populations tend to have worse care quality.") /\
    (float_ge p (5 # 100) = false ->
     float_lt p (5 # 100) && float_gt r (3 # 10) = false ->
     float_lt p (5 # 100) && float_lt r (- (3 # 10)) = false ->
     interpretation (correlation resp) =
       "Weak relationship between population size and care quality.").
Proof.
  intros Hrows Hlen Hpearson Hnan.
  rewrite (get_correlation_on _ _ _ _ _ _ _ Hrows).
  apply Nat.ltb_ge in Hlen. rewrite Hlen. cbv zeta. rewrite Hpearson.
  destruct (INDICATOR_INFO_total indicator_id) as [info ->].
  eexists. split; [reflexivity|]. cbn [fst snd correlation corr_time_period corr_r
    corr_p_value significant interpretation].
  do 3 (split; [reflexivity|]).
  split.
  { intros x ->. destruct (np_round_digits_nearest 4 x) as (k & Hk & Hlow & Hhigh).
    exists k. cbn [np_round option_map]. rewrite Hk. auto. }
  split.
  { intros x ->. destruct (np_round_digits_nearest 4 x) as (k & Hk & Hlow & Hhigh).
    exists k. cbn [np_round option_map]. rewrite Hk. auto. }
  split; [now intros ->|]. split; [now intros ->|].
  split; [reflexivity|].
  unfold interpret.
  split; [|split; [|split]].
  - now intros ->.
  - intros Hp Hr. now rewrite (float_lt_ge _ _ Hp), Hr.
  - intros Hp Hr. rewrite (float_lt_ge _ _ Hp), Hr.
    destruct (float_gt r (3 # 10)) eqn:Hgt; [|reflexivity].
    exfalso. destruct r as [q|]; [|discriminate].
    simpl in Hr, Hgt. unfold Qlt_bool in Hr, Hgt.
    apply negb_true_iff in Hr, Hgt.
    apply not_true_iff_false in Hr, Hgt.
    rewrite Qle_bool_iff in Hr, Hgt. lra.
  - intros Hge Hbetter Hworse. rewrite Hge.
    destruct p as [q|].
    + assert (Hlt : float_lt (Some q) (5 # 100) = true).
      { simpl in *. unfold Qlt_bool. now rewrite Hge. }
      rewrite Hlt in Hbetter, Hworse. simpl in Hbetter, Hworse.
      now rewrite Hbetter, Hworse.
    + rewrite (Hnan eq_refl). reflexivity.
Qed.

(** ** C9: the left join behind the map *)

(** The rows the merge makes for one boundary. *)
Lemma merge_left_rows_of (gdf : GeoDataFrame) (df : DataFrame) (m : MergedRow) :
  In m (merge_left gdf df) <->
  exists b, In b gdf /\
    match List.filter (fun row => String.eqb (ICB23CD b) (Area_Code row)) df with
    | [] => m = {| m_ICB23CD := ICB23CD b; m_geometry := geometry b;
                   m_Area_Code := None; m_Area_Name := None; m_Value := NaN |}
    | matches =>
        exists row, In row matches /\
          m = {| m_ICB23CD := ICB23CD b; m_geometry := geometry b;
                 m_Area_Code := Some (Area_Code row);
                 m_Area_Name := Area_Name row;
                 m_Value := Value row |}
    end.
Proof.
  unfold merge_left. rewrite in_flat_map. split; intros (b & Hb & H); exists b; (split; [exact Hb|]).
  - destruct (List.filter _ df) as [|row0 rest].
    + destruct H as [<-|[]]. reflexivity.
    + apply in_map_iff in H as (row & <- & Hin). eauto.
  - destruct (List.filter _ df) as [|row0 rest].
    + left. now symmetry.
    + destruct H as (row & Hin & ->). apply in_map_iff. eauto.
Qed.

(** No boundary is lost by the merge. *)
Lemma merge_left_retains (gdf : GeoDataFrame) (df : DataFrame) (b : Boundary) :
  In b gdf ->
  exists m, In m (merge_left gdf df) /\
            m_ICB23CD m = ICB23CD b /\ m_geometry m = geometry b.
Proof.
  intros Hb.
  destruct (List.filter (fun row => String.eqb (ICB23CD b) (Area_Code row)) df)
    as [|row0 rest] eqn:E.
  - eexists. split; [apply merge_left_rows_of; exists b; split; [exact Hb|];
                     rewrite E; reflexivity|]. split; reflexivity.
  - eexists. split; [apply merge_left_rows_of; exists b; split; [exact Hb|];
                     rewrite E; exists row0; split; [now left | reflexivity]|].
    split; reflexivity.
Qed.

Lemma merge_left_length (gdf : GeoDataFrame) (df : DataFrame) :
  (length gdf <= length (merge_left gdf df))%nat.
Proof.
  unfold merge_left. induction gdf as [|b gdf IH]; [reflexivity|].
  cbn [flat_map]. rewrite length_app.
  set (others := length (flat_map _ gdf)) in *.
  destruct (List.filter _ df) as [|row0 rest]; cbn [length map]; lia.
Qed.

(** A boundary without an indicator row is merged once, with NaN. *)
Lemma merge_left_unmatched (gdf : GeoDataFrame) (df : DataFrame) (b : Boundary) :
  In b gdf ->
  (forall row, In row df -> Area_Code row <> ICB23CD b) ->
  In {| m_ICB23CD := ICB23CD b; m_geometry := geometry b;
        m_Area_Code := None; m_Area_Name := None; m_Value := NaN |}
     (merge_left gdf df).
Proof.
  intros Hb Hno. apply merge_left_rows_of. exists b. split; [exact Hb|].
  rewrite filter_none_nil; [reflexivity|].
  intros row Hrow. apply String.eqb_neq. intros Heq. now apply (Hno row Hrow).
Qed.

(** Every merged row is drawn, and a row without a value in the
    [missing_kwds] style. *)
Lemma plot_draws_every_row (cmap : ColorMap) (gdf_plot : list MergedRow) (m : MergedRow) :
  In m gdf_plot ->
  exists patch, In patch (plot cmap gdf_plot) /\ patch_geometry patch = m_geometry m.
Proof.
  intros Hm. unfold plot. destruct (m_Value m) as [v|] eqn:Hv.
  - eexists. split.
    + apply in_or_app. left. apply in_flat_map. exists m. split; [exact Hm|].
      rewrite Hv. now left.
    + reflexivity.
  - eexists. split.
    + apply in_or_app. right. apply in_flat_map. exists m. split; [exact Hm|].
      rewrite Hv. now left.
    + reflexivity.
Qed.

Lemma plot_draws_missing (cmap : ColorMap) (gdf_plot : list MergedRow) (m : MergedRow) :
  In m gdf_plot -> m_Value m = NaN ->
  In {| patch_geometry := m_geometry m; patch_fill := Missing "lightgrey" "No data" |}
     (plot cmap gdf_plot).
Proof.
  intros Hm Hv. unfold plot. apply in_or_app. right.
  apply in_flat_map. exists m. split; [exact Hm|]. rewrite Hv. now left.
Qed.

Lemma plot_length (cmap : ColorMap) (gdf_plot : list MergedRow) :
  length (plot cmap gdf_plot) = length gdf_plot.
Proof.
  unfold plot. rewrite length_app.
  generalize (Qmin_list (dropna (map m_Value gdf_plot)))
             (Qmax_list (dropna (map m_Value gdf_plot))).
  intros vmin vmax.
  induction gdf_plot as [|m l IH]; [reflexivity|].
  simpl. destruct (m_Value m); simpl; rewrite ?length_app; simpl; lia.
Qed.

(** The left join, row by row: a merged row pairs a boundary with an
    indicator row of its code, or stands for a boundary no row has the code
    of. *)
Lemma merge_left_joins (gdf : GeoDataFrame) (df : DataFrame) (m : MergedRow) :
  In m (merge_left gdf df) <->
  exists b, In b gdf /\
    ((exists row, In row df /\ Area_Code row = ICB23CD b /\
        m = {| m_ICB23CD := ICB23CD b; m_geometry := geometry b;
               m_Area_Code := Some (Area_Code row);
               m_Area_Name := Area_Name row;
               m_Value := Value row |}) \/
     ((forall row, In row df -> Area_Code row <> ICB23CD b) /\
      m = {| m_ICB23CD := ICB23CD b; m_geometry := geometry b;
             m_Area_Code := None; m_Area_Name := None; m_Value := NaN |})).
Proof.
  rewrite merge_left_rows_of.
  split; intros (b & Hb & H); exists b; (split; [exact Hb|]).
  - destruct (List.filter _ df) as [|row0 rest] eqn:E.
    + right. split; [|exact H].
      intros row Hrow Hcode.
      assert (Hin : In row (List.filter (fun row => String.eqb (ICB23CD b) (Area_Code row)) df)).
      { apply filter_In. split; [exact Hrow|]. apply String.eqb_eq. now symmetry. }
      rewrite E in Hin. destruct Hin.
    + left. destruct H as (row & Hin & ->). rewrite <- E in Hin.
      apply filter_In in Hin as [Hrow Hcode]. apply String.eqb_eq in Hcode.
      exists row. split; [exact Hrow|]. split; [now symmetry | reflexivity].
  - destruct H as [(row & Hrow & Hcode & ->)|[Hno ->]].
    + assert (Hin : In row (List.filter (fun row => String.eqb (ICB23CD b) (Area_Code row)) df)).
      { apply filter_In. split; [exact Hrow|]. apply String.eqb_eq. now symmetry. }
      destruct (List.filter _ df) as [|row0 rest]; [destruct Hin|].
      exists row. split; [exact Hin | reflexivity].
    + rewrite filter_none_nil; [reflexivity|].
      intros row Hrow. apply String.eqb_neq. intros Heq. now apply (Hno row Hrow).
Qed.

(** The patches of the plot, row by row: a merged row with a value is
    coloured by the map between the extreme values, a row without one is
    drawn in the [missing_kwds] style. *)
Lemma plot_patches (cmap : ColorMap) (gdf_plot : list MergedRow) (patch : Patch) :
  In patch (plot cmap gdf_plot) <->
  exists m, In m gdf_plot /\
    patch = {| patch_geometry := m_geometry m;
               patch_fill :=
                 match m_Value m with
                 | Some v => Scaled cmap (Qmin_list (dropna (map m_Value gdf_plot)))
                               (Qmax_list (dropna (map m_Value gdf_plot))) v
                 | None => Missing "lightgrey" "No data"
                 end |}.
Proof.
  unfold plot. cbv zeta. rewrite in_app_iff, !in_flat_map. split.
  - intros [(m & Hm & Hp)|(m & Hm & Hp)]; exists m; (split; [exact Hm|]);
      destruct (m_Value m); cbn [In] in Hp; try contradiction;
      destruct Hp as [<-|[]]; reflexivity.
  - intros (m & Hm & ->). destruct (m_Value m) as [v|] eqn:Hv.
    + left. exists m. split; [exact Hm|]. rewrite Hv. now left.
    + right. exists m. split; [exact Hm|]. rewrite Hv. now left.
Qed.

(** C9. [GET /map] filters with the area type fixed to "ICBs" and joins the
    boundaries to the rows by area code with a left join: the merged rows
    are exactly the pairs of a boundary with an indicator row of its code,
    carrying the code, name and value of that row, and one row with NaN for
    every boundary whose code no indicator row has.  The figure has exactly
    one patch per merged row, with the geometry of its boundary: filled by
    the colour map at the value of the row (scaled between the smallest and
    the largest merged value) when the row has a value, and in the
    [missing_kwds] fill (lightgrey, "No data") when it has none.  So there
    is at least one patch for every boundary, a boundary matched by a row
    with a value is coloured by that value, and a boundary whose code
    matches no indicator row is merged with a NaN value and drawn in the
    "No data" fill, not dropped. *)
Theorem generate_map_keeps_every_boundary
    (indicator_id : IndicatorID) (time_period : option string) (cmap : ColorMap)
    (figsize_width figsize_height : Q) (dpi : Z) (title : option string)
    (format : ImageFormat) (c c' c'' : Cache)
    (df : DataFrame) (period : string) (gdf : GeoDataFrame) :
  filter_data (IndicatorID_value indicator_id) "ICBs" time_period c = (Ok (df, period), c') ->
  get_boundaries c' = (Ok (BoundaryFrame gdf), c'') ->
  let vmin := Qmin_list (dropna (map m_Value (merge_left gdf df))) in
  let vmax := Qmax_list (dropna (map m_Value (merge_left gdf df))) in
  exists fig,
    generate_map indicator_id time_period cmap figsize_width figsize_height dpi
      title format c =
      (Ok (match format with
           | base64 => Base64Json {| png_figure := fig; png_dpi := dpi |}
           | png => StreamingResponse {| png_figure := fig; png_dpi := dpi |}
           end), c'') /\
    patches fig = plot cmap (merge_left gdf df) /\
    length (patches fig) = length (merge_left gdf df) /\
    (length gdf <= length (patches fig))%nat /\
    (forall m, In m (merge_left gdf df) <->
       exists b, In b gdf /\
         ((exists row, In row df /\ Area_Code row = ICB23CD b /\
             m = {| m_ICB23CD := ICB23CD b; m_geometry := geometry b;
                    m_Area_Code := Some (Area_Code row);
                    m_Area_Name := Area_Name row;
                    m_Value := Value row |}) \/
          ((forall row, In row df -> Area_Code row <> ICB23CD b) /\
           m = {| m_ICB23CD := ICB23CD b; m_geometry := geometry b;
                  m_Area_Code := None; m_Area_Name := None; m_Value := NaN |}))) /\
    (forall patch, In patch (patches fig) <->
       exists m, In m (merge_left gdf df) /\
         patch = {| patch_geometry := m_geometry m;
                    patch_fill :=
                      match m_Value m with
                      | Some v => Scaled cmap vmin vmax v
                      | None => Missing "lightgrey" "No data"
                      end |}) /\
    (forall b, In b gdf ->
      (exists patch, In patch (patches fig) /\ patch_geometry patch = geometry b) /\
      (forall row v, In row df -> Area_Code row = ICB23CD b -> Value row = Some v ->
         In {| patch_geometry := geometry b; patch_fill := Scaled cmap vmin vmax v |}
            (patches fig)) /\
      ((forall row, In row df -> Area_Code row <> ICB23CD b) ->
       In {| m_ICB23CD := ICB23CD b; m_geometry := geometry b;
             m_Area_Code := None; m_Area_Name := None; m_Value := NaN |}
          (merge_left gdf df) /\
       In {| patch_geometry := geometry b; patch_fill := Missing "lightgrey" "No data" |}
          (patches fig))).
Proof.
  intros Hrows Hgdf vmin vmax.
  destruct (indicator_info_returns indicator_id c'') as [info Hinfo].
  eexists. split.
  - unfold generate_map, bind, lift. rewrite Hrows. cbv beta iota.
    rewrite Hgdf. cbv beta iota. cbn [boundary_columns]. cbv beta iota.
    rewrite Hinfo. cbv beta iota zeta.
    destruct format; reflexivity.
  - cbn [patches]. split; [reflexivity|]. split; [apply plot_length|].
    split; [rewrite plot_length; apply merge_left_length|].
    split; [apply merge_left_joins|].
    split; [apply plot_patches|].
    intros b Hb. split; [|split].
    + destruct (merge_left_retains gdf df b Hb) as (m & Hm & _ & Hgeo).
      destruct (plot_draws_every_row cmap _ m Hm) as (patch & Hp & Hpg).
      exists patch. split; [exact Hp | congruence].
    + intros row v Hrow Hcode Hv. apply plot_patches.
      exists {| m_ICB23CD := ICB23CD b; m_geometry := geometry b;
                m_Area_Code := Some (Area_Code row);
                m_Area_Name := Area_Name row;
                m_Value := Value row |}.
      split.
      * apply merge_left_joins. exists b. split; [exact Hb|]. left.
        exists row. auto.
      * cbn [m_geometry m_Value]. now rewrite Hv.
    + intros Hno. pose proof (merge_left_unmatched gdf df b Hb Hno) as Hm.
      split; [exact Hm|].
      apply (plot_draws_missing cmap _ _ Hm). reflexivity.
Qed.

(** ** The stable sort *)

Section Sorting.

Context {A : Type} (before : A -> A -> bool).

Lemma insert_by_perm (x : A) (l : list A) :
  Permutation (insert_by before x l) (x :: l).
Proof.
  induction l as [|y l IH]; simpl; [reflexivity|].
  destruct (before y x); [|reflexivity].
  rewrite IH. apply perm_swap.
Qed.

Lemma sort_by_perm (l : list A) : Permutation (sort_by before l) l.
Proof.
  induction l as [|x l IH]; simpl; [reflexivity|].
  rewrite insert_by_perm. now constructor.
Qed.

Lemma sort_by_length (l : list A) : length (sort_by before l) = length l.
Proof. apply Permutation_length, sort_by_perm. Qed.

Lemma sort_by_In (l : list A) (x : A) : In x (sort_by before l) <-> In x l.
Proof.
  split; apply Permutation_in; [|symmetry]; apply sort_by_perm.
Qed.



(** Sortedness, for elements on which [before] is a strict weak order. *)
Variable P : A -> Prop.
Hypothesis before_asym :
  forall a b, P a -> P b -> before a b = true -> before b a = false.
Hypothesis before_negtrans :
  forall a b c, P a -> P b -> P c ->
    before b a = false -> before c b = false -> before c a = false.

Lemma insert_by_sorted (x : A) (l : list A) :
  P x -> Forall P l ->
  StronglySorted (fun a b => before b a = false) l ->
  StronglySorted (fun a b => before b a = false) (insert_by before x l).
Proof.
  intros Hx Hl Hs. induction Hs as [|y l Hs IH Hy]; simpl.
  - constructor; constructor.
  - inversion Hl as [|? ? Py Pl]; subst.
    destruct (before y x) eqn:Hyx.
    + constructor; [auto|].
      apply List.Forall_forall. intros z Hz.
      apply (Permutation_in _ (insert_by_perm x l)) in Hz. destruct Hz as [<-|Hz].
      * now apply before_asym.
      * rewrite List.Forall_forall in Hy. now apply Hy.
    + constructor; [now constructor|].
      constructor; [exact Hyx|].
      apply List.Forall_forall. intros z Hz.
      rewrite List.Forall_forall in Hy, Pl.
      apply (before_negtrans x y z); auto.
Qed.

Lemma sort_by_sorted (l : list A) :
  Forall P l -> StronglySorted (fun a b => before b a = false) (sort_by before l).
Proof.
  induction l as [|x l IH]; intros Hl; simpl; [constructor|].
  inversion Hl as [|? ? Px Pl]; subst. apply insert_by_sorted.
  - exact Px.
  - apply List.Forall_forall. intros z Hz. apply (proj1 (sort_by_In l z)) in Hz.
    rewrite List.Forall_forall in Pl. auto.
  - auto.
Qed.

End Sorting.

Lemma StronglySorted_app_inv {A} (R : A -> A -> Prop) (l1 l2 : list A) :
  StronglySorted R (l1 ++ l2) ->
  StronglySorted R l1 /\ StronglySorted R l2 /\
  forall x y, In x l1 -> In y l2 -> R x y.
Proof.
  induction l1 as [|a l1 IH]; simpl; intros Hs.
  - split; [constructor|]. split; [exact Hs|]. intros x y [].
  - inversion Hs as [|? ? Hs' Ha]; subst.
    destruct (IH Hs') as (H1 & H2 & H12).
    rewrite List.Forall_forall in Ha.
    split; [|split; [exact H2|]].
    + constructor; [exact H1|]. apply List.Forall_forall. intros z Hz.
      apply Ha, in_or_app. now left.
    + intros x y [<-|Hx] Hy; [|now apply H12].
      apply Ha, in_or_app. now right.
Qed.

Lemma StronglySorted_nth {A} (R : A -> A -> Prop) (d : A) (l : list A) :
  StronglySorted R l -> (forall x, R x x) ->
  forall i j, (i <= j)%nat -> (j < length l)%nat -> R (nth i l d) (nth j l d).
Proof.
  intros Hs Hrefl. induction Hs as [|a l Hs IH Ha]; intros i j Hij Hj.
  - simpl in Hj. lia.
  - destruct i as [|i], j as [|j]; simpl in *; try lia.
    + apply Hrefl.
    + rewrite List.Forall_forall in Ha. apply Ha, nth_In. lia.
    + apply IH; lia.
Qed.

(** ** C5: rankings *)

Lemma Qlt_bool_true (a b : Q) : Qlt_bool a b = true <-> (a < b)%Q.
Proof.
  unfold Qlt_bool. rewrite negb_true_iff, <- not_true_iff_false, Qle_bool_iff.
  split; [apply Qnot_le_lt | apply Qlt_not_le].
Qed.

Lemma Qlt_bool_false (a b : Q) : Qlt_bool a b = false <-> (b <= a)%Q.
Proof.
  unfold Qlt_bool. rewrite negb_false_iff. apply Qle_bool_iff.
Qed.

Lemma dropna_Value_valued (df : DataFrame) : Forall valued (dropna_Value df).
Proof.
  apply List.Forall_forall. intros row Hin. now apply filter_In in Hin.
Qed.

Lemma Value_lt_asym (a b : Row) :
  valued a -> valued b -> Value_lt a b = true -> Value_lt b a = false.
Proof.
  unfold valued, Value_lt. destruct (Value a), (Value b); try discriminate.
  intros _ _. rewrite Qlt_bool_true, Qlt_bool_false. apply Qlt_le_weak.
Qed.

Lemma Value_lt_negtrans (a b c : Row) :
  valued a -> valued b -> valued c ->
  Value_lt b a = false -> Value_lt c b = false -> Value_lt c a = false.
Proof.
  unfold valued, Value_lt. destruct (Value a), (Value b), (Value c); try discriminate.
  intros _ _ _. rewrite !Qlt_bool_false. intros; lra.
Qed.

Lemma Value_gt_asym (a b : Row) :
  valued a -> valued b -> Value_gt a b = true -> Value_gt b a = false.
Proof. unfold Value_gt. intros. now apply Value_lt_asym. Qed.

Lemma Value_gt_negtrans (a b c : Row) :
  valued a -> valued b -> valued c ->
  Value_gt b a = false -> Value_gt c b = false -> Value_gt c a = false.
Proof.
  unfold valued, Value_gt, Value_lt.
  destruct (Value a), (Value b), (Value c); try discriminate.
  intros _ _ _. rewrite !Qlt_bool_false. intros; lra.
Qed.

Lemma dropna_Value_idem (df : DataFrame) : dropna_Value (dropna_Value df) = dropna_Value df.
Proof.
  unfold dropna_Value. induction df as [|row df IH]; [reflexivity|].
  simpl. destruct (notna (Value row)) eqn:E; [|exact IH].
  simpl. now rewrite E, IH.
Qed.

Lemma isna_dropna_Value (df : DataFrame) : isna_Value (dropna_Value df) = [].
Proof.
  apply filter_none_nil. intros row Hin. apply filter_In in Hin as [_ Hv].
  unfold isna. now rewrite Hv.
Qed.

(** On a frame without NaN values the selection is a prefix of the sort. *)
Lemma nlargest_dropna (n : nat) (df : DataFrame) :
  nlargest n (dropna_Value df) = firstn n (sort_by Value_gt (dropna_Value df)).
Proof.
  unfold nlargest. now rewrite dropna_Value_idem, isna_dropna_Value, app_nil_r.
Qed.

Lemma nsmallest_dropna (n : nat) (df : DataFrame) :
  nsmallest n (dropna_Value df) = firstn n (sort_by Value_lt (dropna_Value df)).
Proof.
  unfold nsmallest. now rewrite dropna_Value_idem, isna_dropna_Value, app_nil_r.
Qed.

Lemma select_dropna (n : nat) (order : Order) (df : DataFrame) :
  match order with
  | top => nlargest n (dropna_Value df)
  | bottom => nsmallest n (dropna_Value df)
  end = firstn n (sort_by (order_before order) (dropna_Value df)).
Proof. destruct order; [apply nlargest_dropna | apply nsmallest_dropna]. Qed.

Lemma sorted_ranked_before (order : Order) (df : DataFrame) :
  StronglySorted (ranked_before order)
    (sort_by (order_before order) (dropna_Value df)).
Proof.
  assert (Hs : StronglySorted (fun a b => order_before order b a = false)
                 (sort_by (order_before order) (dropna_Value df))).
  { apply (sort_by_sorted _ valued).
    - destruct order; [apply Value_gt_asym | apply Value_lt_asym].
    - destruct order; [apply Value_gt_negtrans | apply Value_lt_negtrans].
    - apply dropna_Value_valued. }
  revert Hs. generalize (sort_by (order_before order) (dropna_Value df)).
  intros l Hs. induction Hs as [|a l Hs IH Ha]; constructor; [exact IH|].
  eapply List.Forall_impl; [|exact Ha]. cbv beta.
  intros b Hab va vb Hva Hvb.
  destruct order; unfold order_before, Value_gt, Value_lt in Hab;
    rewrite Hva, Hvb in Hab; now apply Qlt_bool_false in Hab.
Qed.



Lemma enumerate_snd {A} (rows : list A) :
  forall start, map snd (enumerate start rows) = rows.
Proof.
  induction rows as [|row rows IH]; intros start; simpl; [reflexivity|].
  now rewrite IH.
Qed.


Lemma ranking_entry_row {B} (f : Ranking -> B) (g : Row -> B) (rows : DataFrame) :
  (forall k row, f (ranking_entry (k, row)) = g row) ->
  forall start, map f (map ranking_entry (enumerate start rows)) = map g rows.
Proof.
  intros Hfg. induction rows as [|row rows IH]; intros start; [reflexivity|].
  cbn [enumerate map]. now rewrite Hfg, IH.
Qed.

(** [get_rankings] once [filter_data] has returned. *)
Lemma get_rankings_on (indicator_id : IndicatorID) (area_type : AreaType)
    (time_period : option string) (n : nat) (order : Order) (c c' : Cache)
    (df : DataFrame) (period : string) :
  filter_data (IndicatorID_value indicator_id) (AreaType_value area_type) time_period c =
    (Ok (df, period), c') ->
  exists info,
    get_rankings indicator_id area_type time_period n order c =
      (Ok {| rankings_indicator := info;
             rankings_area_type := AreaType_value area_type;
             rankings_time_period := period;
             rankings_order := order;
             rankings :=
               map ranking_entry
                 (enumerate 1
                    (firstn n (sort_by (order_before order) (dropna_Value df)))) |}, c').
Proof.
  intros Hrows. destruct (indicator_info_returns indicator_id c') as [info Hinfo].
  exists info. unfold get_rankings, bind. rewrite Hrows. cbv beta iota zeta.
  rewrite Hinfo, select_dropna. reflexivity.
Qed.


(** ** C6: the top and the bottom of a ranking *)

Lemma NoDup_app_disjoint {A} (l1 l2 : list A) (x : A) :
  List.NoDup (l1 ++ l2) -> In x l1 -> In x l2 -> False.
Proof.
  induction l1 as [|y l1 IH]; simpl; intros Hnd Hx1 Hx2; [destruct Hx1|].
  inversion Hnd as [|? ? Hy Hnd']; subst.
  destruct Hx1 as [->|Hx1]; [|now apply IH].
  apply Hy, in_or_app. now right.
Qed.

Lemma NoDup_map_injective {A B} (f : A -> B) (l : list A) (a b : A) :
  List.NoDup (map f l) -> In a l -> In b l -> f a = f b -> a = b.
Proof.
  induction l as [|x l IH]; simpl; intros Hnd Ha Hb Hab; [destruct Ha|].
  inversion Hnd as [|? ? Hx Hnd']; subst.
  destruct Ha as [->|Ha], Hb as [->|Hb]; auto.
  - exfalso. apply Hx. rewrite Hab. now apply in_map.
  - exfalso. apply Hx. rewrite <- Hab. now apply in_map.
Qed.

(** With no two rows of one value, a row cannot be among the first [n] in
    both orders once there are [2 n] rows. *)
Lemma first_and_last_disjoint (n : nat) (df : DataFrame) (a : Row) :
  List.NoDup (dropna_Value df) ->
  (forall x y va vb,
     In x (dropna_Value df) -> In y (dropna_Value df) ->
     Value x = Some va -> Value y = Some vb -> (va == vb)%Q -> x = y) ->
  (2 * n <= length (dropna_Value df))%nat ->
  In a (firstn n (sort_by (order_before top) (dropna_Value df))) ->
  In a (firstn n (sort_by (order_before bottom) (dropna_Value df))) ->
  False.
Proof.
  intros Hnd Hinj Hlen Htop Hbottom.
  set (sd := sort_by (order_before top) (dropna_Value df)) in *.
  set (sa := sort_by (order_before bottom) (dropna_Value df)) in *.
  assert (Hsd : StronglySorted (ranked_before top) (firstn n sd ++ skipn n sd))
    by (rewrite firstn_skipn; apply sorted_ranked_before).
  assert (Hsa : StronglySorted (ranked_before bottom) (firstn n sa ++ skipn n sa))
    by (rewrite firstn_skipn; apply sorted_ranked_before).
  apply StronglySorted_app_inv in Hsd as (_ & _ & Hsd).
  apply StronglySorted_app_inv in Hsa as (_ & _ & Hsa).
  assert (Hnd_sd : List.NoDup (firstn n sd ++ skipn n sd)).
  { rewrite firstn_skipn. eapply Permutation.Permutation_NoDup; [|exact Hnd].
    symmetry. apply sort_by_perm. }
  assert (Hin_sd : forall z, In z sd -> In z (dropna_Value df))
    by (intros z; apply sort_by_In).
  assert (Hin_sa : forall z, In z (dropna_Value df) -> In z sa)
    by (intros z; apply sort_by_In).
  assert (Ha : In a (dropna_Value df)).
  { apply Hin_sd. rewrite <- (firstn_skipn n sd). apply in_or_app. now left. }
  assert (Hincl : incl (a :: skipn n sd) (firstn n sa)).
  { intros z [<-|Hz]; [exact Hbottom|].
    assert (Hz_df : In z (dropna_Value df)).
    { apply Hin_sd. rewrite <- (firstn_skipn n sd). apply in_or_app. now right. }
    pose proof (Hin_sa z Hz_df) as Hz_sa.
    rewrite <- (firstn_skipn n sa) in Hz_sa.
    apply in_app_or in Hz_sa as [Hz_sa|Hz_sa]; [exact Hz_sa|]. exfalso.
    pose proof (dropna_Value_valued df) as Hval.
    rewrite List.Forall_forall in Hval.
    pose proof (Hval a Ha) as Hva. pose proof (Hval z Hz_df) as Hvz.
    unfold valued in Hva, Hvz.
    destruct (Value a) as [va|] eqn:Ea; [|discriminate].
    destruct (Value z) as [vz|] eqn:Ez; [|discriminate].
    pose proof (Hsd a z Htop Hz va vz Ea Ez) as H1.
    pose proof (Hsa a z Hbottom Hz_sa va vz Ea Ez) as H2.
    cbv beta iota in H1, H2.
    assert (Heq : a = z) by (apply (Hinj a z va vz); auto; lra).
    subst z. exact (NoDup_app_disjoint _ _ _ Hnd_sd Htop Hz). }
  assert (Hnd' : List.NoDup (a :: skipn n sd)).
  { constructor.
    - intros Hz. exact (NoDup_app_disjoint _ _ _ Hnd_sd Htop Hz).
    - exact (List.NoDup_app_remove_l _ _ Hnd_sd). }
  pose proof (List.NoDup_incl_length Hnd' Hincl) as Hcount.
  cbn [length] in Hcount. rewrite length_skipn, length_firstn in Hcount.
  subst sd sa. rewrite !sort_by_length in Hcount. lia.
Qed.

(** C6, as the code has it.  When at least 10 of the filtered rows have a
    value, and those rows have pairwise different area codes and pairwise
    different values, no area code returned by [GET /rankings] with
    [order=top, n=5] is returned with [order=bottom, n=5]. *)
Theorem get_rankings_top_bottom_disjoint
    (indicator_id : IndicatorID) (area_type : AreaType)
    (time_period : option string) (c c' : Cache)
    (df : DataFrame) (period : string) :
  filter_data (IndicatorID_value indicator_id) (AreaType_value area_type) time_period c =
    (Ok (df, period), c') ->
  (10 <= length (dropna_Value df))%nat ->
  List.NoDup (map Area_Code (dropna_Value df)) ->
  (forall x y va vb,
     In x (dropna_Value df) -> In y (dropna_Value df) ->
     Value x = Some va -> Value y = Some vb -> (va == vb)%Q -> x = y) ->
  exists top_resp bottom_resp,
    get_rankings indicator_id area_type time_period 5 top c = (Ok top_resp, c') /\
    get_rankings indicator_id area_type time_period 5 bottom c = (Ok bottom_resp, c') /\
    forall code,
      In code (map rank_area_code (rankings top_resp)) ->
      In code (map rank_area_code (rankings bottom_resp)) -> False.
Proof.
  intros Hrows Hlen Hcodes Hinj.
  destruct (get_rankings_on _ _ _ 5 top _ _ _ _ Hrows) as [info_top Htop].
  destruct (get_rankings_on _ _ _ 5 bottom _ _ _ _ Hrows) as [info_bottom Hbottom].
  eexists. eexists. split; [exact Htop|]. split; [exact Hbottom|].
  cbn [rankings]. intros code.
  rewrite !(ranking_entry_row rank_area_code Area_Code) by reflexivity.
  intros Hin_top Hin_bottom.
  apply in_map_iff in Hin_top as (a & Hca & Ha).
  apply in_map_iff in Hin_bottom as (b & Hcb & Hb).
  assert (Hprefix : forall order z,
             In z (firstn 5 (sort_by (order_before order) (dropna_Value df))) ->
             In z (dropna_Value df)).
  { intros order z Hz. apply (sort_by_In (order_before order)).
    rewrite <- (firstn_skipn 5 (sort_by _ _)). apply in_or_app. now left. }
  assert (Hab : a = b).
  { apply (NoDup_map_injective Area_Code (dropna_Value df)); eauto. congruence. }
  subst b.
  apply (first_and_last_disjoint 5 df a); auto.
  eapply List.NoDup_map_inv. exact Hcodes.
Qed.

(** ** C4: the order of the summary statistics *)

Lemma sort_values_sorted (v : list Q) : StronglySorted Qle (sort_values v).
Proof.
  assert (Hs : StronglySorted (fun a b => Qlt_bool b a = false) (sort_values v)).
  { apply (sort_by_sorted _ (fun _ => True)).
    - intros a b _ _. rewrite Qlt_bool_true, Qlt_bool_false. apply Qlt_le_weak.
    - intros a b c _ _ _. rewrite !Qlt_bool_false. intros; lra.
    - apply List.Forall_forall. auto. }
  revert Hs. generalize (sort_values v). intros l Hs.
  induction Hs as [|a l Hs IH Ha]; constructor; [exact IH|].
  eapply List.Forall_impl; [|exact Ha]. cbv beta. intros b. apply Qlt_bool_false.
Qed.

Lemma sort_values_length (v : list Q) : length (sort_values v) = length v.
Proof. apply sort_by_length. Qed.

Lemma sorted_nth_le (s : list Q) (i j : nat) :
  StronglySorted Qle s -> (i <= j)%nat -> (j < length s)%nat ->
  (nth i s 0 <= nth j s 0)%Q.
Proof.
  intros Hs. apply (StronglySorted_nth Qle 0%Q s Hs). intros x. apply Qle_refl.
Qed.

(** The floor of a virtual index within the frame is an index of the frame. *)
Lemma floor_index (n : nat) (h : Q) :
  (0 <= h)%Q -> (h <= inject_Z (Z.of_nat (n - 1)))%Q ->
  (0 <= Qfloor h)%Z /\ (Z.to_nat (Qfloor h) <= n - 1)%nat /\
  (inject_Z (Qfloor h) <= h)%Q /\ (h < inject_Z (Qfloor h) + 1)%Q.
Proof.
  intros H0 Hn.
  assert (Hf0 : (0 <= Qfloor h)%Z).
  { change 0%Z with (Qfloor 0). now apply Qfloor_resp_le. }
  assert (Hfn : (Qfloor h <= Z.of_nat (n - 1))%Z).
  { rewrite <- (Qfloor_Z (Z.of_nat (n - 1))). now apply Qfloor_resp_le. }
  split; [exact Hf0|]. split; [lia|]. split; [apply Qfloor_le|].
  pose proof (Qlt_floor h) as Hlt. rewrite inject_Z_plus in Hlt. exact Hlt.
Qed.

(** The interpolated value lies between its two neighbours. *)
Lemma lerp_at_between (s : list Q) (h : Q) :
  StronglySorted Qle s -> s <> [] ->
  (0 <= h)%Q -> (h <= inject_Z (Z.of_nat (length s - 1)))%Q ->
  (nth (Z.to_nat (Qfloor h)) s 0 <= lerp_at s h)%Q /\
  (lerp_at s h <= nth (Nat.min (Z.to_nat (Qfloor h) + 1) (length s - 1)) s 0)%Q.
Proof.
  intros Hs Hne H0 Hn.
  destruct (floor_index (length s) h H0 Hn) as (Hf0 & Hlo & Hfl & Hfu).
  assert (Hlen : (0 < length s)%nat) by (destruct s; [congruence | simpl; lia]).
  unfold lerp_at. cbv zeta.
  set (lo := Z.to_nat (Qfloor h)) in *.
  set (hi := Nat.min (lo + 1) (length s - 1)).
  assert (Hab : (nth lo s 0 <= nth hi s 0)%Q)
    by (apply sorted_nth_le; [exact Hs | subst hi; lia | subst hi; lia]).
  set (a := nth lo s 0%Q) in *. set (b := nth hi s 0%Q) in *.
  set (g := (h - inject_Z (Qfloor h))%Q).
  assert (Hg0 : (0 <= g)%Q) by (subst g; lra).
  assert (Hg1 : (g <= 1)%Q) by (subst g; lra).
  split; nra.
Qed.

(** The interpolated value grows with the virtual index. *)
Lemma lerp_at_mono (s : list Q) (h1 h2 : Q) :
  StronglySorted Qle s -> s <> [] ->
  (0 <= h1)%Q -> (h1 <= h2)%Q -> (h2 <= inject_Z (Z.of_nat (length s - 1)))%Q ->
  (lerp_at s h1 <= lerp_at s h2)%Q.
Proof.
  intros Hs Hne H0 H12 Hn.
  assert (Hn1 : (h1 <= inject_Z (Z.of_nat (length s - 1)))%Q) by lra.
  assert (H02 : (0 <= h2)%Q) by lra.
  destruct (floor_index (length s) h1 H0 Hn1) as (Hf1 & Hlo1 & Hfl1 & Hfu1).
  destruct (floor_index (length s) h2 H02 Hn) as (Hf2 & Hlo2 & Hfl2 & Hfu2).
  assert (Hlen : (0 < length s)%nat) by (destruct s; [congruence | simpl; lia]).
  assert (Hfloors : (Qfloor h1 <= Qfloor h2)%Z) by now apply Qfloor_resp_le.
  destruct (Z.eq_dec (Qfloor h1) (Qfloor h2)) as [Heq|Hneq].
  - unfold lerp_at. cbv zeta. rewrite <- Heq.
    set (lo := Z.to_nat (Qfloor h1)) in *.
    set (hi := Nat.min (lo + 1) (length s - 1)).
    assert (Hab : (nth lo s 0 <= nth hi s 0)%Q)
      by (apply sorted_nth_le; [exact Hs | subst hi; lia | subst hi; lia]).
    set (a := nth lo s 0%Q) in *. set (b := nth hi s 0%Q) in *.
    nra.
  - destruct (lerp_at_between s h1 Hs Hne H0 Hn1) as [_ Hup].
    destruct (lerp_at_between s h2 Hs Hne H02 Hn) as [Hdown _].
    eapply Qle_trans; [exact Hup|]. eapply Qle_trans; [|exact Hdown].
    apply sorted_nth_le; [exact Hs | lia | lia].
Qed.

Lemma half_index_floor (z : Z) : Qfloor ((1 # 2) * inject_Z z) = (z / 2)%Z.
Proof. unfold Qfloor, Qmult, inject_Z. cbn [Qnum Qden]. f_equal. lia. Qed.

Lemma half_odd (k : nat) : ((2 * k + 1) / 2 = k)%nat.
Proof. symmetry. apply (Nat.div_unique _ 2 k 1); lia. Qed.

Lemma half_even (k : nat) : ((2 * k) / 2 = k)%nat.
Proof. symmetry. apply (Nat.div_unique _ 2 k 0); lia. Qed.

(** The median is the interpolation at the middle virtual index. *)
Lemma median_is_lerp (v : list Q) :
  v <> [] ->
  exists m,
    median v = Some m /\
    (m == lerp_at (sort_values v)
            ((1 # 2) * inject_Z (Z.of_nat (length (sort_values v) - 1))))%Q.
Proof using.
  clear get_data_for_indicator_at_all_available_geographies read_file
    re_search_ignorecase sqrt pearsonr scatter_error linregress format_3f.
  intros Hne. unfold median. destruct v as [|x v']; [congruence|].
  set (v := x :: v') in *. rewrite sort_values_length.
  set (s := sort_values v).
  assert (Hs : length s = length v) by apply sort_values_length.
  assert (Hn : (0 < length v)%nat) by (subst v; simpl; lia).
  unfold lerp_at. cbv zeta. rewrite half_index_floor, Hs.
  generalize dependent (length v). intros n _ Hn. clearbody s. clear v Hne.
  destruct (Nat.odd n) eqn:Hodd.
  - eexists. split; [reflexivity|].
    apply Nat.odd_spec in Hodd as [k ->]. rewrite half_odd.
    replace (Z.to_nat (Z.of_nat (2 * k + 1 - 1) / 2)) with k by lia_div.
    replace (Z.of_nat (2 * k + 1 - 1) / 2)%Z with (Z.of_nat k) by lia_div.
    replace (Z.of_nat (2 * k + 1 - 1)) with (2 * Z.of_nat k)%Z by lia.
    rewrite inject_Z_mult.
    set (a := nth k s 0%Q). set (b := nth _ s 0%Q).
    set (zk := inject_Z (Z.of_nat k)).
    change (inject_Z 2) with (2 # 1).
    assert (Hg : ((1 # 2) * ((2 # 1) * zk) - zk == 0)%Q) by lra.
    rewrite Hg. lra.
  - eexists. split; [reflexivity|].
    assert (Heven : Nat.even n = true) by (rewrite <- Nat.negb_odd, Hodd; reflexivity).
    apply Nat.even_spec in Heven as [k ->]. rewrite half_even.
    replace (Z.to_nat (Z.of_nat (2 * k - 1) / 2)) with (k - 1)%nat by lia_div.
    replace (Nat.min (k - 1 + 1) (2 * k - 1)) with k by lia.
    replace (Z.of_nat (2 * k - 1) / 2)%Z with (Z.of_nat k - 1)%Z by lia_div.
    replace (Z.of_nat (2 * k - 1)) with (2 * Z.of_nat k - 1)%Z by lia.
    unfold Z.sub. rewrite !inject_Z_plus, inject_Z_mult.
    set (a := nth (k - 1) s 0%Q). set (b := nth k s 0%Q).
    set (zk := inject_Z (Z.of_nat k)).
    change (inject_Z 2) with (2 # 1). change (inject_Z (- (1))) with (- (1 # 1))%Q.
    assert (Hg : ((1 # 2) * ((2 # 1) * zk + - (1 # 1)) - (zk + - (1 # 1)) == 1 # 2)%Q) by lra.
    rewrite Hg. field.
Qed.

Lemma fold_left_Qmin_le (l : list Q) :
  forall a, (fold_left Qmin l a <= a)%Q /\
            forall x, In x l -> (fold_left Qmin l a <= x)%Q.
Proof.
  induction l as [|y l IH]; intros a; simpl.
  - split; [apply Qle_refl | intros x []].
  - destruct (IH (Qmin a y)) as [Ha Hl]. split.
    + eapply Qle_trans; [exact Ha | apply Q.le_min_l].
    + intros x [<-|Hx]; [|now apply Hl].
      eapply Qle_trans; [exact Ha | apply Q.le_min_r].
Qed.

Lemma fold_left_Qmax_ge (l : list Q) :
  forall a, (a <= fold_left Qmax l a)%Q /\
            forall x, In x l -> (x <= fold_left Qmax l a)%Q.
Proof.
  induction l as [|y l IH]; intros a; simpl.
  - split; [apply Qle_refl | intros x []].
  - destruct (IH (Qmax a y)) as [Ha Hl]. split.
    + eapply Qle_trans; [apply Q.le_max_l | exact Ha].
    + intros x [<-|Hx]; [|now apply Hl].
      eapply Qle_trans; [apply Q.le_max_r | exact Ha].
Qed.

Lemma Qmin_list_le (v : list Q) (m x : Q) :
  Qmin_list v = Some m -> In x v -> (m <= x)%Q.
Proof.
  destruct v as [|a v]; [discriminate|]. intros [= <-].
  destruct (fold_left_Qmin_le v a) as [Ha Hl].
  intros [<-|Hx]; auto.
Qed.

Lemma Qmax_list_ge (v : list Q) (m x : Q) :
  Qmax_list v = Some m -> In x v -> (x <= m)%Q.
Proof.
  destruct v as [|a v]; [discriminate|]. intros [= <-].
  destruct (fold_left_Qmax_ge v a) as [Ha Hl].
  intros [<-|Hx]; auto.
Qed.

(** Rounding keeps the order. *)
Lemma round_half_even_mono (x y : Q) :
  (x <= y)%Q -> (round_half_even x <= round_half_even y)%Z.
Proof.
  intros Hxy. unfold round_half_even. cbv zeta.
  pose proof (Qfloor_resp_le x y Hxy) as Hf.
  pose proof (Qfloor_le x) as Hx0. pose proof (Qlt_floor x) as Hx1.
  pose proof (Qfloor_le y) as Hy0. pose proof (Qlt_floor y) as Hy1.
  rewrite inject_Z_plus in Hx1, Hy1.
  destruct (Z.eq_dec (Qfloor x) (Qfloor y)) as [Heq|Hneq].
  - rewrite <- Heq in *.
    destruct (Qcompare_spec (x - inject_Z (Qfloor x)) (1 # 2)) as [Hx|Hx|Hx];
      destruct (Qcompare_spec (y - inject_Z (Qfloor x)) (1 # 2)) as [Hy|Hy|Hy];
      try destruct (Z.even (Qfloor x)); try lia; exfalso; lra.
  - assert (Hlt : (Qfloor x + 1 <= Qfloor y)%Z) by lia.
    destruct (x - inject_Z (Qfloor x) ?= 1 # 2)%Q, (y - inject_Z (Qfloor y) ?= 1 # 2)%Q;
      try destruct (Z.even (Qfloor x)); try destruct (Z.even (Qfloor y)); lia.
Qed.

Lemma Qround_digits_mono (ndigits : nat) (x y : Q) :
  (x <= y)%Q -> (Qround_digits ndigits x <= Qround_digits ndigits y)%Q.
Proof.
  intros Hxy. unfold Qround_digits. cbv zeta.
  assert (Hpos : (0 < 10 ^ Z.of_nat ndigits)%Z) by (apply Z.pow_pos_nonneg; lia).
  set (scale := inject_Z (10 ^ Z.of_nat ndigits)).
  assert (Hscale : (0 < scale)%Q).
  { subst scale. change 0%Q with (inject_Z 0). now rewrite <- Zlt_Qlt. }
  assert (Hmul : (x * scale <= y * scale)%Q) by (apply Qmult_le_compat_r; lra).
  pose proof (round_half_even_mono _ _ Hmul) as Hr.
  rewrite Zle_Qle in Hr.
  apply Qle_shift_div_l; [exact Hscale|].
  unfold Qdiv. rewrite <- Qmult_assoc, (Qmult_comm (/ scale)), Qmult_inv_r by lra.
  lra.
Qed.

(** The rounding to a double: powers of two, binades, and the order it
    keeps. *)

Lemma pow2_pos (e : Z) : (0 < pow2 e)%Q.
Proof. apply Qpower_0_lt. reflexivity. Qed.

Lemma pow2_plus (a b : Z) : (pow2 (a + b) == pow2 a * pow2 b)%Q.
Proof. unfold pow2. apply Qpower_plus. discriminate. Qed.

Lemma pow2_Z (k : Z) : (0 <= k)%Z -> (pow2 k == inject_Z (2 ^ k))%Q.
Proof. intros Hk. unfold pow2. now rewrite Zpower_Qpower. Qed.

Lemma pow2_mono (a b : Z) : (a <= b)%Z -> (pow2 a <= pow2 b)%Q.
Proof.
  intros Hab. replace b with (a + (b - a))%Z by lia.
  rewrite pow2_plus, (pow2_Z (b - a)) by lia.
  assert (H1 : (1 <= 2 ^ (b - a))%Z) by (apply Z.lt_pred_le, Z.pow_pos_nonneg; lia).
  rewrite Zle_Qle in H1. pose proof (pow2_pos a).
  change (inject_Z 1) with 1%Q in H1. nra.
Qed.

(** The integer powers of two around a positive integer. *)
Lemma log2_bounds (n : Z) :
  (0 < n)%Z ->
  (pow2 (Z.log2 n) <= inject_Z n)%Q /\ (inject_Z n < pow2 (Z.log2 n + 1))%Q.
Proof.
  intros Hn. destruct (Z.log2_spec n Hn) as [Hlow Hhigh].
  pose proof (Z.log2_nonneg n) as H0.
  rewrite !pow2_Z by lia. rewrite <- Zle_Qle, <- Zlt_Qlt.
  split; [exact Hlow|]. now rewrite Z.add_1_r.
Qed.

Lemma binade_spec (x : Q) :
  (0 < x)%Q -> (pow2 (binade x) <= x)%Q /\ (x < pow2 (binade x + 1))%Q.
Proof.
  intros Hx. unfold binade. cbv zeta.
  destruct x as [n d]. cbn [Qnum Qden].
  assert (Hn : (0 < n)%Z).
  { unfold Qlt in Hx. cbn in Hx. lia. }
  destruct (log2_bounds n Hn) as [Hn0 Hn1].
  destruct (log2_bounds (Zpos d) (Pos2Z.is_pos d)) as [Hd0 Hd1].
  set (a := Z.log2 n) in *. set (b := Z.log2 (Zpos d)) in *.
  assert (Hx' : (n # d == inject_Z n / inject_Z (Zpos d))%Q) by apply Qmake_Qdiv.
  assert (Hdpos : (0 < inject_Z (Zpos d))%Q).
  { change 0%Q with (inject_Z 0). rewrite <- Zlt_Qlt. lia. }
  (* [n # d] lies strictly between [2 ** (a - b - 1)] and [2 ** (a - b + 1)] *)
  assert (Hhigh : (n # d < pow2 (a - b + 1))%Q).
  { rewrite Hx'. apply Qlt_shift_div_r; [exact Hdpos|].
    assert (E : (pow2 (a + 1) == pow2 (a - b + 1) * pow2 b)%Q).
    { rewrite <- pow2_plus. now replace (a - b + 1 + b)%Z with (a + 1)%Z by lia. }
    pose proof (pow2_pos (a - b + 1)). nra. }
  assert (Hlow : (pow2 (a - b - 1) <= n # d)%Q).
  { rewrite Hx'. apply Qle_shift_div_l; [exact Hdpos|].
    assert (E : (pow2 a == pow2 (a - b - 1) * pow2 (b + 1))%Q).
    { rewrite <- pow2_plus. now replace (a - b - 1 + (b + 1))%Z with a by lia. }
    pose proof (pow2_pos (a - b - 1)). nra. }
  destruct (Qle_bool (pow2 (a - b)) (n # d)) eqn:Hle.
  - apply Qle_bool_iff in Hle. split; assumption.
  - assert (Hlt : (n # d < pow2 (a - b))%Q).
    { apply Qnot_le_lt. intros H. apply Qle_bool_iff in H. congruence. }
    replace (a - b - 1 + 1)%Z with (a - b)%Z by lia. split; assumption.
Qed.

Lemma binade_mono (x y : Q) :
  (0 < x)%Q -> (x <= y)%Q -> (binade x <= binade y)%Z.
Proof.
  intros Hx Hxy.
  destruct (binade_spec x Hx) as [Hx0 _].
  destruct (binade_spec y) as [_ Hy1]; [lra|].
  destruct (Z_le_gt_dec (binade x) (binade y)) as [H|H]; [exact H|].
  pose proof (pow2_mono (binade y + 1) (binade x)) as Hp. lapply Hp; [|lia].
  intros Hp'. exfalso. lra.
Qed.

Lemma round_half_even_Z (k : Z) : round_half_even (inject_Z k) = k.
Proof.
  unfold round_half_even. cbv zeta. rewrite Qfloor_Z.
  destruct (Qcompare_spec (inject_Z k - inject_Z k) (1 # 2)) as [H|H|H];
    try reflexivity; exfalso; lra.
Qed.

Lemma round_half_even_nonneg (x : Q) : (0 <= x)%Q -> (0 <= round_half_even x)%Z.
Proof.
  intros Hx. rewrite <- (round_half_even_Z 0). now apply round_half_even_mono.
Qed.

Lemma nearest_double_nonneg (x : Q) : (0 <= x)%Q -> (0 <= nearest_double x)%Q.
Proof.
  intros Hx. unfold nearest_double. cbv zeta.
  pose proof (pow2_pos (ulp_exponent x)) as Hp.
  apply Qmult_le_0_compat; [|lra].
  change 0%Q with (inject_Z 0). rewrite <- Zle_Qle.
  apply round_half_even_nonneg. apply Qle_shift_div_l; [exact Hp|]. lra.
Qed.

Lemma ulp_exponent_mono (x y : Q) :
  (0 < x)%Q -> (x <= y)%Q -> (ulp_exponent x <= ulp_exponent y)%Z.
Proof.
  intros Hx Hxy. unfold ulp_exponent. pose proof (binade_mono x y Hx Hxy). lia.
Qed.

(** Scaling by a power of two. *)
Lemma scaled_le (x : Q) (e k : Z) :
  (x <= pow2 (e + k))%Q -> (x / pow2 e <= inject_Z (2 ^ k))%Q \/ (k < 0)%Z.
Proof.
  intros H. destruct (Z_lt_ge_dec k 0) as [Hk|Hk]; [now right|left].
  rewrite <- pow2_Z by lia. apply Qle_shift_div_r; [apply pow2_pos|].
  now rewrite Qmult_comm, <- pow2_plus.
Qed.

Lemma nearest_double_mono (x y : Q) :
  (0 < x)%Q -> (x <= y)%Q -> (nearest_double x <= nearest_double y)%Q.
Proof.
  intros Hx Hxy. assert (Hy : (0 < y)%Q) by lra.
  pose proof (ulp_exponent_mono x y Hx Hxy) as He.
  unfold nearest_double. cbv zeta.
  set (ex := ulp_exponent x) in *. set (ey := ulp_exponent y) in *.
  pose proof (pow2_pos ex) as Hpx. pose proof (pow2_pos ey) as Hpy.
  destruct (Z.eq_dec ex ey) as [Heq|Hne].
  - rewrite <- Heq. apply Qmult_le_compat_r; [|lra].
    rewrite <- Zle_Qle. apply round_half_even_mono.
    apply Qmult_le_compat_r; [exact Hxy|]. apply Qlt_le_weak, Qinv_lt_0_compat, Hpx.
  - (* the two numbers lie in different binades: a power of two separates
       their roundings *)
    assert (Hlt : (ex < ey)%Z) by lia.
    destruct (binade_spec x Hx) as [_ Hx1]. destruct (binade_spec y Hy) as [Hy0 _].
    assert (Hbx : (binade x + 1 <= ex + 53)%Z) by (subst ex; unfold ulp_exponent; lia).
    assert (Hby : (binade y = ey + 52)%Z) by (subst ex ey; unfold ulp_exponent in *; lia).
    apply Qle_trans with (pow2 (ex + 53)).
    + assert (Hsx : (x / pow2 ex <= inject_Z (2 ^ 53))%Q).
      { rewrite <- pow2_Z by lia. apply Qle_shift_div_r; [exact Hpx|].
        rewrite Qmult_comm, <- pow2_plus.
        apply Qle_trans with (pow2 (binade x + 1)); [lra|]. now apply pow2_mono. }
      apply round_half_even_mono in Hsx. rewrite round_half_even_Z in Hsx.
      rewrite Zle_Qle in Hsx. rewrite <- pow2_Z in Hsx by lia.
      rewrite pow2_plus, (Qmult_comm (pow2 ex)). apply Qmult_le_compat_r; lra.
    + apply Qle_trans with (pow2 (ey + 52)); [apply pow2_mono; lia|].
      assert (Hsy : (inject_Z (2 ^ 52) <= y / pow2 ey)%Q).
      { rewrite <- pow2_Z by lia. apply Qle_shift_div_l; [exact Hpy|].
        rewrite Qmult_comm, <- pow2_plus. now rewrite <- Hby. }
      apply round_half_even_mono in Hsy. rewrite round_half_even_Z in Hsy.
      rewrite Zle_Qle in Hsy. rewrite <- pow2_Z in Hsy by lia.
      rewrite pow2_plus, (Qmult_comm (pow2 ey)). apply Qmult_le_compat_r; lra.
Qed.

Lemma nearest_double_zero (x : Q) : (x == 0)%Q -> (nearest_double x == 0)%Q.
Proof.
  intros Hx. unfold nearest_double. cbv zeta.
  assert (E : (x / pow2 (ulp_exponent x) == inject_Z 0)%Q).
  { unfold Qdiv. change (inject_Z 0) with 0%Q.
    generalize (/ pow2 (ulp_exponent x))%Q. intros c. rewrite Hx. lra. }
  assert (R : round_half_even (x / pow2 (ulp_exponent x)) = 0%Z).
  { assert (H1 : (x / pow2 (ulp_exponent x) <= inject_Z 0)%Q) by (rewrite E; apply Qle_refl).
    assert (H2 : (inject_Z 0 <= x / pow2 (ulp_exponent x))%Q) by (rewrite E; apply Qle_refl).
    apply round_half_even_mono in H1, H2. rewrite round_half_even_Z in H1, H2. lia. }
  rewrite R. change (inject_Z 0) with 0%Q. lra.
Qed.

Lemma nearest_double_le (x y : Q) :
  (0 <= x)%Q -> (x <= y)%Q -> (nearest_double x <= nearest_double y)%Q.
Proof.
  intros Hx Hxy. destruct (Qlt_le_dec 0 x) as [Hpos|Hzero].
  - now apply nearest_double_mono.
  - rewrite (nearest_double_zero x) by lra. apply nearest_double_nonneg. lra.
Qed.

(** Rounding to a double keeps the order. *)
Lemma fl_mono (x y : Q) : (x <= y)%Q -> (fl x <= fl y)%Q.
Proof.
  intros Hxy. unfold fl. rewrite !Qred_correct.
  destruct (Qcompare_spec x 0) as [Hx|Hx|Hx], (Qcompare_spec y 0) as [Hy|Hy|Hy];
    try (exfalso; lra); try (apply nearest_double_le; lra).
  - assert (H1 : (0 <= nearest_double (- x))%Q) by (apply nearest_double_nonneg; lra).
    assert (H2 : (0 <= nearest_double y)%Q) by (apply nearest_double_nonneg; lra). lra.
  - assert (H1 : (nearest_double (- y) <= nearest_double (- x))%Q)
      by (apply nearest_double_le; lra). lra.
  - assert (H1 : (0 <= nearest_double (- x))%Q) by (apply nearest_double_nonneg; lra).
    assert (H2 : (0 <= nearest_double y)%Q) by (apply nearest_double_nonneg; lra). lra.
Qed.

(** Equal numbers round to the same double. *)
Lemma fl_Qeq (x y : Q) : (x == y)%Q -> fl x = fl y.
Proof.
  intros Hxy.
  assert (H : (fl x == fl y)%Q).
  { apply Qle_antisym; apply fl_mono; rewrite Hxy; apply Qle_refl. }
  unfold fl in *. rewrite !Qred_correct in H. now apply Qred_complete.
Qed.

Lemma np_round_digits_mono (ndigits : nat) (x y : Q) :
  (x <= y)%Q -> (np_round_digits ndigits x <= np_round_digits ndigits y)%Q.
Proof.
  intros Hxy. unfold np_round_digits. cbv zeta.
  assert (Hpos : (0 < 10 ^ Z.of_nat ndigits)%Z) by (apply Z.pow_pos_nonneg; lia).
  set (scale := inject_Z (10 ^ Z.of_nat ndigits)).
  assert (Hscale : (0 < scale)%Q).
  { subst scale. change 0%Q with (inject_Z 0). now rewrite <- Zlt_Qlt. }
  apply fl_mono. apply Qmult_le_compat_r; [|apply Qlt_le_weak, Qinv_lt_0_compat, Hscale].
  rewrite <- Zle_Qle. apply round_half_even_mono, fl_mono.
  apply Qmult_le_compat_r; lra.
Qed.

Lemma np_round_digits_Qeq (ndigits : nat) (x y : Q) :
  (x == y)%Q -> np_round_digits ndigits x = np_round_digits ndigits y.
Proof.
  intros Hxy. unfold np_round_digits. cbv zeta.
  set (scale := inject_Z (10 ^ Z.of_nat ndigits)).
  rewrite (fl_Qeq (x * scale) (y * scale)); [reflexivity|]. now rewrite Hxy.
Qed.

Lemma dropna_Value_length (df : DataFrame) :
  length (dropna (map Value df)) = length (dropna_Value df).
Proof.
  unfold dropna_Value. induction df as [|row df IH]; [reflexivity|].
  simpl. destruct (Value row); simpl; now rewrite IH.
Qed.

(** Before rounding: the five order statistics of a column with a value. *)
Lemma statistics_ordered (values : list Q) :
  values <> [] ->
  exists mn p25 md p75 mx,
    Qmin_list values = Some mn /\
    quantile (1 # 4) values = Some p25 /\
    median values = Some md /\
    quantile (3 # 4) values = Some p75 /\
    Qmax_list values = Some mx /\
    (mn <= p25)%Q /\ (p25 <= md)%Q /\ (md <= p75)%Q /\ (p75 <= mx)%Q.
Proof.
  intros Hne.
  destruct (median_is_lerp values Hne) as (md & Hmd & Hmd_eq).
  pose proof (sort_values_sorted values) as Hsorted.
  pose proof (sort_values_length values) as Hlen.
  destruct values as [|x values']; [congruence|].
  set (values := x :: values') in *.
  set (s := sort_values values) in *.
  assert (Hs_ne : s <> []).
  { intros Hnil. rewrite Hnil in Hlen. discriminate Hlen. }
  set (z := inject_Z (Z.of_nat (length s - 1))) in *.
  assert (Hz : (0 <= z)%Q).
  { subst z. change 0%Q with (inject_Z 0). rewrite <- Zle_Qle. lia. }
  assert (Hpos : (0 < length s)%nat) by (rewrite Hlen; simpl; lia).
  assert (Hin : forall i, (i < length s)%nat -> In (nth i s 0%Q) values).
  { intros i Hi. apply (sort_by_In Qlt_bool). now apply nth_In. }
  exists (fold_left Qmin values' x), (lerp_at s ((1 # 4) * z)), md,
    (lerp_at s ((3 # 4) * z)), (fold_left Qmax values' x).
  repeat (split; [reflexivity || exact Hmd|]).
  assert (H25 : (0 <= (1 # 4) * z)%Q /\ ((1 # 4) * z <= z)%Q) by (split; lra).
  assert (H50 : (0 <= (1 # 2) * z)%Q /\ ((1 # 2) * z <= z)%Q) by (split; lra).
  assert (H75 : (0 <= (3 # 4) * z)%Q /\ ((3 # 4) * z <= z)%Q) by (split; lra).
  split; [|split; [|split]].
  - destruct (lerp_at_between s _ Hsorted Hs_ne (proj1 H25) (proj2 H25)) as [Hlow _].
    eapply Qle_trans; [|exact Hlow].
    apply (Qmin_list_le values); [reflexivity|].
    apply Hin.
    destruct (floor_index (length s) _ (proj1 H25) (proj2 H25)) as (_ & Hlo & _). lia.
  - rewrite Hmd_eq.
    apply lerp_at_mono; [exact Hsorted | exact Hs_ne | | | fold z]; lra.
  - rewrite Hmd_eq.
    apply lerp_at_mono; [exact Hsorted | exact Hs_ne | | | fold z]; lra.
  - destruct (lerp_at_between s _ Hsorted Hs_ne (proj1 H75) (proj2 H75)) as [_ Hhigh].
    eapply Qle_trans; [exact Hhigh|].
    apply (Qmax_list_ge values); [reflexivity|].
    apply Hin. lia.
Qed.

(** C4. Once [filter_data] has returned rows of which at least one has a
    value, the statistics of [GET /summary] (each rounded to 2 decimals)
    satisfy min <= percentile_25 <= median <= percentile_75 <= max, and
    [areas_count] is the number of rows with a value.  The order statistics
    are exact rationals here, and each is then rounded as numpy rounds
    ([np_round]). *)
Theorem get_summary_statistics_ordered
    (indicator_id : IndicatorID) (area_type : AreaType)
    (time_period : option string) (c c' : Cache)
    (df : DataFrame) (period : string) :
  filter_data (IndicatorID_value indicator_id) (AreaType_value area_type) time_period c =
    (Ok (df, period), c') ->
  dropna_Value df <> [] ->
  exists resp mn p25 md p75 mx,
    get_summary indicator_id area_type time_period c = (Ok resp, c') /\
    summary_time_period resp = period /\
    areas_count resp = length (dropna_Value df) /\
    stat_min (statistics resp) = Some mn /\
    percentile_25 (statistics resp) = Some p25 /\
    stat_median (statistics resp) = Some md /\
    percentile_75 (statistics resp) = Some p75 /\
    stat_max (statistics resp) = Some mx /\
    (mn <= p25)%Q /\ (p25 <= md)%Q /\ (md <= p75)%Q /\ (p75 <= mx)%Q.
Proof.
  intros Hrows Hvalued.
  destruct (indicator_info_returns indicator_id c') as [info Hinfo].
  set (values := dropna (map Value df)).
  assert (Hne : values <> []).
  { intros Hnil. apply Hvalued. apply length_zero_iff_nil.
    rewrite <- dropna_Value_length. fold values. now rewrite Hnil. }
  destruct (statistics_ordered values Hne)
    as (mn & p25 & md & p75 & mx & Hmn & Hp25 & Hmd & Hp75 & Hmx & H1 & H2 & H3 & H4).
  eexists. exists (np_round_digits 2 mn), (np_round_digits 2 p25), (np_round_digits 2 md),
    (np_round_digits 2 p75), (np_round_digits 2 mx).
  split.
  { unfold get_summary, bind. rewrite Hrows. cbv beta iota zeta.
    rewrite Hinfo. reflexivity. }
  cbn [summary_time_period areas_count statistics stat_min percentile_25 stat_median
         percentile_75 stat_max].
  fold values. rewrite Hmn, Hp25, Hmd, Hp75, Hmx.
  split; [reflexivity|]. split; [apply dropna_Value_length|].
  repeat (split; [reflexivity|]).
  repeat split; now apply np_round_digits_mono.
Qed.

(** ** Caches the module can reach *)

Lemma cache_ok_empty : cache_ok ∅.
Proof. intros indicator_id entry H. rewrite lookup_empty in H. discriminate H. Qed.

(** On such a cache the data access serves an indicator dataset, and
    leaves such a cache. *)
Lemma get_indicator_data_ok (indicator_id : Z) (c : Cache) :
  cache_ok c ->
  exists data c',
    get_indicator_data indicator_id c = (Ok (IndicatorFrame data), c') /\ cache_ok c'.
Proof.
  intros Hok.
  destruct (c !! ("indicator_" +:+ pretty indicator_id)) as [entry|] eqn:E.
  - destruct (Hok _ _ E) as [df ->].
    exists df, c. split; [now apply get_indicator_data_cached | exact Hok].
  - eexists. eexists. split; [now apply get_indicator_data_fresh|].
    intros other entry Hlook.
    destruct (decide ("indicator_" +:+ pretty indicator_id = "indicator_" +:+ pretty other))
      as [Heq|Hne].
    + rewrite <- Heq, lookup_insert_eq in Hlook. injection Hlook as <-. eauto.
    + rewrite lookup_insert_ne in Hlook by exact Hne. eauto.
Qed.

Lemma get_boundaries_ok (c : Cache) : cache_ok c -> cache_ok (snd (get_boundaries c)).
Proof.
  intros Hok. unfold get_boundaries.
  destruct (c !! "boundaries") as [entry|] eqn:E.
  - rewrite E. exact Hok.
  - rewrite lookup_insert_eq. cbn [snd].
    intros indicator_id entry Hlook.
    rewrite lookup_insert_ne in Hlook by discriminate. eauto.
Qed.

Lemma clear_cache_ok (c : Cache) : cache_ok (snd (clear_cache c)).
Proof. apply cache_ok_empty. Qed.

(** ** Rounding *)

(** [round(x, ndigits)] is a multiple of [10 ^ -ndigits] within half a unit
    of [x]. *)
Lemma Qround_digits_nearest (ndigits : nat) (x : Q) :
  let unit := (1 / inject_Z (10 ^ Z.of_nat ndigits))%Q in
  (exists k : Z, Qround_digits ndigits x == inject_Z k * unit)%Q /\
  (Qround_digits ndigits x - (1 # 2) * unit <= x)%Q /\
  (x <= Qround_digits ndigits x + (1 # 2) * unit)%Q.
Proof.
  cbv zeta. unfold Qround_digits. cbv zeta.
  assert (Hpos : (0 < 10 ^ Z.of_nat ndigits)%Z) by (apply Z.pow_pos_nonneg; lia).
  set (scale := inject_Z (10 ^ Z.of_nat ndigits)).
  assert (Hscale : (0 < scale)%Q).
  { subst scale. change 0%Q with (inject_Z 0). now rewrite <- Zlt_Qlt. }
  destruct (round_half_even_nearest (x * scale)) as [Hlow Hhigh].
  set (k := inject_Z (round_half_even (x * scale))) in *.
  assert (Hinv : (scale * / scale == 1)%Q) by (apply Qmult_inv_r; lra).
  assert (Hpos_inv : (0 < / scale)%Q) by now apply Qinv_lt_0_compat.
  set (u := (/ scale)%Q) in *.
  split; [exists (round_half_even (x * scale)); fold k; unfold Qdiv; fold u; lra|].
  unfold Qdiv. fold u.
  assert (Hx : (x * scale * u == x)%Q).
  { rewrite <- Qmult_assoc, Hinv. lra. }
  pose proof (Qmult_le_compat_r _ _ u Hlow (Qlt_le_weak _ _ Hpos_inv)) as Hl.
  pose proof (Qmult_le_compat_r _ _ u Hhigh (Qlt_le_weak _ _ Hpos_inv)) as Hh.
  rewrite Hx in Hl, Hh. split; lra.
Qed.

(** A double is within half a unit in the last place of the number it
    rounds. *)
Lemma nearest_double_error (x : Q) :
  let u := pow2 (ulp_exponent x) in
  (exists m : Z, nearest_double x == inject_Z m * u)%Q /\
  (nearest_double x - (1 # 2) * u <= x)%Q /\ (x <= nearest_double x + (1 # 2) * u)%Q.
Proof.
  cbv zeta. unfold nearest_double. cbv zeta.
  set (u := pow2 (ulp_exponent x)). pose proof (pow2_pos (ulp_exponent x)) as Hu. fold u in Hu.
  destruct (round_half_even_nearest (x / u)) as [Hlow Hhigh].
  set (m := round_half_even (x / u)) in *.
  split; [exists m; reflexivity|].
  assert (Hx : (x / u * u == x)%Q).
  { unfold Qdiv. rewrite <- Qmult_assoc, (Qmult_comm (/ u)), Qmult_inv_r; lra. }
  pose proof (Qmult_le_compat_r _ _ u Hlow (Qlt_le_weak _ _ Hu)) as Hl.
  pose proof (Qmult_le_compat_r _ _ u Hhigh (Qlt_le_weak _ _ Hu)) as Hh.
  rewrite Hx in Hl, Hh. split; lra.
Qed.

(** * Further properties of the module *)

(** ** The cache *)

Lemma get_boundaries_cached (c : Cache) (entry : CacheEntry) :
  c !! "boundaries" = Some entry -> get_boundaries c = (Ok entry, c).
Proof. intros H. unfold get_boundaries. now rewrite H, H. Qed.

Lemma get_boundaries_fresh (c : Cache) :
  c !! "boundaries" = None ->
  get_boundaries c =
    (Ok (BoundaryFrame (read_file BOUNDARIES_URL)),
     <["boundaries" := BoundaryFrame (read_file BOUNDARIES_URL)]> c).
Proof.
  intros H. unfold get_boundaries. rewrite H. now rewrite lookup_insert_eq.
Qed.

Lemma boundaries_key_ne (indicator_id : Z) :
  "boundaries" <> "indicator_" +:+ pretty indicator_id.
Proof. discriminate. Qed.

(** What [filter_data] does to the cache. *)
Lemma filter_data_frame
    (indicator_id : Z) (area_type : string) (time_period : option string) (c : Cache) :
  (forall key entry,
     c !! key = Some entry ->
     snd (filter_data indicator_id area_type time_period c) !! key = Some entry) /\
  (forall key,
     key <> "indicator_" +:+ pretty indicator_id ->
     snd (filter_data indicator_id area_type time_period c) !! key = c !! key).
Proof.
  rewrite filter_data_cache.
  destruct (c !! ("indicator_" +:+ pretty indicator_id)) as [cached|] eqn:E.
  - rewrite (get_indicator_data_cached _ _ _ E). cbn [snd]. auto.
  - rewrite (get_indicator_data_fresh _ _ E). cbn [snd]. split.
    + intros key entry Hkey. rewrite lookup_insert_ne; [exact Hkey|].
      intros <-. rewrite E in Hkey. discriminate Hkey.
    + intros key Hne. now rewrite lookup_insert_ne.
Qed.

(** X2. [filter_data], returning or raising its 404, loses and replaces no
    entry of the cache: every entry stays, only the slot of the requested
    indicator can be new, and the cache grows by at most one entry.  Once
    the data access has returned a dataset, [filter_data] leaves the cache
    the data access left, in which that slot holds this dataset, also when
    [filter_data] goes on to raise. *)
Theorem filter_data_keeps_cache
    (indicator_id : Z) (area_type : string) (time_period : option string) (c : Cache) :
  let c' := snd (filter_data indicator_id area_type time_period c) in
  (forall key entry, c !! key = Some entry -> c' !! key = Some entry) /\
  (forall key, key <> "indicator_" +:+ pretty indicator_id -> c' !! key = c !! key) /\
  (forall entry c1,
     get_indicator_data indicator_id c = (Ok entry, c1) ->
     c' = c1 /\ c' !! ("indicator_" +:+ pretty indicator_id) = Some entry) /\
  (size c <= size c' <= S (size c))%nat.
Proof.
  cbv zeta.
  destruct (filter_data_frame indicator_id area_type time_period c) as [Hkeep Hother].
  split; [exact Hkeep|]. split; [exact Hother|].
  rewrite filter_data_cache.
  destruct (c !! ("indicator_" +:+ pretty indicator_id)) as [cached|] eqn:E.
  - rewrite (get_indicator_data_cached _ _ _ E). cbn [snd]. split; [|lia].
    intros entry c1 [= <- <-]. split; [reflexivity | exact E].
  - rewrite (get_indicator_data_fresh _ _ E). cbn [snd]. split.
    + intros entry c1 [= <- <-]. split; [reflexivity | apply lookup_insert_eq].
    + rewrite (map_size_insert_None _ _ _ E). lia.
Qed.

(** X4. The boundary slot and the indicator slots do not interfere:
    fetching the boundaries first does not change what the data access
    returns for an indicator, nor the other way round, and both orders leave
    the same cache. *)
Theorem boundaries_and_indicators_independent (indicator_id : Z) (c : Cache) :
  fst (get_indicator_data indicator_id (snd (get_boundaries c))) =
    fst (get_indicator_data indicator_id c) /\
  fst (get_boundaries (snd (get_indicator_data indicator_id c))) =
    fst (get_boundaries c) /\
  snd (get_indicator_data indicator_id (snd (get_boundaries c))) =
    snd (get_boundaries (snd (get_indicator_data indicator_id c))).
Proof.
  pose proof (boundaries_key_ne indicator_id) as Hne.
  assert (Hne' : "indicator_" +:+ pretty indicator_id <> "boundaries")
    by (intros H; apply Hne; now symmetry).
  set (key := "indicator_" +:+ pretty indicator_id) in *.
  destruct (c !! key) as [cached|] eqn:Ei;
    destruct (c !! "boundaries") as [bounds|] eqn:Eb.
  - rewrite (get_boundaries_cached _ _ Eb). cbn [fst snd].
    rewrite (get_indicator_data_cached _ _ _ Ei). cbn [fst snd].
    rewrite (get_boundaries_cached _ _ Eb). repeat split; reflexivity.
  - rewrite (get_boundaries_fresh _ Eb). cbn [fst snd].
    rewrite (get_indicator_data_cached _ _ _ Ei). cbn [fst snd].
    rewrite (get_boundaries_fresh _ Eb). cbn [fst snd].
    rewrite (get_indicator_data_cached _ _ cached)
      by (fold key; rewrite lookup_insert_ne by exact Hne; exact Ei).
    repeat split; reflexivity.
  - rewrite (get_boundaries_cached _ _ Eb). cbn [fst snd].
    rewrite (get_indicator_data_fresh _ _ Ei). cbn [fst snd]. fold key.
    rewrite (get_boundaries_cached _ bounds)
      by (rewrite lookup_insert_ne by exact Hne'; exact Eb).
    repeat split; reflexivity.
  - rewrite (get_boundaries_fresh _ Eb). cbn [fst snd].
    rewrite (get_indicator_data_fresh _ _ Ei). cbn [fst snd]. fold key.
    rewrite get_indicator_data_fresh
      by (fold key; rewrite lookup_insert_ne by exact Hne; exact Ei).
    rewrite get_boundaries_fresh
      by (rewrite lookup_insert_ne by exact Hne'; exact Eb).
    cbn [fst snd]. fold key.
    split; [reflexivity|]. split; [reflexivity|].
    now apply insert_insert_ne.
Qed.

(** X15. A [GET /map] request whose [filter_data] raises fails with that
    exception before the boundaries are read: the boundary slot of the cache
    is as it was. *)
Theorem generate_map_not_found_before_boundaries
    (indicator_id : IndicatorID) (time_period : option string) (cmap : ColorMap)
    (figsize_width figsize_height : Q) (dpi : Z) (title : option string)
    (format : ImageFormat) (c c' : Cache) (e : exn) :
  filter_data (IndicatorID_value indicator_id) "ICBs" time_period c = (Raise e, c') ->
  generate_map indicator_id time_period cmap figsize_width figsize_height dpi
    title format c = (Raise e, c') /\
  c' !! "boundaries" = c !! "boundaries".
Proof.
  intros Hraise. split.
  - unfold generate_map, bind. now rewrite Hraise.
  - destruct (filter_data_frame (IndicatorID_value indicator_id) "ICBs"
                time_period c) as [_ Hother].
    rewrite Hraise in Hother. cbn [snd] in Hother.
    apply Hother, boundaries_key_ne.
Qed.

(** ** What [filter_data] returns *)

Lemma filter_filter {A} (f g : A -> bool) (l : list A) :
  List.filter f (List.filter g l) = List.filter (fun x => g x && f x) l.
Proof.
  induction l as [|x l IH]; [reflexivity|].
  simpl. destruct (g x); simpl; [destruct (f x)|]; now rewrite IH.
Qed.

(** X5. Whenever [filter_data] returns, the rows it returns are exactly the
    rows of the served dataset that have the requested area type and the
    returned period, in row order, and there is at least one; the returned
    period is the one passed when one was passed. *)
Theorem filter_data_returns_matching_rows
    (indicator_id : Z) (area_type : string) (time_period : option string)
    (c c' : Cache) (df : DataFrame) (period : string) :
  filter_data indicator_id area_type time_period c = (Ok (df, period), c') ->
  df <> [] /\
  (forall t, time_period = Some t -> period = t) /\
  exists data,
    get_indicator_data indicator_id c = (Ok (IndicatorFrame data), c') /\
    df = List.filter
           (fun row => String.eqb (Area_Type row) area_type &&
                       String.eqb (Time_period row) period) data /\
    forall row, In row df <->
                In row data /\ Area_Type row = area_type /\ Time_period row = period.
Proof.
  intros Hrun.
  destruct (get_indicator_data_returns indicator_id c) as ([data|gdf] & c1 & Hget).
  - rewrite (filter_data_on _ _ _ _ _ _ Hget) in Hrun.
    destruct (List.filter _ data) as [|row0 rest] eqn:Harea; [discriminate Hrun|].
    cbv zeta in Hrun.
    set (resolved := match time_period with
                     | Some t => t
                     | None => Series_max (Time_period row0) (map Time_period rest)
                     end) in *.
    set (kept := List.filter (fun row => String.eqb (Time_period row) resolved)
                   (row0 :: rest)) in *.
    destruct (empty kept) eqn:Hempty; [discriminate Hrun|].
    injection Hrun as Hdf Hperiod Hc. subst c1 df period.
    apply empty_false_iff in Hempty.
    assert (Heq : kept = List.filter
                           (fun row => String.eqb (Area_Type row) area_type &&
                                       String.eqb (Time_period row) resolved) data).
    { subst kept. rewrite <- Harea. apply filter_filter. }
    split; [exact Hempty|].
    split; [intros t Ht; subst resolved; now rewrite Ht|].
    exists data. split; [exact Hget|]. split; [exact Heq|].
    intros row. rewrite Heq, filter_In, andb_true_iff, !String.eqb_eq.
    split; [intros (H1 & H2 & H3) | intros (H1 & H2 & H3)]; auto.
  - unfold filter_data, bind, lift in Hrun. rewrite Hget in Hrun. discriminate Hrun.
Qed.

(** ** The periods listed by /time-periods *)

Lemma unique_In (l : list string) (x : string) : In x (unique l) <-> In x l.
Proof.
  induction l as [|y l IH]; [reflexivity|].
  cbn [unique]. split.
  - intros [->|H]; [now left|]. apply filter_In in H as [H _]. right. now apply IH.
  - intros [->|H]; [now left|].
    destruct (String.eqb x y) eqn:E.
    + apply String.eqb_eq in E. now left.
    + right. apply filter_In. split; [now apply IH | now rewrite E].
Qed.

Lemma filter_NoDup {A} (f : A -> bool) (l : list A) :
  List.NoDup l -> List.NoDup (List.filter f l).
Proof.
  induction 1 as [|x l Hx Hnd IH]; simpl; [constructor|].
  destruct (f x); [|exact IH]. constructor; [|exact IH].
  intros H. apply Hx. now apply filter_In in H.
Qed.

Lemma unique_NoDup (l : list string) : List.NoDup (unique l).
Proof.
  induction l as [|x l IH]; cbn [unique]; constructor.
  - intros H. apply filter_In in H as [_ H]. now rewrite String.eqb_refl in H.
  - now apply filter_NoDup.
Qed.

Lemma string_leb_ltb_false (a b : string) :
  String.leb a b = true -> String.ltb b a = false.
Proof.
  unfold String.ltb, String.leb. rewrite (String.compare_antisym b a).
  now destruct (String.compare a b).
Qed.

Lemma string_ltb_irrefl (a : string) : String.ltb a a = false.
Proof. apply string_leb_ltb_false, string_leb_refl. Qed.

(** The sorted list runs from the largest string to the smallest. *)
Lemma sorted_reverse_sorted (l : list string) :
  StronglySorted (fun a b => String.leb b a = true) (sorted_reverse l).
Proof.
  assert (Hs : StronglySorted (fun a b => String.ltb a b = false) (sorted_reverse l)).
  { apply (sort_by_sorted _ (fun _ => True)).
    - intros a b _ _ H. apply string_leb_ltb_false. now apply string_ltb_leb.
    - intros a b c _ _ _ Hab Hbc.
      apply string_leb_ltb_false.
      eapply string_leb_trans; apply string_ltb_false_leb; eassumption.
    - apply List.Forall_forall. auto. }
  revert Hs. generalize (sorted_reverse l). intros s Hs.
  induction Hs as [|a s Hs IH Ha]; constructor; [exact IH|].
  eapply List.Forall_impl; [|exact Ha]. cbv beta. intros b. apply string_ltb_false_leb.
Qed.

Lemma sorted_reverse_strict (l : list string) :
  List.NoDup l ->
  StronglySorted (fun a b => String.ltb b a = true) (sorted_reverse l).
Proof.
  intros Hnd.
  assert (Hnd' : List.NoDup (sorted_reverse l)).
  { eapply Permutation.Permutation_NoDup; [|exact Hnd]. symmetry. apply sort_by_perm. }
  pose proof (sorted_reverse_sorted l) as Hs.
  revert Hs Hnd'. generalize (sorted_reverse l). intros s Hs.
  induction Hs as [|a s Hs IH Ha]; intros Hnd'; constructor.
  - apply IH. now inversion Hnd'.
  - inversion Hnd' as [|? ? Hnotin _]; subst.
    rewrite List.Forall_forall in Ha. apply List.Forall_forall. intros b Hb.
    destruct (String.ltb b a) eqn:E; [reflexivity|]. exfalso.
    apply string_ltb_false_leb in E.
    apply Hnotin. rewrite (String.leb_antisym a b E (Ha b Hb)). exact Hb.
Qed.

(** [list_time_periods] once the dataset is at hand. *)
Lemma list_time_periods_on (indicator_id : IndicatorID) (area_type : AreaType)
    (c c' : Cache) (data : DataFrame) :
  get_indicator_data (IndicatorID_value indicator_id) c = (Ok (IndicatorFrame data), c') ->
  list_time_periods indicator_id area_type c =
    (Ok {| time_periods :=
             sorted_reverse
               (unique (map Time_period
                          (List.filter
                             (fun row => String.eqb (Area_Type row) (AreaType_value area_type))
                             data)));
           latest :=
             match sorted_reverse
                     (unique (map Time_period
                                (List.filter
                                   (fun row => String.eqb (Area_Type row)
                                                 (AreaType_value area_type))
                                   data))) with
             | p :: _ => Some p
             | [] => None
             end |}, c').
Proof.
  intros Hget. unfold list_time_periods, bind, lift. rewrite Hget. reflexivity.
Qed.

(** X6. [GET /time-periods] lists each period that occurs among the rows of
    the area type exactly once, from the largest string to the smallest,
    and [latest] is the first of the list. *)
Theorem list_time_periods_sorted_and_complete
    (indicator_id : IndicatorID) (area_type : AreaType) (c c' : Cache)
    (data : DataFrame) :
  get_indicator_data (IndicatorID_value indicator_id) c = (Ok (IndicatorFrame data), c') ->
  exists resp,
    list_time_periods indicator_id area_type c = (Ok resp, c') /\
    StronglySorted (fun a b => String.ltb b a = true) (time_periods resp) /\
    (forall p, In p (time_periods resp) <->
               exists row, In row data /\
                           Area_Type row = AreaType_value area_type /\
                           Time_period row = p) /\
    latest resp = hd_error (time_periods resp).
Proof.
  intros Hget. eexists. split; [apply (list_time_periods_on _ _ _ _ _ Hget)|].
  cbn [time_periods latest].
  split; [apply sorted_reverse_strict, unique_NoDup|]. split.
  - intros p. unfold sorted_reverse. rewrite sort_by_In, unique_In, in_map_iff.
    split.
    + intros (row & Hp & Hin). apply filter_In in Hin as [Hin Harea].
      apply String.eqb_eq in Harea. eauto.
    + intros (row & Hin & Harea & Hp). exists row. split; [exact Hp|].
      apply filter_In. split; [exact Hin|]. now apply String.eqb_eq.
  - now destruct (sorted_reverse _).
Qed.

(** X7. What [GET /time-periods] lists is what [filter_data] accepts: a
    period is listed exactly when [filter_data] with that period returns,
    and [latest] is the period that [filter_data] resolves when none is
    passed. *)
Theorem list_time_periods_agrees_with_filter_data
    (indicator_id : IndicatorID) (area_type : AreaType) (c c' : Cache)
    (data : DataFrame) :
  get_indicator_data (IndicatorID_value indicator_id) c = (Ok (IndicatorFrame data), c') ->
  exists resp,
    list_time_periods indicator_id area_type c = (Ok resp, c') /\
    (forall p, In p (time_periods resp) <->
               exists df,
                 filter_data (IndicatorID_value indicator_id) (AreaType_value area_type)
                   (Some p) c = (Ok (df, p), c')) /\
    (forall p, latest resp = Some p <->
               exists df,
                 filter_data (IndicatorID_value indicator_id) (AreaType_value area_type)
                   None c = (Ok (df, p), c')).
Proof.
  intros Hget. eexists. split; [apply (list_time_periods_on _ _ _ _ _ Hget)|].
  cbn [time_periods latest].
  set (by_area := List.filter
                    (fun row => String.eqb (Area_Type row) (AreaType_value area_type)) data).
  assert (Hlisted : forall p, In p (sorted_reverse (unique (map Time_period by_area))) <->
                              In p (map Time_period by_area)).
  { intros p. unfold sorted_reverse. now rewrite sort_by_In, unique_In. }
  split.
  - intros p. rewrite Hlisted, (filter_data_on _ _ _ _ _ _ Hget). fold by_area.
    split.
    + intros Hin. destruct by_area as [|row0 rest] eqn:Harea; [destruct Hin|].
      cbv zeta. apply in_map_iff in Hin as (row & Hp & Hin).
      destruct (List.filter _ (row0 :: rest)) as [|r rs] eqn:Hf.
      * exfalso.
        assert (H : In row (List.filter (fun row => String.eqb (Time_period row) p)
                              (row0 :: rest)))
          by (apply filter_In; split; [exact Hin | now apply String.eqb_eq]).
        rewrite Hf in H. destruct H.
      * eexists. reflexivity.
    + intros (df & Hrun). destruct by_area as [|row0 rest] eqn:Harea; [discriminate Hrun|].
      cbv zeta in Hrun.
      destruct (List.filter _ (row0 :: rest)) as [|r rs] eqn:Hf; [discriminate Hrun|].
      assert (H : In r (List.filter (fun row => String.eqb (Time_period row) p)
                          (row0 :: rest))) by (rewrite Hf; now left).
      apply filter_In in H as [Hin Hp]. apply String.eqb_eq in Hp.
      apply in_map_iff. eauto.
  - intros p. rewrite (filter_data_on _ _ _ _ _ _ Hget). fold by_area.
    pose proof (sorted_reverse_sorted (unique (map Time_period by_area))) as Hsorted.
    destruct by_area as [|row0 rest] eqn:Harea.
    + cbn. split; [discriminate | intros (df & H); discriminate H].
    + cbv zeta.
      set (resolved := Series_max (Time_period row0) (map Time_period rest)).
      assert (Hres_in : In resolved (map Time_period (row0 :: rest)))
        by apply Series_max_In.
      assert (Hres_max : forall s, In s (map Time_period (row0 :: rest)) ->
                                   String.leb s resolved = true)
        by (intros s; apply Series_max_upper_bound).
      assert (Hnonempty :
                empty (List.filter (fun row => String.eqb (Time_period row) resolved)
                         (row0 :: rest)) = false).
      { apply empty_false_iff. intros Hnil.
        apply in_map_iff in Hres_in as (row & Hrow & Hin).
        assert (H : In row (List.filter (fun row => String.eqb (Time_period row) resolved)
                              (row0 :: rest)))
          by (apply filter_In; split; [exact Hin | now apply String.eqb_eq]).
        rewrite Hnil in H. destruct H. }
      rewrite Hnonempty.
      destruct (sorted_reverse (unique (map Time_period (row0 :: rest))))
        as [|first others] eqn:Hlist.
      * exfalso. pose proof (proj2 (Hlisted resolved) Hres_in) as H.
        destruct H.
      * assert (Hfirst : first = resolved).
        { apply String.leb_antisym.
          - apply Hres_max, (proj1 (Hlisted first)). now left.
          - pose proof (proj2 (Hlisted resolved) Hres_in) as H.
            destruct H as [->|Hin]; [apply string_leb_refl|].
            inversion Hsorted as [|? ? _ Hall]; subst.
            rewrite List.Forall_forall in Hall. now apply Hall. }
        subst first. split.
        -- intros [= <-]. eexists. reflexivity.
        -- intros (df & [= _ <-]). reflexivity.
Qed.

(** ** The listing of /data *)

Lemma StronglySorted_app {A} (R : A -> A -> Prop) (l1 l2 : list A) :
  StronglySorted R l1 -> StronglySorted R l2 ->
  (forall x y, In x l1 -> In y l2 -> R x y) ->
  StronglySorted R (l1 ++ l2).
Proof.
  induction 1 as [|a l1 Hs IH Ha]; intros H2 Hcross; simpl; [exact H2|].
  constructor.
  - apply IH; [exact H2|]. intros x y Hx Hy. apply Hcross; [now right | exact Hy].
  - apply Forall_app. split; [exact Ha|].
    apply List.Forall_forall. intros y Hy. apply Hcross; [now left | exact Hy].
Qed.

Lemma StronglySorted_firstn {A} (R : A -> A -> Prop) (n : nat) (l : list A) :
  StronglySorted R l -> StronglySorted R (firstn n l).
Proof.
  intros Hs. rewrite <- (firstn_skipn n l) in Hs.
  now apply StronglySorted_app_inv in Hs.
Qed.

Lemma sort_values_desc_In (df : DataFrame) (row : Row) :
  In row (sort_values_desc df) <-> In row df.
Proof.
  unfold sort_values_desc, dropna_Value, isna_Value, isna.
  rewrite in_app_iff, sort_by_In, !filter_In.
  destruct (notna (Value row)); simpl; intuition congruence.
Qed.

Lemma sort_values_desc_sorted (df : DataFrame) :
  StronglySorted listed_before (sort_values_desc df).
Proof.
  unfold sort_values_desc. apply StronglySorted_app.
  - pose proof (sorted_ranked_before top df) as Hs.
    change (order_before top) with Value_gt in Hs.
    assert (Hval : Forall valued (sort_by Value_gt (dropna_Value df))).
    { apply List.Forall_forall. intros row Hrow. apply sort_by_In in Hrow.
      pose proof (dropna_Value_valued df) as H. rewrite List.Forall_forall in H. auto. }
    revert Hs Hval. generalize (sort_by Value_gt (dropna_Value df)). intros l Hs.
    induction Hs as [|a l Hs IH Ha]; intros Hval; constructor.
    + apply IH. now inversion Hval.
    + inversion Hval as [|? ? Hva Hvl]; subst.
      rewrite List.Forall_forall in Ha, Hvl. apply List.Forall_forall. intros b Hb.
      specialize (Ha b Hb). specialize (Hvl b Hb).
      unfold valued, listed_before in *.
      destruct (Value a) as [va|] eqn:Ea; [|discriminate].
      destruct (Value b) as [vb|] eqn:Eb; [|discriminate].
      exact (Ha va vb Ea Eb).
  - assert (Hnan : Forall (fun row => Value row = None) (isna_Value df)).
    { apply List.Forall_forall. intros row Hrow. apply filter_In in Hrow as [_ H].
      unfold isna in H. now destruct (Value row). }
    induction Hnan as [|a l Ha Hl IH]; constructor; [exact IH|].
    eapply List.Forall_impl; [|exact Hl]. cbv beta. intros b Hb.
    unfold listed_before. now rewrite Ha, Hb.
  - intros a b Ha Hb. apply sort_by_In in Ha. apply filter_In in Ha as [_ Ha].
    apply filter_In in Hb as [_ Hb]. unfold listed_before, isna in *.
    destruct (Value a); [|discriminate]. now destruct (Value b).
Qed.

(** The steps of [GET /data] behind a returned response. *)
Lemma get_data_steps
    (indicator_id : IndicatorID) (area_type : AreaType)
    (time_period area_name_contains : option string)
    (min_value max_value : option Q) (limit : option nat)
    (c c' : Cache) (resp : DataResponse) :
  get_data indicator_id area_type time_period area_name_contains
    min_value max_value limit c = (Ok resp, c') ->
  exists df named,
    filter_data (IndicatorID_value indicator_id) (AreaType_value area_type) time_period c =
      (Ok (df, data_time_period resp), c') /\
    area_name_filter area_name_contains df c' = (Ok named, c') /\
    data_count resp = length (data resp) /\
    data_area_type resp = AreaType_value area_type /\
    data resp =
      map data_record
        (match limit with
         | None | Some O => fun rows => rows
         | Some n => head n
         end
           (sort_values_desc
              (match max_value with
               | Some m => List.filter (fun row => float_le (Value row) m)
               | None => fun rows => rows
               end
                 (match min_value with
                  | Some m => List.filter (fun row => float_ge (Value row) m)
                  | None => fun rows => rows
                  end named)))).
Proof.
  unfold get_data, bind.
  destruct (filter_data _ _ _ c) as [[[df period]|e] c1]; [|discriminate].
  cbv beta iota.
  assert (Hcache : snd (area_name_filter area_name_contains df c1) = c1).
  { unfold area_name_filter.
    destruct area_name_contains as [[|a pat]|]; try reflexivity.
    destruct (re_search_ignorecase _); reflexivity. }
  destruct (area_name_filter area_name_contains df c1) as [[named|e] c2] eqn:Hname;
    [|discriminate].
  cbn [snd] in Hcache. subst c2. cbv beta iota zeta.
  destruct (indicator_info_returns indicator_id c1) as [info Hinfo]. rewrite Hinfo.
  unfold ret. intros [= <- <-]. exists df, named. cbn [data data_count data_time_period
    data_area_type].
  split; [reflexivity|]. split; [exact Hname|].
  repeat split; try reflexivity.
  destruct max_value, min_value, limit as [[|n]|]; reflexivity.
Qed.

Lemma area_name_filter_rows (area_name_contains : option string)
    (df named : DataFrame) (c c' : Cache) :
  area_name_filter area_name_contains df c = (Ok named, c') ->
  forall row,
    In row named <->
    In row df /\
    forall pat, area_name_contains = Some pat -> pat <> "" ->
      exists found name,
        re_search_ignorecase pat = Some found /\
        Area_Name row = Some name /\ found name = true.
Proof.
  unfold area_name_filter.
  destruct area_name_contains as [[|a pat]|].
  - intros [= <- _] row. split; [|tauto]. intros H. split; [exact H|].
    intros pat [= <-] Hne. congruence.
  - destruct (re_search_ignorecase (String a pat)) as [found|] eqn:Hre; [|discriminate].
    intros [= <- _] row. rewrite filter_In. split.
    + intros [Hin Hname]. split; [exact Hin|]. intros pat' [= <-] _.
      destruct (Area_Name row) as [name|]; [|discriminate]. eauto.
    + intros [Hin Hname]. split; [exact Hin|].
      destruct (Hname _ eq_refl ltac:(discriminate)) as (found' & name & Hre' & Hn & Hyes).
      rewrite Hre in Hre'. injection Hre' as <-. now rewrite Hn.
  - intros [= <- _] row. split; [|tauto]. intros H. split; [exact H|]. discriminate.
Qed.

(** X8. Every record of a [GET /data] response comes from a row that
    [filter_data] returned and that passes the optional filters: its area
    name matches the pattern when a pattern was passed, and it has a value
    within the bounds that were passed.  Without a limit every such row is
    listed. *)
Theorem get_data_lists_rows_passing_filters
    (indicator_id : IndicatorID) (area_type : AreaType)
    (time_period area_name_contains : option string)
    (min_value max_value : option Q) (limit : option nat)
    (c c' : Cache) (resp : DataResponse) :
  get_data indicator_id area_type time_period area_name_contains
    min_value max_value limit c = (Ok resp, c') ->
  exists df rows,
    filter_data (IndicatorID_value indicator_id) (AreaType_value area_type) time_period c =
      (Ok (df, data_time_period resp), c') /\
    data resp = map data_record rows /\
    (forall row, In row rows ->
       In row df /\
       (forall pat, area_name_contains = Some pat -> pat <> "" ->
          exists found name,
            re_search_ignorecase pat = Some found /\
            Area_Name row = Some name /\ found name = true) /\
       (forall m, min_value = Some m -> exists v, Value row = Some v /\ (m <= v)%Q) /\
       (forall m, max_value = Some m -> exists v, Value row = Some v /\ (v <= m)%Q)) /\
    (limit = None \/ limit = Some O ->
     forall row,
       In row df ->
       (forall pat, area_name_contains = Some pat -> pat <> "" ->
          exists found name,
            re_search_ignorecase pat = Some found /\
            Area_Name row = Some name /\ found name = true) ->
       (forall m, min_value = Some m -> exists v, Value row = Some v /\ (m <= v)%Q) ->
       (forall m, max_value = Some m -> exists v, Value row = Some v /\ (v <= m)%Q) ->
       In row rows).
Proof.
  intros Hrun.
  destruct (get_data_steps _ _ _ _ _ _ _ _ _ _ Hrun)
    as (df & named & Hrows & Hname & _ & _ & Hdata).
  pose proof (area_name_filter_rows _ _ _ _ _ Hname) as Hnamed.
  set (bounded :=
         match max_value with
         | Some m => List.filter (fun row => float_le (Value row) m)
         | None => fun rows => rows
         end
           (match min_value with
            | Some m => List.filter (fun row => float_ge (Value row) m)
            | None => fun rows => rows
            end named)) in *.
  assert (Hbounded : forall row,
             In row bounded <->
             In row named /\
             (forall m, min_value = Some m -> exists v, Value row = Some v /\ (m <= v)%Q) /\
             (forall m, max_value = Some m -> exists v, Value row = Some v /\ (v <= m)%Q)).
  { intros row. subst bounded.
    assert (Hge : forall m, float_ge (Value row) m = true <->
                            exists v, Value row = Some v /\ (m <= v)%Q).
    { intros m. unfold float_ge. destruct (Value row) as [v|].
      - rewrite Qle_bool_iff. split; [eauto | now intros (v' & [= <-] & H)].
      - split; [discriminate | now intros (v' & H & _)]. }
    assert (Hle : forall m, float_le (Value row) m = true <->
                            exists v, Value row = Some v /\ (v <= m)%Q).
    { intros m. unfold float_le. destruct (Value row) as [v|].
      - rewrite Qle_bool_iff. split; [eauto | now intros (v' & [= <-] & H)].
      - split; [discriminate | now intros (v' & H & _)]. }
    destruct max_value as [mx|], min_value as [mn|]; rewrite ?filter_In, ?Hge, ?Hle.
    - split.
      + intros [[Hin Hmn] Hmx]. repeat split; [exact Hin | intros ? [= <-] | intros ? [= <-]];
          assumption.
      + intros (Hin & Hmn & Hmx). auto.
    - split.
      + intros [Hin Hmx]. repeat split; [exact Hin | discriminate | intros ? [= <-]];
          assumption.
      + intros (Hin & _ & Hmx). auto.
    - split.
      + intros [Hin Hmn]. repeat split; [exact Hin | intros ? [= <-] | discriminate];
          assumption.
      + intros (Hin & Hmn & _). auto.
    - split; [intros Hin; repeat split; [exact Hin | discriminate | discriminate] | tauto]. }
  eexists df, _. split; [exact Hrows|]. split; [exact Hdata|]. split.
  - intros row Hrow.
    assert (Hin : In row (sort_values_desc bounded)).
    { destruct limit as [[|n]|]; [exact Hrow | | exact Hrow].
      unfold head in Hrow. rewrite <- (firstn_skipn (S n) (sort_values_desc bounded)).
      apply in_or_app. now left. }
    apply sort_values_desc_In, Hbounded in Hin. destruct Hin as (Hin & Hmn & Hmx).
    apply Hnamed in Hin as [Hin Hpat]. auto.
  - intros Hnolimit row Hin Hpat Hmn Hmx.
    assert (Hsorted : In row (sort_values_desc bounded)).
    { apply sort_values_desc_In, Hbounded. split; [|auto]. apply Hnamed. auto. }
    destruct Hnolimit as [->| ->]; exact Hsorted.
Qed.

(** X9. The records of a [GET /data] response are in descending order of
    value, rows without a value last, and there are at most [limit] of them
    when a limit was passed. *)
Theorem get_data_listing_is_ordered_and_capped
    (indicator_id : IndicatorID) (area_type : AreaType)
    (time_period area_name_contains : option string)
    (min_value max_value : option Q) (limit : option nat)
    (c c' : Cache) (resp : DataResponse) :
  get_data indicator_id area_type time_period area_name_contains
    min_value max_value limit c = (Ok resp, c') ->
  exists rows,
    data resp = map data_record rows /\
    StronglySorted listed_before rows /\
    data_count resp = length rows /\
    (forall n, limit = Some n -> n <> O -> (data_count resp <= n)%nat).
Proof.
  intros Hrun.
  destruct (get_data_steps _ _ _ _ _ _ _ _ _ _ Hrun)
    as (df & named & _ & _ & Hcount & _ & Hdata).
  eexists. split; [exact Hdata|].
  rewrite Hcount, Hdata, length_map.
  split; [|split; [reflexivity|]].
  - destruct limit as [[|n]|]; try apply sort_values_desc_sorted.
    apply StronglySorted_firstn, sort_values_desc_sorted.
  - intros n -> Hn. destruct n as [|n]; [congruence|].
    unfold head. rewrite length_firstn. lia.
Qed.

(** ** Edge cases of /summary *)

(** [get_summary] once [filter_data] has returned. *)
Lemma get_summary_on (indicator_id : IndicatorID) (area_type : AreaType)
    (time_period : option string) (c c' : Cache) (df : DataFrame) (period : string) :
  filter_data (IndicatorID_value indicator_id) (AreaType_value area_type) time_period c =
    (Ok (df, period), c') ->
  exists info,
    get_summary indicator_id area_type time_period c =
      (Ok {| summary_indicator := info;
             summary_area_type := AreaType_value area_type;
             summary_time_period := period;
             areas_count := length (dropna (map Value df));
             total_patients := Some (int (Series_sum (map Denominator df)));
             statistics :=
               {| stat_mean := np_round (mean (dropna (map Value df))) 2;
                  stat_std := np_round (std (dropna (map Value df))) 2;
                  stat_min := np_round (Qmin_list (dropna (map Value df))) 2;
                  percentile_25 := np_round (quantile (1 # 4) (dropna (map Value df))) 2;
                  stat_median := np_round (median (dropna (map Value df))) 2;
                  percentile_75 := np_round (quantile (3 # 4) (dropna (map Value df))) 2;
                  stat_max := np_round (Qmax_list (dropna (map Value df))) 2 |} |}, c').
Proof.
  intros Hrows. destruct (indicator_info_returns indicator_id c') as [info Hinfo].
  exists info. unfold get_summary, bind. rewrite Hrows. cbv beta iota zeta.
  rewrite Hinfo. reflexivity.
Qed.

Lemma dropna_map_Value (df : DataFrame) :
  dropna (map Value df) = dropna (map Value (dropna_Value df)).
Proof.
  unfold dropna_Value. induction df as [|row df IH]; [reflexivity|].
  simpl. destruct (Value row) as [v|] eqn:E; simpl; [rewrite E|]; now rewrite IH.
Qed.

(** X10. When [filter_data] returns rows of which none has a value, the
    handler [get_summary] raises no exception of its own (no 404, no 400):
    the value it returns has [areas_count = 0], NaN for every statistic, and
    as [total_patients] still the truncated sum of the denominators.  This
    is the return value of the handler, before the framework renders it. *)
Theorem get_summary_without_values
    (indicator_id : IndicatorID) (area_type : AreaType)
    (time_period : option string) (c c' : Cache) (df : DataFrame) (period : string) :
  filter_data (IndicatorID_value indicator_id) (AreaType_value area_type) time_period c =
    (Ok (df, period), c') ->
  dropna_Value df = [] ->
  exists resp,
    get_summary indicator_id area_type time_period c = (Ok resp, c') /\
    areas_count resp = 0%nat /\
    total_patients resp = Some (int (Series_sum (map Denominator df))) /\
    statistics resp =
      {| stat_mean := NaN; stat_std := NaN; stat_min := NaN; percentile_25 := NaN;
         stat_median := NaN; percentile_75 := NaN; stat_max := NaN |}.
Proof.
  intros Hrows Hnone.
  destruct (get_summary_on _ _ _ _ _ _ _ Hrows) as [info Hrun].
  eexists. split; [exact Hrun|].
  cbn [areas_count total_patients statistics].
  rewrite dropna_map_Value, Hnone. repeat split; reflexivity.
Qed.

Lemma Qround_digits_Qeq (ndigits : nat) (x y : Q) :
  (x == y)%Q -> Qround_digits ndigits x = Qround_digits ndigits y.
Proof.
  intros Hxy. unfold Qround_digits. cbv zeta. do 2 f_equal.
  apply Z.le_antisymm; apply round_half_even_mono; rewrite Hxy; apply Qle_refl.
Qed.

(** X12. With exactly one row that has a value, the handler [get_summary]
    returns that value, rounded as numpy rounds it, as mean, minimum, both
    quartiles, median and maximum alike, and NaN as the standard deviation
    (the divisor [n - 1] is 0).  This is the return value of the handler,
    before the framework renders it. *)
Theorem get_summary_of_single_value
    (indicator_id : IndicatorID) (area_type : AreaType)
    (time_period : option string) (c c' : Cache) (df : DataFrame) (period : string)
    (row : Row) (v : Q) :
  filter_data (IndicatorID_value indicator_id) (AreaType_value area_type) time_period c =
    (Ok (df, period), c') ->
  dropna_Value df = [row] ->
  Value row = Some v ->
  exists resp,
    get_summary indicator_id area_type time_period c = (Ok resp, c') /\
    areas_count resp = 1%nat /\
    statistics resp =
      {| stat_mean := Some (np_round_digits 2 v);
         stat_std := NaN;
         stat_min := Some (np_round_digits 2 v);
         percentile_25 := Some (np_round_digits 2 v);
         stat_median := Some (np_round_digits 2 v);
         percentile_75 := Some (np_round_digits 2 v);
         stat_max := Some (np_round_digits 2 v) |}.
Proof.
  intros Hrows Hone Hv.
  destruct (get_summary_on _ _ _ _ _ _ _ Hrows) as [info Hrun].
  eexists. split; [exact Hrun|].
  cbn [areas_count statistics].
  rewrite dropna_map_Value, Hone. cbn [map dropna]. rewrite Hv. cbn [dropna length].
  split; [reflexivity|].
  unfold mean, std, Qmin_list, Qmax_list, quantile, median, np_round.
  cbn [length Nat.ltb Nat.leb fold_left sort_values sort_by insert_by Nat.odd Nat.even
         Nat.sub option_map Nat.div Nat.divmod fst nth].
  unfold lerp_at. cbv zeta.
  change (Qfloor ((1 # 4) * inject_Z (Z.of_nat 0))) with 0%Z.
  change (Qfloor ((3 # 4) * inject_Z (Z.of_nat 0))) with 0%Z.
  change (Z.to_nat 0) with 0%nat.
  cbn [Nat.add Nat.min nth length Nat.sub].
  change (Qlen [v]) with 1%Q. change (inject_Z (Z.of_nat 0)) with 0%Q.
  change (inject_Z 0) with 0%Q.
  f_equal; f_equal; apply np_round_digits_Qeq.
  - unfold Qsum. cbn [fold_right]. field.
  - ring.
  - ring.
Qed.

(** ** The values of a ranking *)

(** X13. The values of a [GET /rankings] response are numbers, never NaN,
    in descending order for [top] and ascending order for [bottom] (after
    rounding as before it); when no row has a value the ranking is empty and
    the request still succeeds. *)
Theorem get_rankings_values_are_ordered
    (indicator_id : IndicatorID) (area_type : AreaType)
    (time_period : option string) (n : nat) (order : Order) (c c' : Cache)
    (df : DataFrame) (period : string) :
  filter_data (IndicatorID_value indicator_id) (AreaType_value area_type) time_period c =
    (Ok (df, period), c') ->
  exists resp,
    get_rankings indicator_id area_type time_period n order c = (Ok resp, c') /\
    Forall (fun v => v <> NaN) (map rank_value (rankings resp)) /\
    StronglySorted (float_ranked_before order) (map rank_value (rankings resp)) /\
    (length (rankings resp) <= n)%nat /\
    (dropna_Value df = [] -> rankings resp = []).
Proof.
  intros Hrows.
  destruct (get_rankings_on _ _ _ n order _ _ _ _ Hrows) as [info Hrun].
  eexists. split; [exact Hrun|]. cbn [rankings].
  rewrite (ranking_entry_row rank_value (fun row => round (Value row) 2)) by reflexivity.
  set (sorted := sort_by (order_before order) (dropna_Value df)).
  assert (Hsorted : StronglySorted (ranked_before order) (firstn n sorted))
    by apply StronglySorted_firstn, sorted_ranked_before.
  assert (Hvalued : Forall valued (firstn n sorted)).
  { apply List.Forall_forall. intros row Hrow.
    assert (Hin : In row sorted).
    { rewrite <- (firstn_skipn n sorted). apply in_or_app. now left. }
    apply sort_by_In in Hin.
    pose proof (dropna_Value_valued df) as H. rewrite List.Forall_forall in H. auto. }
  split; [|split; [|split]].
  - apply List.Forall_forall. intros v Hv. apply in_map_iff in Hv as (row & <- & Hrow).
    rewrite List.Forall_forall in Hvalued. specialize (Hvalued row Hrow).
    unfold valued in Hvalued. now destruct (Value row).
  - revert Hsorted Hvalued. generalize (firstn n sorted). intros l Hs.
    induction Hs as [|a l Hs IH Ha]; intros Hval; cbn [map]; constructor.
    + apply IH. now inversion Hval.
    + inversion Hval as [|? ? Hva Hvl]; subst.
      rewrite List.Forall_forall in Ha, Hvl. apply List.Forall_forall.
      intros w Hw. apply in_map_iff in Hw as (b & <- & Hb).
      specialize (Ha b Hb). specialize (Hvl b Hb). unfold valued in *.
      destruct (Value a) as [va|] eqn:Ea; [|discriminate].
      destruct (Value b) as [vb|] eqn:Eb; [|discriminate].
      specialize (Ha va vb Ea Eb). cbn [round option_map float_ranked_before].
      destruct order; now apply Qround_digits_mono.
  - rewrite length_map.
    assert (Hlen : forall (rows : DataFrame) k, length (enumerate k rows) = length rows).
    { induction rows as [|r rows IH]; intros k; simpl; [reflexivity | now rewrite IH]. }
    rewrite Hlen, length_firstn. lia.
  - intros Hnone. subst sorted. rewrite Hnone. cbn. now destruct n.
Qed.

(** ** One patch per boundary *)

Lemma filter_code_at_most_one (code : string) (df : DataFrame) :
  List.NoDup (map Area_Code df) ->
  (length (List.filter (fun row => String.eqb code (Area_Code row)) df) <= 1)%nat.
Proof.
  induction df as [|row df IH]; intros Hnd; [simpl; lia|].
  inversion Hnd as [|? ? Hnotin Hnd']; subst.
  cbn [List.filter]. destruct (String.eqb code (Area_Code row)) eqn:E.
  - apply String.eqb_eq in E. subst code.
    rewrite filter_none_nil; [simpl; lia|].
    intros other Hother. apply String.eqb_neq. intros Heq.
    apply Hnotin. rewrite Heq. now apply in_map.
  - now apply IH.
Qed.

Lemma merge_left_one_per_boundary (gdf : GeoDataFrame) (df : DataFrame) :
  List.NoDup (map Area_Code df) ->
  length (merge_left gdf df) = length gdf.
Proof.
  intros Hnd. unfold merge_left.
  induction gdf as [|b gdf IH]; [reflexivity|].
  cbn [flat_map]. rewrite length_app.
  set (others := length (flat_map _ gdf)) in *.
  pose proof (filter_code_at_most_one (ICB23CD b) df Hnd) as Hone.
  destruct (List.filter _ df) as [|row0 [|row1 rest]]; cbn [length map] in *; lia.
Qed.

(** X16. When no two of the filtered rows share an area code, the figure of
    [GET /map] has exactly one patch per boundary. *)
Theorem generate_map_one_patch_per_boundary
    (indicator_id : IndicatorID) (time_period : option string) (cmap : ColorMap)
    (figsize_width figsize_height : Q) (dpi : Z) (title : option string)
    (format : ImageFormat) (c c' c'' : Cache)
    (df : DataFrame) (period : string) (gdf : GeoDataFrame) :
  filter_data (IndicatorID_value indicator_id) "ICBs" time_period c = (Ok (df, period), c') ->
  get_boundaries c' = (Ok (BoundaryFrame gdf), c'') ->
  List.NoDup (map Area_Code df) ->
  exists fig,
    generate_map indicator_id time_period cmap figsize_width figsize_height dpi
      title format c =
      (Ok (match format with
           | base64 => Base64Json {| png_figure := fig; png_dpi := dpi |}
           | png => StreamingResponse {| png_figure := fig; png_dpi := dpi |}
           end), c'') /\
    length (patches fig) = length gdf.
Proof.
  intros Hrows Hgdf Hnd.
  destruct (indicator_info_returns indicator_id c'') as [info Hinfo].
  eexists. split.
  - unfold generate_map, bind, lift. rewrite Hrows. cbv beta iota.
    rewrite Hgdf. cbv beta iota. cbn [boundary_columns]. cbv beta iota.
    rewrite Hinfo. cbv beta iota zeta.
    destruct format; reflexivity.
  - cbn [patches]. rewrite plot_length. now apply merge_left_one_per_boundary.
Qed.

(** ** The scatter chart *)

Lemma complete_rows_points (df : DataFrame) :
  combine (dropna (map Denominator (dropna_Value_Denominator df)))
          (dropna (map Value (dropna_Value_Denominator df))) =
  flat_map (fun row => match Denominator row, Value row with
                       | Some d, Some v => [(d, v)]
                       | _, _ => []
                       end) df.
Proof.
  unfold dropna_Value_Denominator. induction df as [|row df IH]; [reflexivity|].
  cbn [List.filter flat_map].
  destruct (Value row) as [v|] eqn:Ev, (Denominator row) as [d|] eqn:Ed;
    cbn [notna andb]; [|exact IH..].
  cbn [map dropna]. rewrite Ev, Ed. cbn [combine app]. now rewrite IH.
Qed.

Lemma complete_rows_lengths (df : DataFrame) :
  length (dropna (map Denominator (dropna_Value_Denominator df))) =
    length (dropna_Value_Denominator df) /\
  length (dropna (map Value (dropna_Value_Denominator df))) =
    length (dropna_Value_Denominator df).
Proof.
  unfold dropna_Value_Denominator. induction df as [|row df [IHd IHv]]; [split; reflexivity|].
  cbn [List.filter].
  destruct (Value row) as [v|] eqn:Ev, (Denominator row) as [d|] eqn:Ed;
    cbn [notna andb]; [|split; assumption..].
  cbn [map dropna length]. rewrite Ev, Ed. cbn [length]. split; congruence.
Qed.

(** [generate_chart] once [filter_data] has returned: [scatter] may raise,
    then the regression step, and otherwise the chart is returned. *)
Lemma generate_chart_on (indicator_id : IndicatorID) (area_type : AreaType)
    (time_period : option string) (figsize_width figsize_height : Q) (dpi : Z)
    (point_color : string) (show_regression : bool) (title : option string)
    (format : ImageFormat) (c c' : Cache) (df : DataFrame) (period : string) :
  filter_data (IndicatorID_value indicator_id) (AreaType_value area_type) time_period c =
    (Ok (df, period), c') ->
  let x := dropna (map Denominator (dropna_Value_Denominator df)) in
  let y := dropna (map Value (dropna_Value_Denominator df)) in
  let step := if show_regression && (2 <=? length x)%nat
              then regression_line (linregress x y) x else Ok None in
  let request :=
    generate_chart indicator_id area_type time_period figsize_width figsize_height dpi
      point_color show_regression title format c in
  (forall message, scatter_error point_color = Some message ->
     request = (Raise (ValueError message), c')) /\
  (scatter_error point_color = None ->
   (forall e, step = Raise e -> request = (Raise e, c')) /\
   (forall line, step = Ok line ->
      exists chart,
        request =
          (Ok (match format with
               | base64 => ChartBase64Json {| chart_figure := chart; chart_dpi := dpi |}
               | png => ChartStreamingResponse {| chart_figure := chart; chart_dpi := dpi |}
               end), c') /\
        scatter_points chart = combine x y /\
        scatter_color chart = point_color /\
        regression chart = line)).
Proof.
  intros Hrows x y step request.
  destruct (indicator_info_returns indicator_id c') as [info Hinfo].
  subst request. unfold generate_chart, bind, lift. rewrite Hrows. cbv beta iota zeta.
  fold x y. fold step.
  destruct (scatter_error point_color) as [message|].
  - split; [|discriminate]. now intros ? [= <-].
  - split; [discriminate|]. intros _. split.
    + intros e ->. reflexivity.
    + intros line ->. cbv beta iota. rewrite Hinfo. cbv beta iota.
      eexists. split; [destruct format; reflexivity|].
      cbn [scatter_points scatter_color regression]. repeat split; reflexivity.
Qed.

(** X17. Once [filter_data] has returned rows, [GET /chart] raises the
    [ValueError] of [scatter] when the point colour is one matplotlib cannot
    read.  With a colour it can read, and unless the regression is wanted on
    2 or more complete rows and [linregress] raises, it returns a chart,
    however few rows are complete (where [GET /correlation] raises its 400
    below 3): the scatter has one point (denominator, value) per row that
    has both, in row order, in the requested colour. *)
Theorem generate_chart_plots_complete_rows
    (indicator_id : IndicatorID) (area_type : AreaType)
    (time_period : option string) (figsize_width figsize_height : Q) (dpi : Z)
    (point_color : string) (show_regression : bool) (title : option string)
    (format : ImageFormat) (c c' : Cache) (df : DataFrame) (period : string) :
  filter_data (IndicatorID_value indicator_id) (AreaType_value area_type) time_period c =
    (Ok (df, period), c') ->
  let x := dropna (map Denominator (dropna_Value_Denominator df)) in
  let y := dropna (map Value (dropna_Value_Denominator df)) in
  let request :=
    generate_chart indicator_id area_type time_period figsize_width figsize_height dpi
      point_color show_regression title format c in
  (forall message, scatter_error point_color = Some message ->
     request = (Raise (ValueError message), c')) /\
  (scatter_error point_color = None ->
   show_regression = false \/ (length (dropna_Value_Denominator df) < 2)%nat \/
     (exists fit, linregress x y = Ok fit) ->
   exists chart,
     request =
       (Ok (match format with
            | base64 => ChartBase64Json {| chart_figure := chart; chart_dpi := dpi |}
            | png => ChartStreamingResponse {| chart_figure := chart; chart_dpi := dpi |}
            end), c') /\
     scatter_points chart =
       flat_map (fun row => match Denominator row, Value row with
                            | Some d, Some v => [(d, v)]
                            | _, _ => []
                            end) df /\
     length (scatter_points chart) = length (dropna_Value_Denominator df) /\
     scatter_color chart = point_color) /\
  ((length (dropna_Value_Denominator df) < 3)%nat ->
   fst (get_correlation indicator_id area_type time_period c) =
     Raise (HTTPException 400 "Insufficient data for correlation analysis")).
Proof.
  intros Hrows x y request.
  destruct (generate_chart_on indicator_id area_type time_period figsize_width
              figsize_height dpi point_color show_regression title format _ _ _ _ Hrows)
    as [Hcolor Hdrawn].
  fold x y request in Hcolor, Hdrawn.
  destruct (complete_rows_lengths df) as [Hx Hy]. fold x in Hx. fold y in Hy.
  split; [exact Hcolor|]. split.
  - intros Hread Hstep. destruct (Hdrawn Hread) as [_ Hchart].
    assert (Hline : exists line,
              (if show_regression && (2 <=? length x)%nat
               then regression_line (linregress x y) x else Ok None) = Ok line).
    { destruct Hstep as [->|[Hfew|[fit Hfit]]].
      - eexists. reflexivity.
      - rewrite Hx. apply Nat.leb_gt in Hfew. rewrite Hfew, andb_false_r.
        eexists. reflexivity.
      - destruct (show_regression && (2 <=? length x)%nat); [|eexists; reflexivity].
        rewrite Hfit. destruct fit as [[[[slope intercept] r] p] se].
        eexists. reflexivity. }
    destruct Hline as [line Hline].
    destruct (Hchart line Hline) as (chart & Hrun & Hpoints & Hcol & _).
    exists chart. split; [exact Hrun|].
    split; [rewrite Hpoints; apply complete_rows_points|]. split; [|exact Hcol].
    rewrite Hpoints, length_combine, Hx, Hy. lia.
  - intros Hfew. rewrite (get_correlation_on _ _ _ _ _ _ _ Hrows).
    apply Nat.ltb_lt in Hfew. now rewrite Hfew.
Qed.

Lemma map_fst_combine {A B} (x : list A) (y : list B) :
  length x = length y -> map fst (combine x y) = x.
Proof.
  revert y. induction x as [|a x IH]; intros [|b y] Hlen; try discriminate; [reflexivity|].
  cbn [combine map fst]. f_equal. apply IH. now injection Hlen.
Qed.

(** X18. With a point colour matplotlib can read: when [show_regression] is
    set and at least 2 rows are complete, [GET /chart] calls [linregress] on
    the denominators and the values of the complete rows.  If [linregress]
    raises (scipy does when all denominators are equal), the request raises
    that exception; if it returns, the chart carries the line
    [slope * x + intercept] above every scatter point, labelled with [r] and
    [p] in the [.3f] format.  When [show_regression] is unset or fewer than
    2 rows are complete, the chart is returned without a line. *)
Theorem generate_chart_regression_line
    (indicator_id : IndicatorID) (area_type : AreaType)
    (time_period : option string) (figsize_width figsize_height : Q) (dpi : Z)
    (point_color : string) (show_regression : bool) (title : option string)
    (format : ImageFormat) (c c' : Cache) (df : DataFrame) (period : string) :
  filter_data (IndicatorID_value indicator_id) (AreaType_value area_type) time_period c =
    (Ok (df, period), c') ->
  scatter_error point_color = None ->
  let x := dropna (map Denominator (dropna_Value_Denominator df)) in
  let y := dropna (map Value (dropna_Value_Denominator df)) in
  let request :=
    generate_chart indicator_id area_type time_period figsize_width figsize_height dpi
      point_color show_regression title format c in
  (show_regression = true -> (2 <= length (dropna_Value_Denominator df))%nat ->
   (forall e, linregress x y = Raise e -> request = (Raise e, c')) /\
   (forall slope intercept r p se,
      linregress x y = Ok (slope, intercept, r, p, se) ->
      exists chart,
        request =
          (Ok (match format with
               | base64 => ChartBase64Json {| chart_figure := chart; chart_dpi := dpi |}
               | png => ChartStreamingResponse {| chart_figure := chart; chart_dpi := dpi |}
               end), c') /\
        regression chart =
          Some {| line_points :=
                    map (fun xi => (xi, float_add (float_mul slope (Some xi)) intercept)) x;
                  line_label := "r = " +:+ format_3f r +:+ ", p = " +:+ format_3f p |} /\
        map fst (scatter_points chart) = x)) /\
  (show_regression = false \/ (length (dropna_Value_Denominator df) < 2)%nat ->
   exists chart,
     request =
       (Ok (match format with
            | base64 => ChartBase64Json {| chart_figure := chart; chart_dpi := dpi |}
            | png => ChartStreamingResponse {| chart_figure := chart; chart_dpi := dpi |}
            end), c') /\
     regression chart = None).
Proof.
  intros Hrows Hread x y request.
  destruct (generate_chart_on indicator_id area_type time_period figsize_width
              figsize_height dpi point_color show_regression title format _ _ _ _ Hrows)
    as [_ Hdrawn].
  fold x y request in Hdrawn. destruct (Hdrawn Hread) as [Hraise Hchart].
  destruct (complete_rows_lengths df) as [Hx Hy]. fold x in Hx. fold y in Hy.
  split.
  - intros -> Hlen. apply Nat.leb_le in Hlen. rewrite <- Hx in Hlen.
    rewrite Hlen in Hraise, Hchart. cbn [andb] in Hraise, Hchart. split.
    + intros e He. apply Hraise. now rewrite He.
    + intros slope intercept r p se Hfit.
      destruct (Hchart _ ltac:(rewrite Hfit; reflexivity))
        as (chart & Hrun & Hpoints & _ & Hline).
      exists chart. split; [exact Hrun|]. split; [exact Hline|].
      rewrite Hpoints. apply map_fst_combine. congruence.
  - intros Hnone.
    assert (Hoff : show_regression && (2 <=? length x)%nat = false).
    { destruct Hnone as [->|Hfew]; [reflexivity|].
      rewrite Hx. apply Nat.leb_gt in Hfew. rewrite Hfew. apply andb_false_r. }
    rewrite Hoff in Hchart.
    destruct (Hchart None eq_refl) as (chart & Hrun & _ & _ & Hline).
    exists chart. split; [exact Hrun | exact Hline].
Qed.

(** ** The catalogue *)

Lemma INDICATOR_INFO_is_items : INDICATOR_INFO = list_to_map INDICATOR_INFO_items.
Proof. reflexivity. Qed.

(** X19. [GET /indicators] lists the members of [IndicatorID], in their
    order and no other id, each with the name and description that the
    handlers report for it from [INDICATOR_INFO]. *)
Theorem list_indicators_matches_enum (c : Cache) :
  exists entries,
    list_indicators c = (Ok entries, c) /\
    map entry_id entries = map IndicatorID_value IndicatorID_members /\
    (forall indicator_id : IndicatorID, In indicator_id IndicatorID_members) /\
    (forall indicator_id : IndicatorID,
       exists info,
         indicator_info indicator_id c = (Ok info, c) /\
         In {| entry_id := IndicatorID_value indicator_id;
               entry_name := info_name info;
               entry_description := info_description info |} entries) /\
    (forall e, In e entries -> exists indicator_id, entry_id e = IndicatorID_value indicator_id).
Proof.
  eexists. split; [reflexivity|]. split; [reflexivity|]. split; [|split].
  - intros []; cbn; tauto.
  - intros []; eexists; (split; [vm_compute; reflexivity|]); cbn; tauto.
  - intros e He. cbn in He.
    repeat (destruct He as [<-|He];
            [first [ now exists TYPE1_9_CARE_PROCESSES | now exists TYPE2_9_CARE_PROCESSES
                   | now exists TYPE1_RETINAL_SCREENING | now exists TYPE2_RETINAL_SCREENING
                   | now exists TYPE1_TREATMENT_TARGETS | now exists TYPE2_TREATMENT_TARGETS
                   | now exists TYPE1_STATIN_PRESCRIPTION
                   | now exists TYPE2_STATIN_PRESCRIPTION ]|]).
    destruct He.
Qed.

End Api.

(** * Properties across upstream sources *)

(** After a first access, the slot decides: another upstream is not asked. *)
Lemma get_indicator_data_again (upstream later : Z -> DataFrame)
    (indicator_id : Z) (c : Cache) :
  get_indicator_data later indicator_id (snd (get_indicator_data upstream indicator_id c)) =
  get_indicator_data upstream indicator_id c.
Proof.
  destruct (c !! ("indicator_" +:+ pretty indicator_id)) as [entry|] eqn:E.
  - rewrite (get_indicator_data_cached upstream _ _ _ E). cbn [snd].
    apply get_indicator_data_cached, E.
  - rewrite (get_indicator_data_fresh upstream _ _ E). cbn [snd].
    apply get_indicator_data_cached, lookup_insert_eq.
Qed.

(** X1. Once an indicator has been requested through [filter_data], every
    later [filter_data] for it, with any area type and period, is served
    from the cache: it gives what the data of the first request gives and
    leaves the cache as that request left it, whatever the upstream source
    returns by then. *)
Theorem filter_data_served_from_cache
    (upstream later : Z -> DataFrame) (indicator_id : Z)
    (area_type next_area_type : string) (time_period next_time_period : option string)
    (c : Cache) :
  filter_data later indicator_id next_area_type next_time_period
    (snd (filter_data upstream indicator_id area_type time_period c)) =
  filter_data upstream indicator_id next_area_type next_time_period c.
Proof.
  rewrite filter_data_cache.
  pose proof (get_indicator_data_again upstream later indicator_id c) as Hagain.
  unfold filter_data, bind. rewrite Hagain. reflexivity.
Qed.

(** X3. [POST /cache/clear] empties the cache, whatever it held: [GET
    /health] then reports 0 entries, and the next access to an indicator
    fetches it from the upstream source again and is the only entry. *)
Theorem clear_cache_forces_refetch
    (upstream : Z -> DataFrame) (indicator_id : Z) (c : Cache) :
  fst (health (snd (clear_cache c))) = Ok ("ok", 0%nat) /\
  get_indicator_data upstream indicator_id (snd (clear_cache c)) =
    (Ok (IndicatorFrame (upstream indicator_id)),
     {["indicator_" +:+ pretty indicator_id := IndicatorFrame (upstream indicator_id)]}) /\
  fst (health (snd (get_indicator_data upstream indicator_id (snd (clear_cache c))))) =
    Ok ("ok", 1%nat).
Proof.
  assert (Hget : get_indicator_data upstream indicator_id (snd (clear_cache c)) =
                 (Ok (IndicatorFrame (upstream indicator_id)),
                  {["indicator_" +:+ pretty indicator_id :=
                      IndicatorFrame (upstream indicator_id)]})).
  { cbn [clear_cache snd].
    rewrite get_indicator_data_fresh by apply lookup_empty.
    now rewrite insert_empty. }
  split; [|split; [exact Hget|]].
  - cbn [clear_cache health fst snd]. now rewrite map_size_empty.
  - rewrite Hget. cbn [health fst snd]. now rewrite map_size_singleton.
Qed.

(** X14. [GET /correlation] calls [pearsonr] only on two samples of one
    length, at least 3: two implementations that agree on such samples give
    the same response to every request. *)
Theorem get_correlation_calls_pearsonr_on_complete_rows
    (upstream : Z -> DataFrame) (pearsonr other : list Q -> list Q -> float * float)
    (indicator_id : IndicatorID) (area_type : AreaType)
    (time_period : option string) (c : Cache) :
  (forall x y, length x = length y -> (3 <= length x)%nat -> pearsonr x y = other x y) ->
  get_correlation upstream pearsonr indicator_id area_type time_period c =
  get_correlation upstream other indicator_id area_type time_period c.
Proof.
  intros Hagree.
  destruct (filter_data upstream (IndicatorID_value indicator_id) (AreaType_value area_type)
              time_period c) as [[[df period]|e] c'] eqn:Hrows.
  - rewrite (get_correlation_on upstream pearsonr _ _ _ _ _ _ _ Hrows),
      (get_correlation_on upstream other _ _ _ _ _ _ _ Hrows).
    destruct (length (dropna_Value_Denominator df) <? 3)%nat eqn:Hlen; [reflexivity|].
    apply Nat.ltb_ge in Hlen.
    destruct (complete_rows_lengths df) as [Hx Hy].
    cbv zeta. rewrite Hagree by (rewrite ?Hx, ?Hy; auto). reflexivity.
  - unfold get_correlation, bind. now rewrite Hrows.
Qed.

(** * The handlers on the sample datasets *)

Lemma filter_data_resolves_latest_period_witness :
  exists period,
    In period ["2022/23"; "2023/24"; "2023/24"; "2023/24"] /\
    filter_data sample_fetch 94146 "ICBs" None ∅ =
      (Ok (List.filter (fun row => String.eqb (Time_period row) period)
             (List.filter (fun row => String.eqb (Area_Type row) "ICBs") sample_data),
           period),
       <["indicator_94146" := IndicatorFrame sample_data]> ∅).
Proof.
  destruct (filter_data_resolves_latest_period sample_fetch 94146 "ICBs" ∅
              (<["indicator_94146" := IndicatorFrame sample_data]> ∅) sample_data)
    as (period & Hin & _ & _ & Hrun).
  - vm_compute. reflexivity.
  - vm_compute. discriminate.
  - exists period. split; [exact Hin | exact Hrun].
Defined.

Lemma filter_data_not_found_witness :
  filter_data sample_fetch 94146 "GPs" (Some "1999/00") ∅ =
    (Raise (HTTPException 404 "No data for area type 'GPs'"),
     <["indicator_94146" := IndicatorFrame sample_data]> ∅)
  /\
  filter_data sample_fetch 94146 "ICBs" (Some "1999/00") ∅ =
    (Raise (HTTPException 404 "No data for time period '1999/00'"),
     <["indicator_94146" := IndicatorFrame sample_data]> ∅).
Proof.
  split.
  - refine (proj1 (filter_data_not_found sample_fetch 94146 "GPs" None ∅
                     (<["indicator_94146" := IndicatorFrame sample_data]> ∅)
                     sample_data _) _ (Some "1999/00")).
    + vm_compute. reflexivity.
    + vm_compute. reflexivity.
  - destruct (filter_data_not_found sample_fetch 94146 "ICBs" (Some "1999/00") ∅
                (<["indicator_94146" := IndicatorFrame sample_data]> ∅) sample_data)
      as [_ Hrows].
    + vm_compute. reflexivity.
    + destruct Hrows as (period & -> & Hnone & _).
      * vm_compute. discriminate.
      * apply Hnone. vm_compute. reflexivity.
Defined.

Lemma list_time_periods_without_rows_witness :
  list_time_periods sample_fetch TYPE1_9_CARE_PROCESSES GPS ∅ =
    (Ok {| time_periods := []; latest := None |},
     <["indicator_94146" := IndicatorFrame sample_data]> ∅).
Proof.
  refine (proj1 (list_time_periods_without_rows sample_fetch TYPE1_9_CARE_PROCESSES GPS ∅
                   (<["indicator_94146" := IndicatorFrame sample_data]> ∅)
                   sample_data _ _)).
  - vm_compute. reflexivity.
  - vm_compute. reflexivity.
Defined.

(** [GET /data?min_value=99] on the sample: both stages of [filter_data]
    pass, the value bound rejects every row, and the request succeeds with
    an empty listing. *)
Lemma get_data_empty_result_counterexample :
  fst (get_data sample_fetch (fun _ => None) TYPE1_9_CARE_PROCESSES ICBS
         None None (Some (99 # 1)) None None ∅) =
    Ok {| data_indicator :=
            {| info_name := "Type 1 - All 9 care processes";
               info_description := "% receiving all annual checks" |};
          data_area_type := "ICBs";
          data_time_period := "2023/24";
          data_count := 0;
          data := [] |}.
Proof. vm_compute. reflexivity. Qed.

Lemma get_data_halts_only_in_filter_data_witness :
  exists resp,
    get_data sample_fetch (fun _ => None) TYPE1_9_CARE_PROCESSES ICBS
      None None (Some (99 # 1)) None None ∅ =
      (Ok resp, <["indicator_94146" := IndicatorFrame sample_data]> ∅) /\
    data resp = [] /\ data_count resp = 0%nat.
Proof.
  destruct (proj2 (get_data_halts_only_in_filter_data sample_fetch (fun _ => None)
                     TYPE1_9_CARE_PROCESSES ICBS None None (Some (99 # 1)) None None ∅)
              (List.filter (fun row => String.eqb (Time_period row) "2023/24")
                 (List.filter (fun row => String.eqb (Area_Type row) "ICBs") sample_data))
              "2023/24"
              (<["indicator_94146" := IndicatorFrame sample_data]> ∅))
    as (resp & Hrun & _ & _ & Hempty).
  - vm_compute. reflexivity.
  - intros pat H. discriminate H.
  - exists resp. split; [exact Hrun|]. apply Hempty.
    intros row Hin. right. left. exists (99 # 1)%Q. split; [reflexivity|].
    vm_compute in Hin.
    repeat (destruct Hin as [<-|Hin]; [vm_compute; reflexivity|]).
    destruct Hin.
Defined.

(** [GET /correlation] on a cold cache: the sample has two complete rows of
    boards in 2023/24, the request raises the 400, and the cache now holds
    the fetched dataset. *)
Lemma get_correlation_failure_fills_cache_counterexample :
  get_correlation sample_fetch sample_pearsonr TYPE1_9_CARE_PROCESSES ICBS None ∅ =
    (Raise (HTTPException 400 "Insufficient data for correlation analysis"),
     <["indicator_94146" := IndicatorFrame sample_data]> ∅)
  /\ (<["indicator_94146" := IndicatorFrame sample_data]> ∅ : Cache) <> ∅.
Proof.
  split.
  - vm_compute. reflexivity.
  - intros H.
    assert (Hl : (<["indicator_94146" := IndicatorFrame sample_data]> ∅ : Cache)
                   !! "indicator_94146" = Some (IndicatorFrame sample_data))
      by apply lookup_insert_eq.
    rewrite H in Hl. discriminate Hl.
Qed.

Lemma get_correlation_insufficient_data_witness :
  fst (get_correlation sample_fetch sample_pearsonr TYPE1_9_CARE_PROCESSES ICBS None ∅) =
    Raise (HTTPException 400 "Insufficient data for correlation analysis")
  /\
  snd (get_correlation sample_fetch sample_pearsonr TYPE1_9_CARE_PROCESSES ICBS None ∅) =
    <["indicator_94146" := IndicatorFrame sample_data]> ∅.
Proof.
  destruct (get_correlation_insufficient_data sample_fetch sample_pearsonr
              TYPE1_9_CARE_PROCESSES ICBS None ∅) as (Hiff & _ & Hmiss).
  split.
  - apply Hiff.
    exists (List.filter (fun row => String.eqb (Time_period row) "2023/24")
              (List.filter (fun row => String.eqb (Area_Type row) "ICBs") sample_data)),
      "2023/24".
    split; [vm_compute; reflexivity | vm_compute; lia].
  - apply Hmiss. vm_compute. reflexivity.
Defined.

Lemma get_correlation_interpretation_witness :
  exists resp,
    get_correlation sample_fetch_ten sample_pearsonr_long TYPE1_9_CARE_PROCESSES ICBS None ∅ =
      (Ok resp, <["indicator_94146" := IndicatorFrame sample_ten]> ∅) /\
    corr_r (correlation resp) = Some (fl (- (8760 # 10000))) /\
    corr_p_value (correlation resp) = Some (fl (78 # 10000)) /\
    significant (correlation resp) = true /\
    interpretation (correlation resp) =
      "Larger populations tend to have worse care quality.".
Proof.
  destruct (get_correlation_interpretation sample_fetch_ten sample_pearsonr_long
              TYPE1_9_CARE_PROCESSES ICBS None ∅
              (<["indicator_94146" := IndicatorFrame sample_ten]> ∅)
              sample_ten "2023/24" (Some (- (897 # 1024))%Q) (Some (1 # 128)%Q))
    as (resp & Hrun & _ & Hr & Hp & _ & _ & _ & _ & Hsig & _ & _ & Hworse & _).
  - vm_compute. reflexivity.
  - vm_compute. lia.
  - reflexivity.
  - discriminate.
  - exists resp. split; [exact Hrun|].
    split; [rewrite Hr; vm_compute; reflexivity|].
    split; [rewrite Hp; vm_compute; reflexivity|]. split.
    + rewrite Hsig. vm_compute. reflexivity.
    + apply Hworse; vm_compute; reflexivity.
Defined.

Lemma generate_map_keeps_every_boundary_witness :
  exists fig,
    fst (generate_map sample_fetch sample_read_file TYPE1_9_CARE_PROCESSES None RdYlGn
           (10 # 1) (12 # 1) 100 None png ∅) =
      Ok (StreamingResponse {| png_figure := fig; png_dpi := 100 |}) /\
    length (patches fig) = 4%nat /\
    In {| patch_geometry := square 1 0;
          patch_fill := Scaled RdYlGn (Some (43 # 1)%Q) (Some (52 # 1)%Q) (52 # 1) |}
       (patches fig) /\
    In {| patch_geometry := square 1 1; patch_fill := Missing "lightgrey" "No data" |}
       (patches fig).
Proof.
  destruct (generate_map_keeps_every_boundary sample_fetch sample_read_file
              TYPE1_9_CARE_PROCESSES None RdYlGn (10 # 1) (12 # 1) 100 None png ∅
              (<["indicator_94146" := IndicatorFrame sample_data]> ∅)
              (<["boundaries" := BoundaryFrame sample_boundaries]>
                 (<["indicator_94146" := IndicatorFrame sample_data]> ∅))
              (List.filter (fun row => String.eqb (Time_period row) "2023/24")
                 (List.filter (fun row => String.eqb (Area_Type row) "ICBs") sample_data))
              "2023/24" sample_boundaries)
    as (fig & Hrun & _ & Hlen & _ & _ & _ & Hall).
  - vm_compute. reflexivity.
  - vm_compute. reflexivity.
  - exists fig. split; [now rewrite Hrun|]. split; [rewrite Hlen; vm_compute; reflexivity|].
    split.
    + destruct (Hall {| ICB23CD := "E54000010"; geometry := square 1 0 |})
        as (_ & Hvalue & _); [vm_compute; auto|].
      apply (Hvalue (mk_row "E54000010" "Staffordshire" "ICBs" "2023/24"
                       (Some (52 # 1)%Q) (Some (400 # 1)%Q)) (52 # 1)%Q);
        [vm_compute; auto | reflexivity | reflexivity].
    + apply (Hall {| ICB23CD := "E54000099"; geometry := square 1 1 |}).
      * vm_compute. auto.
      * intros row Hin. vm_compute in Hin.
        repeat (destruct Hin as [<-|Hin]; [vm_compute; discriminate|]).
        destruct Hin.
Defined.


(** [GET /rankings] with [n=5] on six boards with six different values:
    four boards are in the top five and in the bottom five. *)
Lemma get_rankings_top_bottom_overlap_counterexample :
  exists top_resp bottom_resp,
    fst (get_rankings sample_fetch_six TYPE1_9_CARE_PROCESSES ICBS None 5 top ∅) =
      Ok top_resp /\
    fst (get_rankings sample_fetch_six TYPE1_9_CARE_PROCESSES ICBS None 5 bottom ∅) =
      Ok bottom_resp /\
    map rank_area_code (rankings top_resp) =
      ["E54000006"; "E54000003"; "E54000001"; "E54000004"; "E54000002"] /\
    map rank_area_code (rankings bottom_resp) =
      ["E54000005"; "E54000002"; "E54000004"; "E54000001"; "E54000003"] /\
    map Area_Code sample_six =
      ["E54000001"; "E54000002"; "E54000003"; "E54000004"; "E54000005"; "E54000006"].
Proof.
  eexists. eexists.
  split; [vm_compute; reflexivity|].
  split; [vm_compute; reflexivity|].
  split; [vm_compute; reflexivity|].
  split; vm_compute; reflexivity.
Qed.

(** Ten boards of one value: both selections keep the first five rows. *)
Lemma get_rankings_tied_overlap :
  exists top_resp bottom_resp,
    fst (get_rankings sample_fetch_tied TYPE1_9_CARE_PROCESSES ICBS None 5 top ∅) =
      Ok top_resp /\
    fst (get_rankings sample_fetch_tied TYPE1_9_CARE_PROCESSES ICBS None 5 bottom ∅) =
      Ok bottom_resp /\
    map rank_area_code (rankings top_resp) =
      ["E54000001"; "E54000002"; "E54000003"; "E54000004"; "E54000005"] /\
    map rank_area_code (rankings bottom_resp) =
      ["E54000001"; "E54000002"; "E54000003"; "E54000004"; "E54000005"].
Proof.
  eexists. eexists.
  split; [vm_compute; reflexivity|].
  split; [vm_compute; reflexivity|].
  split; vm_compute; reflexivity.
Qed.

Lemma get_rankings_top_bottom_disjoint_witness :
  exists top_resp bottom_resp,
    get_rankings sample_fetch_ten TYPE1_9_CARE_PROCESSES ICBS None 5 top ∅ =
      (Ok top_resp, <["indicator_94146" := IndicatorFrame sample_ten]> ∅) /\
    get_rankings sample_fetch_ten TYPE1_9_CARE_PROCESSES ICBS None 5 bottom ∅ =
      (Ok bottom_resp, <["indicator_94146" := IndicatorFrame sample_ten]> ∅) /\
    forall code,
      In code (map rank_area_code (rankings top_resp)) ->
      In code (map rank_area_code (rankings bottom_resp)) -> False.
Proof.
  apply (get_rankings_top_bottom_disjoint sample_fetch_ten TYPE1_9_CARE_PROCESSES ICBS
           None ∅ (<["indicator_94146" := IndicatorFrame sample_ten]> ∅)
           sample_ten "2023/24").
  - vm_compute. reflexivity.
  - vm_compute. lia.
  - vm_compute.
    repeat (constructor;
            [intros Hin; repeat (destruct Hin as [Hin|Hin]; [discriminate Hin|]);
             exact Hin|]).
    constructor.
  - intros x y va vb Hx Hy Hva Hvb Heq.
    vm_compute in Hx, Hy.
    repeat (destruct Hx as [<-|Hx]; [|]); try (destruct Hx);
      repeat (destruct Hy as [<-|Hy]; [|]); try (destruct Hy);
      try reflexivity;
      injection Hva as <-; injection Hvb as <-; vm_compute in Heq; discriminate Heq.
Defined.

Lemma get_summary_statistics_ordered_witness :
  exists resp mn p25 md p75 mx,
    get_summary sample_fetch_ten sample_sqrt TYPE1_9_CARE_PROCESSES ICBS None ∅ =
      (Ok resp, <["indicator_94146" := IndicatorFrame sample_ten]> ∅) /\
    areas_count resp = 10%nat /\
    stat_min (statistics resp) = Some mn /\
    percentile_25 (statistics resp) = Some p25 /\
    stat_median (statistics resp) = Some md /\
    percentile_75 (statistics resp) = Some p75 /\
    stat_max (statistics resp) = Some mx /\
    (mn <= p25)%Q /\ (p25 <= md)%Q /\ (md <= p75)%Q /\ (p75 <= mx)%Q.
Proof.
  destruct (get_summary_statistics_ordered sample_fetch_ten sample_sqrt
              TYPE1_9_CARE_PROCESSES ICBS None ∅
              (<["indicator_94146" := IndicatorFrame sample_ten]> ∅)
              sample_ten "2023/24")
    as (resp & mn & p25 & md & p75 & mx & Hrun & _ & Hcount & Hstats).
  - vm_compute. reflexivity.
  - vm_compute. discriminate.
  - exists resp, mn, p25, md, p75, mx.
    split; [exact Hrun|]. split; [rewrite Hcount; vm_compute; reflexivity | exact Hstats].
Defined.

(** The statistics of the ten sample boards: 39, 45, 53, 60.25 and 70. *)
Lemma get_summary_sample_statistics :
  let values := dropna (map Value sample_ten) in
  np_round (Qmin_list values) 2 = Some (39 # 1) /\
  np_round (quantile (1 # 4) values) 2 = Some (45 # 1) /\
  np_round (median values) 2 = Some (53 # 1) /\
  np_round (quantile (3 # 4) values) 2 = Some (241 # 4) /\
  np_round (Qmax_list values) 2 = Some (70 # 1).
Proof. vm_compute. repeat split; reflexivity. Qed.

(** The two roundings on a near tie.  The double nearest to 12.345 lies
    above it, so Python's [round] on that float gives 12.35; its double
    product with 100 is 1234.5 exactly, which numpy rounds to the even 1234:
    the statistic comes out as the double nearest to 12.34. *)
Lemma np_round_on_a_near_tie :
  (12345 # 1000 < fl (12345 # 1000))%Q /\
  (Qround_digits 2 (fl (12345 # 1000)) == 1235 # 100)%Q /\
  (fl (fl (12345 # 1000) * (100 # 1)) == 12345 # 10)%Q /\
  np_round_digits 2 (fl (12345 # 1000)) = fl (1234 # 100).
Proof. vm_compute. repeat split; reflexivity. Qed.

(** * The further properties on the sample datasets *)

Lemma filter_data_returns_matching_rows_witness :
  List.filter (fun row => String.eqb (Time_period row) "2023/24")
    (List.filter (fun row => String.eqb (Area_Type row) "ICBs") sample_data) <> [] /\
  exists data,
    get_indicator_data sample_fetch 94146 ∅ =
      (Ok (IndicatorFrame data), <["indicator_94146" := IndicatorFrame sample_data]> ∅).
Proof.
  destruct (filter_data_returns_matching_rows sample_fetch 94146 "ICBs" None ∅
              (<["indicator_94146" := IndicatorFrame sample_data]> ∅)
              (List.filter (fun row => String.eqb (Time_period row) "2023/24")
                 (List.filter (fun row => String.eqb (Area_Type row) "ICBs") sample_data))
              "2023/24")
    as (Hne & _ & data & Hget & _).
  - vm_compute. reflexivity.
  - split; [exact Hne | exists data; exact Hget].
Defined.

Lemma list_time_periods_sorted_and_complete_witness :
  exists resp,
    list_time_periods sample_fetch TYPE1_9_CARE_PROCESSES ICBS ∅ =
      (Ok resp, <["indicator_94146" := IndicatorFrame sample_data]> ∅) /\
    StronglySorted (fun a b => String.ltb b a = true) (time_periods resp) /\
    latest resp = hd_error (time_periods resp).
Proof.
  destruct (list_time_periods_sorted_and_complete sample_fetch TYPE1_9_CARE_PROCESSES ICBS ∅
              (<["indicator_94146" := IndicatorFrame sample_data]> ∅) sample_data)
    as (resp & Hrun & Hsorted & _ & Hlatest).
  - vm_compute. reflexivity.
  - exists resp. auto.
Defined.

Lemma list_time_periods_agrees_with_filter_data_witness :
  exists resp df,
    list_time_periods sample_fetch TYPE1_9_CARE_PROCESSES ICBS ∅ =
      (Ok resp, <["indicator_94146" := IndicatorFrame sample_data]> ∅) /\
    latest resp = Some "2023/24" /\
    filter_data sample_fetch 94146 "ICBs" None ∅ =
      (Ok (df, "2023/24"), <["indicator_94146" := IndicatorFrame sample_data]> ∅).
Proof.
  destruct (list_time_periods_agrees_with_filter_data sample_fetch TYPE1_9_CARE_PROCESSES
              ICBS ∅ (<["indicator_94146" := IndicatorFrame sample_data]> ∅) sample_data)
    as (resp & Hrun & _ & Hlatest).
  - vm_compute. reflexivity.
  - assert (Hl : latest resp = Some "2023/24").
    { apply Hlatest.
      exists (List.filter (fun row => String.eqb (Time_period row) "2023/24")
                (List.filter (fun row => String.eqb (Area_Type row) "ICBs") sample_data)).
      vm_compute. reflexivity. }
    destruct (proj1 (Hlatest "2023/24") Hl) as [df Hdf].
    exists resp, df. auto.
Defined.

Lemma get_data_lists_rows_passing_filters_witness :
  exists df rows,
    filter_data sample_fetch 94146 "ICBs" None ∅ =
      (Ok (df, "2023/24"), <["indicator_94146" := IndicatorFrame sample_data]> ∅) /\
    forall row, In row rows ->
      In row df /\ exists v, Value row = Some v /\ (50 # 1 <= v)%Q.
Proof.
  destruct (get_data_lists_rows_passing_filters sample_fetch (fun _ => None)
              TYPE1_9_CARE_PROCESSES ICBS None None (Some (50 # 1)%Q) None None ∅
              (<["indicator_94146" := IndicatorFrame sample_data]> ∅)
              {| data_indicator :=
                   {| info_name := "Type 1 - All 9 care processes";
                      info_description := "% receiving all annual checks" |};
                 data_area_type := "ICBs";
                 data_time_period := "2023/24";
                 data_count := 1;
                 data :=
                   map data_record
                     [ mk_row "E54000010" "Staffordshire" "ICBs" "2023/24"
                         (Some (52 # 1)%Q) (Some (400 # 1)%Q) ] |})
    as (df & rows & Hrows & _ & Hsound & _).
  - vm_compute. reflexivity.
  - exists df, rows. split; [exact Hrows|].
    intros row Hrow. destruct (Hsound row Hrow) as (Hin & _ & Hmin & _).
    split; [exact Hin | exact (Hmin _ eq_refl)].
Defined.

Lemma get_data_listing_is_ordered_and_capped_witness :
  exists rows,
    map data_record rows =
      map data_record
        [ mk_row "E54000010" "Staffordshire" "ICBs" "2023/24"
            (Some (52 # 1)%Q) (Some (400 # 1)%Q);
          mk_row "E54000008" "Cheshire and Merseyside" "ICBs" "2023/24"
            (Some (43 # 1)%Q) (Some (950 # 1)%Q) ] /\
    StronglySorted listed_before rows.
Proof.
  destruct (get_data_listing_is_ordered_and_capped sample_fetch (fun _ => None)
              TYPE1_9_CARE_PROCESSES ICBS None None None None (Some 2%nat) ∅
              (<["indicator_94146" := IndicatorFrame sample_data]> ∅)
              {| data_indicator :=
                   {| info_name := "Type 1 - All 9 care processes";
                      info_description := "% receiving all annual checks" |};
                 data_area_type := "ICBs";
                 data_time_period := "2023/24";
                 data_count := 2;
                 data :=
                   map data_record
                     [ mk_row "E54000010" "Staffordshire" "ICBs" "2023/24"
                         (Some (52 # 1)%Q) (Some (400 # 1)%Q);
                       mk_row "E54000008" "Cheshire and Merseyside" "ICBs" "2023/24"
                         (Some (43 # 1)%Q) (Some (950 # 1)%Q) ] |})
    as (rows & Hdata & Hsorted & _).
  - vm_compute. reflexivity.
  - exists rows. split; [symmetry; exact Hdata | exact Hsorted].
Defined.

Lemma get_summary_without_values_witness :
  exists resp,
    get_summary sample_fetch_no_values sample_sqrt TYPE1_9_CARE_PROCESSES ICBS None ∅ =
      (Ok resp, <["indicator_94146" := IndicatorFrame sample_no_values]> ∅) /\
    areas_count resp = 0%nat /\
    stat_mean (statistics resp) = NaN.
Proof.
  destruct (get_summary_without_values sample_fetch_no_values sample_sqrt
              TYPE1_9_CARE_PROCESSES ICBS None ∅
              (<["indicator_94146" := IndicatorFrame sample_no_values]> ∅)
              sample_no_values "2023/24")
    as (resp & Hrun & Hcount & _ & Hstats).
  - vm_compute. reflexivity.
  - reflexivity.
  - exists resp. split; [exact Hrun|]. split; [exact Hcount|]. now rewrite Hstats.
Defined.

Lemma get_summary_of_single_value_witness :
  exists resp,
    get_summary sample_fetch sample_sqrt TYPE1_9_CARE_PROCESSES ICBS (Some "2022/23") ∅ =
      (Ok resp, <["indicator_94146" := IndicatorFrame sample_data]> ∅) /\
    stat_std (statistics resp) = NaN /\
    stat_median (statistics resp) = Some (41 # 1)%Q.
Proof.
  destruct (get_summary_of_single_value sample_fetch sample_sqrt
              TYPE1_9_CARE_PROCESSES ICBS (Some "2022/23") ∅
              (<["indicator_94146" := IndicatorFrame sample_data]> ∅)
              [ mk_row "E54000008" "Cheshire and Merseyside" "ICBs" "2022/23"
                  (Some (41 # 1)%Q) (Some (900 # 1)%Q) ]
              "2022/23"
              (mk_row "E54000008" "Cheshire and Merseyside" "ICBs" "2022/23"
                 (Some (41 # 1)%Q) (Some (900 # 1)%Q))
              (41 # 1)%Q)
    as (resp & Hrun & _ & Hstats).
  - vm_compute. reflexivity.
  - reflexivity.
  - reflexivity.
  - exists resp. split; [exact Hrun|]. rewrite Hstats. split; reflexivity.
Defined.

Lemma get_rankings_values_are_ordered_witness :
  exists resp,
    get_rankings sample_fetch_ten TYPE1_9_CARE_PROCESSES ICBS None 3 bottom ∅ =
      (Ok resp, <["indicator_94146" := IndicatorFrame sample_ten]> ∅) /\
    StronglySorted (float_ranked_before bottom) (map rank_value (rankings resp)) /\
    (length (rankings resp) <= 3)%nat.
Proof.
  destruct (get_rankings_values_are_ordered sample_fetch_ten TYPE1_9_CARE_PROCESSES ICBS
              None 3 bottom ∅ (<["indicator_94146" := IndicatorFrame sample_ten]> ∅)
              sample_ten "2023/24")
    as (resp & Hrun & _ & Hsorted & Hlen & _).
  - vm_compute. reflexivity.
  - exists resp. auto.
Defined.

Lemma get_correlation_calls_pearsonr_on_complete_rows_witness :
  get_correlation sample_fetch_ten sample_pearsonr TYPE1_9_CARE_PROCESSES ICBS None ∅ =
  get_correlation sample_fetch_ten sample_pearsonr_guarded TYPE1_9_CARE_PROCESSES ICBS
    None ∅.
Proof.
  apply (get_correlation_calls_pearsonr_on_complete_rows sample_fetch_ten
           sample_pearsonr sample_pearsonr_guarded).
  intros x y _ Hlen. unfold sample_pearsonr_guarded.
  apply Nat.ltb_ge in Hlen. now rewrite Hlen.
Defined.

Lemma generate_map_not_found_before_boundaries_witness :
  generate_map sample_fetch sample_read_file TYPE1_9_CARE_PROCESSES (Some "1999/00")
    RdYlGn (10 # 1) (12 # 1) 100 None png ∅ =
    (Raise (HTTPException 404 "No data for time period '1999/00'"),
     <["indicator_94146" := IndicatorFrame sample_data]> ∅)
  /\
  (<["indicator_94146" := IndicatorFrame sample_data]> ∅ : Cache) !! "boundaries" =
    (∅ : Cache) !! "boundaries".
Proof.
  apply (generate_map_not_found_before_boundaries sample_fetch sample_read_file
           TYPE1_9_CARE_PROCESSES (Some "1999/00") RdYlGn (10 # 1) (12 # 1) 100 None png ∅).
  vm_compute. reflexivity.
Defined.

Lemma generate_map_one_patch_per_boundary_witness :
  exists fig,
    fst (generate_map sample_fetch sample_read_file TYPE1_9_CARE_PROCESSES None RdYlGn
           (10 # 1) (12 # 1) 100 None base64 ∅) =
      Ok (Base64Json {| png_figure := fig; png_dpi := 100 |}) /\
    length (patches fig) = 4%nat.
Proof.
  destruct (generate_map_one_patch_per_boundary sample_fetch sample_read_file
              TYPE1_9_CARE_PROCESSES None RdYlGn (10 # 1) (12 # 1) 100 None base64 ∅
              (<["indicator_94146" := IndicatorFrame sample_data]> ∅)
              (<["boundaries" := BoundaryFrame sample_boundaries]>
                 (<["indicator_94146" := IndicatorFrame sample_data]> ∅))
              (List.filter (fun row => String.eqb (Time_period row) "2023/24")
                 (List.filter (fun row => String.eqb (Area_Type row) "ICBs") sample_data))
              "2023/24" sample_boundaries)
    as (fig & Hrun & Hlen).
  - vm_compute. reflexivity.
  - vm_compute. reflexivity.
  - vm_compute.
    repeat (constructor;
            [intros Hin; repeat (destruct Hin as [Hin|Hin]; [discriminate Hin|]);
             exact Hin|]).
    constructor.
  - exists fig. split; [now rewrite Hrun | exact Hlen].
Defined.

Lemma generate_chart_plots_complete_rows_witness :
  (exists chart,
     generate_chart sample_fetch sample_scatter_error sample_linregress sample_format_3f
       TYPE1_9_CARE_PROCESSES ICBS None (10 # 1) (6 # 1) 100 "steelblue" true None
       png ∅ =
       (Ok (ChartStreamingResponse {| chart_figure := chart; chart_dpi := 100 |}),
        <["indicator_94146" := IndicatorFrame sample_data]> ∅) /\
     scatter_points chart = [ ((950 # 1)%Q, (43 # 1)%Q); ((400 # 1)%Q, (52 # 1)%Q) ] /\
     scatter_color chart = "steelblue") /\
  generate_chart sample_fetch sample_scatter_error sample_linregress sample_format_3f
    TYPE1_9_CARE_PROCESSES ICBS None (10 # 1) (6 # 1) 100 "blurple" true None png ∅ =
    (Raise (ValueError "'color' kwarg must be a color or sequence of color specs."),
     <["indicator_94146" := IndicatorFrame sample_data]> ∅) /\
  fst (get_correlation sample_fetch sample_pearsonr TYPE1_9_CARE_PROCESSES ICBS None ∅) =
    Raise (HTTPException 400 "Insufficient data for correlation analysis").
Proof.
  split; [|split].
  - destruct (generate_chart_plots_complete_rows sample_fetch sample_pearsonr
                sample_scatter_error sample_linregress sample_format_3f
                TYPE1_9_CARE_PROCESSES ICBS None (10 # 1) (6 # 1) 100 "steelblue" true None
                png ∅ (<["indicator_94146" := IndicatorFrame sample_data]> ∅)
                (List.filter (fun row => String.eqb (Time_period row) "2023/24")
                   (List.filter (fun row => String.eqb (Area_Type row) "ICBs") sample_data))
                "2023/24")
      as (_ & Hchart & _).
    + vm_compute. reflexivity.
    + destruct Hchart as (chart & Hrun & Hpoints & _ & Hcolor).
      * reflexivity.
      * right. right. eexists. vm_compute. reflexivity.
      * exists chart. split; [exact Hrun|]. split; [exact Hpoints | exact Hcolor].
  - destruct (generate_chart_plots_complete_rows sample_fetch sample_pearsonr
                sample_scatter_error sample_linregress sample_format_3f
                TYPE1_9_CARE_PROCESSES ICBS None (10 # 1) (6 # 1) 100 "blurple" true None
                png ∅ (<["indicator_94146" := IndicatorFrame sample_data]> ∅)
                (List.filter (fun row => String.eqb (Time_period row) "2023/24")
                   (List.filter (fun row => String.eqb (Area_Type row) "ICBs") sample_data))
                "2023/24")
      as (Hcolor & _ & _).
    + vm_compute. reflexivity.
    + apply Hcolor. reflexivity.
  - destruct (generate_chart_plots_complete_rows sample_fetch sample_pearsonr
                sample_scatter_error sample_linregress sample_format_3f
                TYPE1_9_CARE_PROCESSES ICBS None (10 # 1) (6 # 1) 100 "steelblue" true None
                png ∅ (<["indicator_94146" := IndicatorFrame sample_data]> ∅)
                (List.filter (fun row => String.eqb (Time_period row) "2023/24")
                   (List.filter (fun row => String.eqb (Area_Type row) "ICBs") sample_data))
                "2023/24")
      as (_ & _ & Hfew).
    + vm_compute. reflexivity.
    + apply Hfew. vm_compute. lia.
Defined.

Lemma generate_chart_regression_line_witness :
  (exists chart line,
     generate_chart sample_fetch_ten sample_scatter_error sample_linregress sample_format_3f
       TYPE1_9_CARE_PROCESSES ICBS None (10 # 1) (6 # 1) 100 "steelblue" true None
       png ∅ =
       (Ok (ChartStreamingResponse {| chart_figure := chart; chart_dpi := 100 |}),
        <["indicator_94146" := IndicatorFrame sample_ten]> ∅) /\
     regression chart = Some line /\
     line_label line = "r = 0.000, p = 0.000" /\
     map fst (line_points line) = map fst (scatter_points chart)) /\
  generate_chart sample_fetch_level sample_scatter_error sample_linregress sample_format_3f
    TYPE1_9_CARE_PROCESSES ICBS None (10 # 1) (6 # 1) 100 "steelblue" true None png ∅ =
    (Raise (ValueError
              "Cannot calculate a linear regression if all x values are identical"),
     <["indicator_94146" := IndicatorFrame sample_level]> ∅).
Proof.
  split.
  - destruct (generate_chart_regression_line sample_fetch_ten sample_scatter_error
                sample_linregress sample_format_3f
                TYPE1_9_CARE_PROCESSES ICBS None (10 # 1) (6 # 1) 100 "steelblue" true None
                png ∅ (<["indicator_94146" := IndicatorFrame sample_ten]> ∅)
                sample_ten "2023/24")
      as ([_ Hline] & _).
    + vm_compute. reflexivity.
    + reflexivity.
    + reflexivity.
    + vm_compute. lia.
    + destruct (Hline (Some (- (1 # 100))%Q) (Some (60 # 1)%Q) (Some (- (1 # 2))%Q)
                  (Some (1 # 100)%Q) (Some (1 # 10)%Q))
        as (chart & Hrun & Hreg & Hx); [vm_compute; reflexivity|].
      exists chart. eexists. split; [exact Hrun|]. split; [exact Hreg|].
      split; [reflexivity|]. cbn [line_points]. rewrite map_map. cbn [fst].
      now rewrite map_id.
  - destruct (generate_chart_regression_line sample_fetch_level sample_scatter_error
                sample_linregress sample_format_3f
                TYPE1_9_CARE_PROCESSES ICBS None (10 # 1) (6 # 1) 100 "steelblue" true None
                png ∅ (<["indicator_94146" := IndicatorFrame sample_level]> ∅)
                sample_level "2023/24")
      as ([Hraise _] & _).
    + vm_compute. reflexivity.
    + reflexivity.
    + reflexivity.
    + vm_compute. lia.
    + apply Hraise. vm_compute. reflexivity.
Defined.
